(** * The enclave service façade of go-ten (go/enclave/enclave.go)

    A shallow embedding of [enclaveImpl] and of the start-up recovery routine
    [restoreStateDBCache].  The façade is a thin orchestration layer over
    collaborators that the file only sees through Go interfaces (storage, the
    L1 block processor, the rollup consumer, the node service, the batch
    registry, the crypto helpers, ...).  The embedding keeps that shape:

    - the collaborators are the fields of the class [Collaborators], over an
      abstract world [W] holding everything they own;
    - every method of [enclaveImpl] is a computation in the monad [M]: it
      threads the world and the stop-control flag, may panic, and emits the
      list of collaborator calls, mutex operations and log lines it performs,
      in program order;
    - [simCollaborators] is a small in-memory implementation of the
      interfaces, used to run the façade on concrete inputs.

    Not modelled: wall-clock measurements ([core.LogMethodDuration],
    [time.Sleep]), the key/value context of log lines, and the capacity and
    blocking of the channel of [StreamL2Updates].  A call runs on its own:
    a collaborator method that only reads is a function of the world, so two
    reads with no write in between agree; what another goroutine does to the
    collaborators between two steps of a call is not modelled. *)

From Stdlib Require Import ZArith List String Bool Lia DecimalString.
Import ListNotations.
Local Open Scope string_scope.
Local Open Scope list_scope.
Local Open Scope Z_scope.

(** ** Data *)

(** [gethcommon.Hash]: 32 bytes, read as a number; the zero value is all zeroes. *)
Definition Hash := Z.
Definition zeroHash : Hash := 0.

Definition bytes := list Byte.byte.
Definition Secret := bytes.
Definition EncryptedSharedEnclaveSecret := bytes.

(** [uint64] arithmetic wraps around. *)
Definition uint64_mod : Z := 2 ^ 64.
Definition wrap64 (z : Z) : Z := z mod uint64_mod.

(** The [Uint64] method of [big.Int]: the low 64 bits of the absolute value. *)
Definition Uint64 (x : Z) : Z := wrap64 (Z.abs x).

(** [%d] of [fmt.Errorf]. *)
Definition fmt_d (n : Z) : string := NilZero.string_of_int (Z.to_int n).

(** Modelled from the spec: the constant [common.L2GenesisSeqNo] is declared
    outside this file; sequencer order numbers are "dense from 1", and the
    source comment in [Status] says "the first seq number is 1". *)
Definition L2GenesisSeqNo : Z := 1.

(** [_noHeadBatch = big.NewInt(0)] *)
Definition _noHeadBatch : Z := 0.

Record BatchHeader := {
  ParentHash : Hash;
  Number : Z;
  SequencerOrderNo : Z;
  L1Proof : Hash;
  Root : Hash;
  Signature : bytes
}.

Record ExtBatch := {
  ext_Header : BatchHeader;
  EncryptedTxBlob : bytes
}.

Record Batch := {
  Header : BatchHeader;
  Transactions : list bytes
}.

(** [batch.NumberU64()] *)
Definition NumberU64 (b : Batch) : Z := Uint64 (Number (Header b)).

Record L1Block := {
  blk_Hash : Hash;
  blk_ParentHash : Hash;
  blk_Number : Z
}.

Definition Receipts := list bytes.

Record BlockAndReceipts := {
  br_Block : L1Block;
  br_Receipts : Receipts
}.

Record ChainFork := {
  CommonAncestor : Hash;
  NonCanonicalPath : list Hash;
  CanonicalPath : list Hash
}.

(** [components.BlockIngestionType]; [IsFork()] is read off the record. *)
Record BlockIngestionType := {
  IsFork : bool;
  ing_ChainFork : ChainFork
}.

Record ExtRollup := {
  rollup_FromSeq : Z;
  rollup_ToSeq : Z;
  rollup_Blob : bytes
}.

Record EnclaveKey := {
  PublicKeyBytes : bytes;
  PrivateKey : bytes;
  key_EnclaveID : Z
}.

Inductive StatusCode := Running | AwaitingSecret | Unavailable.

(** [common.Status]; [L2Head] is a pointer to a [big.Int], [None] is nil. *)
Record common_Status := {
  StatusCode_ : StatusCode;
  L1Head : Hash;
  L2Head : option Z
}.

Record BlockSubmissionResponse := {
  ProducedSecretResponses : list bytes
}.

Record TransactionListingResponse := {
  TransactionsData : list bytes;
  Total : Z
}.

(** ** Errors *)

(** The error values the façade builds or inspects: the sentinels of
    [errutil] and [components], [fmt.Errorf] with and without [%w],
    [syserr.InternalError] (built by [responses.ToInternalError]) and
    [errutil.BlockRejectError]. *)
Inductive error : Type :=
| ErrNotFound
| ErrBlockAncestorNotFound
| ErrBlockAlreadyProcessed
| ErrDuplicateRollup
| errorString (msg : string)
| wrapError (msg : string) (cause : error)
| InternalError (cause : error)
| BlockRejectError (rej_L1Head : Hash) (Wrapped : error).

Fixpoint error_eqb (a b : error) : bool :=
  match a, b with
  | ErrNotFound, ErrNotFound => true
  | ErrBlockAncestorNotFound, ErrBlockAncestorNotFound => true
  | ErrBlockAlreadyProcessed, ErrBlockAlreadyProcessed => true
  | ErrDuplicateRollup, ErrDuplicateRollup => true
  | errorString m, errorString m' => String.eqb m m'
  | wrapError m c, wrapError m' c' => String.eqb m m' && error_eqb c c'
  | InternalError c, InternalError c' => error_eqb c c'
  | BlockRejectError h c, BlockRejectError h' c' => Z.eqb h h' && error_eqb c c'
  | _, _ => false
  end.

(** [errors.Is]: equality with the target somewhere along the [%w] chain. *)
Fixpoint errors_Is (err target : error) : bool :=
  error_eqb err target ||
  match err with
  | wrapError _ cause => errors_Is cause target
  | _ => false
  end.

(** [errors.Is(err, syserr.InternalError{})]: an internal error along the chain. *)
Fixpoint errors_IsInternal (err : error) : bool :=
  match err with
  | InternalError _ => true
  | wrapError _ cause => errors_IsInternal cause
  | _ => false
  end.

(** [responses.ToInternalError] (every call site passes a non-nil error). *)
Definition ToInternalError (err : error) : error := InternalError err.

(** The codes of the error envelope. *)
Inductive ErrCode := CodeUnavailable | CodeInternal | CodeBlockReject | CodeUserFacing.

(** The code a returned error carries; a bare [fmt.Errorf] or a sentinel
    carries none. *)
Definition codeOf (err : error) : option ErrCode :=
  match err with
  | InternalError _ => Some CodeInternal
  | BlockRejectError _ _ => Some CodeBlockReject
  | _ => None
  end.

(** Go's [(T, error)] when the payload is nil on failure. *)
Inductive result (A : Type) : Type :=
| Ok (a : A)
| Err (e : error).
Arguments Ok {A} a.
Arguments Err {A} e.

Definition isOk {A} (r : result A) : bool :=
  match r with Ok _ => true | Err _ => false end.

(** ** Events *)

Inductive LogLevel := LvlTrace | LvlDebug | LvlInfo | LvlWarn | LvlError.

(** The validate/execute pairs of the read-only encrypted RPCs. *)
Inductive RpcKind :=
| TenCallRpc | GetTransactionCountRpc | GetTransactionRpc
| GetTransactionReceiptRpc | GetBalanceRpc | EstimateGasRpc | GetLogsRpc
| GetCustomQueryRpc.

(** One constructor per collaborator method the façade invokes. *)
Inductive Call :=
| Storage_FetchSecret
| Storage_StoreSecret (s : Secret)
| Storage_FetchBatch (h : Hash)
| Storage_FetchBatchBySeqNo (seq : Z)
| Storage_FetchCurrentSequencerNo
| Storage_StoreBatch (b : Batch) (converted : Hash)
| Storage_CreateStateDB (h : Hash)
| Storage_HealthCheck
| Storage_Close
| Storage_GetContractCount
| Storage_GetPublicTransactionData
| Storage_GetPublicTransactionCount
| L1_GetHead
| L1_Process
| L1_HealthCheck
| Rollup_ProcessRollupsInBlock
| Service_OnL1Block
| Service_OnL1Fork
| Service_Close
| Sequencer_CreateBatch
| Sequencer_CreateRollup
| Validator_VerifySequencerSignature
| Validator_ExecuteStoredBatches
| Registry_HeadBatchSeq
| Registry_SubscribeForExecutedBatches
| Registry_UnsubscribeFromBatches
| Registry_HealthCheck
| SharedSecret_ProcessNetworkSecretMsgs
| Crypto_GenerateEntropy
| Crypto_EncryptSecret
| Encoding_CreateEthHeaderForBatch
| Genesis_CommitGenesisState
| Executor_ExecuteBatch (b : Batch)
| Rpc_WithVKEncryption (k : RpcKind)
| Rpc_SubmitTx
| Rpc_DecryptBytes
| Subs_AddSubscription
| Subs_RemoveSubscription
| Attestation_GetReport
| Debugger_DebugTraceTransaction
| Debugger_DebugEventLogRelevancy
| CrossChain_GetL2MessageBusAddress
| Profiler_Stop.

(** The calls that write to the world; the rest only read it. *)
Definition mutating (c : Call) : bool :=
  match c with
  | Storage_StoreSecret _ | Storage_StoreBatch _ _ | Storage_Close
  | L1_Process | Rollup_ProcessRollupsInBlock
  | Service_OnL1Block | Service_OnL1Fork | Service_Close
  | Sequencer_CreateBatch | Sequencer_CreateRollup
  | Validator_ExecuteStoredBatches
  | Registry_SubscribeForExecutedBatches | Registry_UnsubscribeFromBatches
  | SharedSecret_ProcessNetworkSecretMsgs
  | Crypto_GenerateEntropy | Crypto_EncryptSecret
  | Genesis_CommitGenesisState | Executor_ExecuteBatch _
  | Rpc_SubmitTx
  | Subs_AddSubscription | Subs_RemoveSubscription
  | Profiler_Stop => true
  | _ => false
  end.

Inductive Event :=
| EvLock                              (* e.mainMutex.Lock() *)
| EvUnlock                            (* the deferred e.mainMutex.Unlock() *)
| EvStop                              (* e.stopControl.Stop() *)
| EvCall (c : Call)
| EvLog (lvl : LogLevel) (msg : string).

(** ** The monad of façade computations *)

Inductive Outcome (A : Type) : Type :=
| Ret (a : A)
| Panic (msg : string)
| Timeout.                            (* the loop fuel ran out *)
Arguments Ret {A} a.
Arguments Panic {A} msg.
Arguments Timeout {A}.

Section Facade.

Context {W : Type}.

(** What a call can observe and change: the world of the collaborators and
    the stop-control flag. *)
Record St := {
  world : W;
  stopping : bool
}.

Definition M (A : Type) : Type := St -> Outcome A * St * list Event.

Definition ret {A} (a : A) : M A := fun s => (Ret a, s, []).

Definition bind {A B} (m : M A) (k : A -> M B) : M B := fun s =>
  match m s with
  | (Ret a, s1, t1) =>
      match k a s1 with
      | (o, s2, t2) => (o, s2, t1 ++ t2)
      end
  | (Panic msg, s1, t1) => (Panic msg, s1, t1)
  | (Timeout, s1, t1) => (Timeout, s1, t1)
  end.

Definition panic {A} (msg : string) : M A := fun s => (Panic msg, s, []).
Definition timeout {A} : M A := fun s => (Timeout, s, []).

Definition emit (ev : Event) : M unit := fun s => (Ret tt, s, [ev]).

(** A collaborator method that reads the world. *)
Definition query {A} (c : Call) (f : W -> A) : M A := fun s =>
  (Ret (f (world s)), s, [EvCall c]).

(** A collaborator method that may change the world. *)
Definition invoke {A} (c : Call) (f : W -> A * W) : M A := fun s =>
  match f (world s) with
  | (a, w') => (Ret a, {| world := w'; stopping := stopping s |}, [EvCall c])
  end.

Definition logger (lvl : LogLevel) (msg : string) : M unit := emit (EvLog lvl msg).

(** [e.stopControl.IsStopping()] *)
Definition IsStopping : M bool := fun s => (Ret (stopping s), s, []).

(** [e.stopControl.Stop()] *)
Definition stopControl_Stop : M unit := fun s =>
  (Ret tt, {| world := world s; stopping := true |}, [EvStop]).

(** [e.mainMutex.Lock(); defer e.mainMutex.Unlock()] around the rest of the
    method: the deferred unlock also runs when the body panics. *)
Definition withMainMutex {A} (body : M A) : M A := fun s =>
  match body s with
  | (o, s', t) => (o, s', EvLock :: t ++ [EvUnlock])
  end.

End Facade.

Arguments St W : clear implicits.
Arguments M W A : clear implicits.

Declare Scope facade_scope.
Delimit Scope facade_scope with facade.
Notation "x <- m ;; k" := (bind m (fun x => k))
  (at level 61, m at next level, right associativity) : facade_scope.
Notation "m ;;; k" := (bind m (fun _ => k))
  (at level 61, right associativity) : facade_scope.
Local Open Scope facade_scope.

(** ** The collaborators *)

(** [stateDB.GetCode(address)]: the part of a state snapshot the façade reads. *)
Definition StateDB := Z -> bytes.

Record EthHeader := {
  eth_ParentHash : Hash;
  eth_Number : Z;
  eth_Root : Hash
}.

Record QueryPagination := {
  Offset : Z;
  Size : Z
}.

(** The interfaces [enclaveImpl] is wired to by [NewEnclave], and the package
    functions it calls.  A method that only reads is a function of the world;
    a method that may write returns the new world. *)
Class Collaborators (W : Type) := {
  (* storage.Storage *)
  FetchSecret : W -> result Secret;
  StoreSecret : Secret -> W -> option error * W;
  FetchBatch : Hash -> W -> result Batch;
  FetchBatchBySeqNo : Z -> W -> result Batch;
  FetchCurrentSequencerNo : W -> result Z;
  StoreBatch : Batch -> Hash -> W -> option error * W;
  CreateStateDB : Hash -> W -> result StateDB;
  storage_HealthCheck : W -> result bool;
  storage_Close : W -> option error * W;
  GetContractCount : W -> result Z;
  storage_GetPublicTransactionData : option QueryPagination -> W -> result (list bytes);
  GetPublicTransactionCount : W -> result Z;
  (* components.L1BlockProcessor *)
  GetHead : W -> result L1Block;
  Process : BlockAndReceipts -> W -> result BlockIngestionType * W;
  l1_HealthCheck : W -> result bool;
  (* components.RollupConsumer *)
  ProcessRollupsInBlock : BlockAndReceipts -> W -> option error * W;
  (* nodetype.NodeType, nodetype.Sequencer, nodetype.ObsValidator *)
  OnL1Block : L1Block -> BlockIngestionType -> W -> option error * W;
  OnL1Fork : ChainFork -> W -> option error * W;
  service_Close : W -> option error * W;
  sequencer_CreateBatch : bool -> W -> option error * W;
  sequencer_CreateRollup : Z -> W -> result ExtRollup * W;
  VerifySequencerSignature : Batch -> W -> option error;
  ExecuteStoredBatches : W -> option error * W;
  (* components.BatchRegistry *)
  HeadBatchSeq : W -> option Z;
  SubscribeForExecutedBatches : W -> W;
  UnsubscribeFromBatches : W -> W;
  registry_HealthCheck : W -> result bool;
  (* components.SharedSecretProcessor *)
  ProcessNetworkSecretMsgs : BlockAndReceipts -> W -> list bytes * W;
  (* crypto: the entropy source is part of the world *)
  GenerateEntropy : W -> Secret * W;
  EncryptSecret : bytes -> Secret -> W -> result EncryptedSharedEnclaveSecret * W;
  DecryptSecret : EncryptedSharedEnclaveSecret -> bytes -> result Secret;
  (* core, common, gethencoding *)
  batch_Hash : Batch -> Hash;
  eth_Hash : EthHeader -> Hash;
  ToBatch : ExtBatch -> result Batch;
  ToExtBatch : Batch -> result ExtBatch;
  ParseBlockAndReceipts : L1Block -> Receipts -> result BlockAndReceipts;
  CreateEthHeaderForBatch : BatchHeader -> W -> result EthHeader;
  (* rpc.EncryptionManager, events.SubscriptionManager *)
  WithVKEncryption : RpcKind -> bytes -> W -> result bytes;
  SubmitTx_WithVKEncryption : bytes -> W -> result bytes * W;   (* adds to the mempool *)
  DecryptBytes : bytes -> W -> result bytes;
  AddSubscription : Z -> bytes -> W -> option error * W;
  RemoveSubscription : Z -> W -> W;
  (* attestation, debugger, cross-chain processors, profiler *)
  GetReport : bytes -> Z -> string -> W -> result bytes;
  debugger_DebugTraceTransaction : Hash -> W -> result bytes;
  debugger_DebugEventLogRelevancy : Hash -> W -> result bytes;
  GetL2MessageBusAddress : W -> result Z;
  profiler_Stop : W -> option error * W;
  (* genesis.Genesis, components.BatchExecutor *)
  CommitGenesisState : W -> option error * W;
  ExecuteBatch : Batch -> W -> option error * W
}.

(** Modelled from the spec: the node service is a tagged variant,
    [NodeService = Sequencer | Validator]; [CreateBatch] and [CreateRollup]
    exist only on the sequencer, [ExecuteStoredBatches] and
    [VerifySequencerSignature] only on the validator (the two Go types are
    declared in package [nodetype], outside this file). *)
Inductive NodeKind := SequencerNode | ValidatorNode.

(** The fields of [enclaveImpl] that are plain data.  [NewEnclave] never
    leaves [enclaveKey] or [registry] nil, so they are taken as present.
    The methods of the section below take the pointers they dereference as
    the values pointed to; [SubmitBatchPtr] and [GetCodePtr] further down are
    [SubmitBatch] and [GetCode] on a pointer that may be nil. *)
Record enclaveImpl := {
  config_HostID : Z;
  config_HostAddress : string;
  config_DebugNamespaceEnabled : bool;
  service : NodeKind;
  profiler : bool;                    (* e.profiler != nil *)
  enclaveKey : EnclaveKey
}.

(** [json.RawMessage]: the debugger's JSON, or the text of an error. *)
Inductive RawMessage :=
| RawJSON (b : bytes)
| RawErrorText (err : error).

(** The two values [StreamL2Updates] can hand back. *)
Inductive UpdatesChannel := ClosedChannel | OpenChannel.

(** ** The methods of [enclaveImpl] *)

Section Methods.

Context {W : Type} `{Collaborators W}.
Variable e : enclaveImpl.

Definition stoppingErr {A} (method : string) : M W (result A) :=
  ret (Err (ToInternalError
    (errorString ("requested " ++ method ++ " with the enclave stopping")%string))).

Definition GetBatch (hash : Hash) : M W (result ExtBatch) :=
  r <- query (Storage_FetchBatch hash) (FetchBatch hash) ;;
  match r with
  | Err err => ret (Err (ToInternalError (wrapError "failed getting batch. Cause: %w" err)))
  | Ok batch =>
      match ToExtBatch batch with
      | Err err => ret (Err (ToInternalError err))
      | Ok b => ret (Ok b)
      end
  end.

Definition GetBatchBySeqNo (seqNo : Z) : M W (result ExtBatch) :=
  r <- query (Storage_FetchBatchBySeqNo seqNo) (FetchBatchBySeqNo seqNo) ;;
  match r with
  | Err err => ret (Err (ToInternalError (wrapError "failed getting batch. Cause: %w" err)))
  | Ok batch =>
      match ToExtBatch batch with
      | Err err => ret (Err (ToInternalError err))
      | Ok b => ret (Ok b)
      end
  end.

(** [Status] returns a status value together with the error. *)
Definition Status : M W (common_Status * option error) :=
  stop <- IsStopping ;;
  if stop then
    ret ({| StatusCode_ := Unavailable; L1Head := zeroHash; L2Head := None |},
         Some (ToInternalError (errorString "requested Status with the enclave stopping")))
  else
    sec <- query Storage_FetchSecret FetchSecret ;;
    match sec with
    | Err err =>
        if errors_Is err ErrNotFound then
          ret ({| StatusCode_ := AwaitingSecret; L1Head := zeroHash;
                  L2Head := Some _noHeadBatch |}, None)
        else
          ret ({| StatusCode_ := Unavailable; L1Head := zeroHash; L2Head := None |},
               Some (ToInternalError err))
    | Ok _ =>
        l1Head <- query L1_GetHead GetHead ;;
        l1HeadHash <- match l1Head with
                      | Err _ =>
                          logger LvlDebug "failed to fetch L1 head block for status response" ;;;
                          ret zeroHash
                      | Ok blk => ret (blk_Hash blk)
                      end ;;
        currSeqNo <- query Storage_FetchCurrentSequencerNo FetchCurrentSequencerNo ;;
        l2HeadSeqNo <- match currSeqNo with
                       | Err _ =>
                           logger LvlDebug "failed to fetch L2 head batch for status response" ;;;
                           ret _noHeadBatch
                       | Ok n => ret n
                       end ;;
        ret ({| StatusCode_ := Running; L1Head := l1HeadHash; L2Head := Some l2HeadSeqNo |},
             None)
    end.

Definition StopClient : M W (option error) := ret None.

Definition StreamL2Updates : M W UpdatesChannel :=
  stop <- IsStopping ;;
  if stop then ret ClosedChannel
  else
    invoke Registry_SubscribeForExecutedBatches
           (fun w => (tt, SubscribeForExecutedBatches w)) ;;;
    ret OpenChannel.

Definition rejectBlockErr (cause : error) : M W error :=
  l1Head <- query L1_GetHead GetHead ;;
  let hash := match l1Head with
              | Ok blk => blk_Hash blk
              | Err _ => zeroHash
              end in
  ret (BlockRejectError hash cause).

Definition ingestL1Block (br : BlockAndReceipts) : M W (result BlockIngestionType) :=
  logger LvlInfo "Start ingesting block" ;;;
  r <- invoke L1_Process (Process br) ;;
  match r with
  | Err err =>
      (if errors_Is err ErrBlockAncestorNotFound || errors_Is err ErrBlockAlreadyProcessed
       then logger LvlDebug "Did not ingest block"
       else logger LvlWarn "Failed ingesting block") ;;;
      ret (Err err)
  | Ok ingestion =>
      rerr <- invoke Rollup_ProcessRollupsInBlock (ProcessRollupsInBlock br) ;;
      match rerr with
      | Some err =>
          if negb (errors_Is err ErrDuplicateRollup)
          then logger LvlError "Encountered error while processing l1 block"
          else ret tt
      | None => ret tt
      end ;;;
      if IsFork ingestion then
        ferr <- invoke Service_OnL1Fork (OnL1Fork (ing_ChainFork ingestion)) ;;
        match ferr with
        | Some err => ret (Err err)
        | None => ret (Ok ingestion)
        end
      else ret (Ok ingestion)
  end.

Definition SubmitL1Block (block : L1Block) (receipts : Receipts)
    : M W (result BlockSubmissionResponse) :=
  stop <- IsStopping ;;
  if stop then stoppingErr "SubmitL1Block"
  else withMainMutex (
    logger LvlInfo "SubmitL1Block" ;;;
    match ParseBlockAndReceipts block receipts with
    | Err err =>
        rej <- rejectBlockErr (wrapError "could not submit L1 block. Cause: %w" err) ;;
        ret (Err rej)
    | Ok br =>
        r <- ingestL1Block br ;;
        match r with
        | Err err =>
            rej <- rejectBlockErr (wrapError "could not submit L1 block. Cause: %w" err) ;;
            ret (Err rej)
        | Ok ingestion =>
            (if IsFork ingestion
             then logger LvlInfo "Detected fork at block %s with height %d"
             else ret tt) ;;;
            oerr <- invoke Service_OnL1Block (OnL1Block block ingestion) ;;
            match oerr with
            | Some err =>
                rej <- rejectBlockErr (wrapError "could not submit L1 block. Cause: %w" err) ;;
                ret (Err rej)
            | None =>
                resp <- invoke SharedSecret_ProcessNetworkSecretMsgs
                               (ProcessNetworkSecretMsgs br) ;;
                ret (Ok {| ProducedSecretResponses := resp |})
            end
        end
    end).

(** A read-only RPC under the viewing-key envelope: the stop-control check,
    then [rpc.WithVKEncryption] with the method's validate/execute pair. *)
Definition withVKEncryption (method : string) (k : RpcKind) (encryptedParams : bytes)
    : M W (result bytes) :=
  stop <- IsStopping ;;
  if stop then stoppingErr method
  else query (Rpc_WithVKEncryption k) (WithVKEncryption k encryptedParams).

(** [rpc.WithVKEncryption] with [SubmitTxValidate] and [SubmitTxExecute]. *)
Definition SubmitTx (encryptedTxParams : bytes) : M W (result bytes) :=
  stop <- IsStopping ;;
  if stop then stoppingErr "SubmitTx"
  else invoke Rpc_SubmitTx (SubmitTx_WithVKEncryption encryptedTxParams).

(** [e.service.(nodetype.ObsValidator)] *)
Definition Validator : M W unit :=
  match service e with
  | ValidatorNode => ret tt
  | SequencerNode => panic "enclave service is not a validator but validator was requested!"
  end.

(** [e.service.(nodetype.Sequencer)] *)
Definition Sequencer : M W unit :=
  match service e with
  | SequencerNode => ret tt
  | ValidatorNode => panic "enclave service is not a sequencer but sequencer was requested!"
  end.

(** [SubmitBatch] on an external batch whose header and sequencer order
    number are there; [SubmitBatchPtr] below is the method on the pointer. *)
Definition SubmitBatch (extBatch : ExtBatch) : M W (option error) :=
  stop <- IsStopping ;;
  if stop then
    ret (Some (ToInternalError (errorString "requested SubmitBatch with the enclave stopping")))
  else
    logger LvlInfo "Received new p2p batch" ;;;
    let seqNo := Uint64 (SequencerOrderNo (ext_Header extBatch)) in
    missing <- (if seqNo >? L2GenesisSeqNo + 1 then
                  r <- query (Storage_FetchBatchBySeqNo (wrap64 (seqNo - 1)))
                             (FetchBatchBySeqNo (wrap64 (seqNo - 1))) ;;
                  ret (negb (isOk r))
                else ret false) ;;
    if (missing : bool) then
      ret (Some (ToInternalError (errorString
        ("could not find previous batch with seq: " ++ fmt_d (wrap64 (seqNo - 1)))%string)))
    else
      match ToBatch extBatch with
      | Err err =>
          ret (Some (ToInternalError (wrapError "could not convert batch. Cause: %w" err)))
      | Ok batch =>
          Validator ;;;
          verr <- query Validator_VerifySequencerSignature (VerifySequencerSignature batch) ;;
          match verr with
          | Some err =>
              ret (Some (ToInternalError (wrapError
                "invalid batch received. Could not verify signature. Cause: %w" err)))
          | None =>
              ch <- query Encoding_CreateEthHeaderForBatch
                          (CreateEthHeaderForBatch (ext_Header extBatch)) ;;
              match ch with
              | Err err => ret (Some err)
              | Ok convertedHeader =>
                  withMainMutex (
                    serr <- invoke (Storage_StoreBatch batch (eth_Hash convertedHeader))
                                   (StoreBatch batch (eth_Hash convertedHeader)) ;;
                    match serr with
                    | Some err =>
                        ret (Some (ToInternalError
                          (wrapError "could not store batch. Cause: %w" err)))
                    | None =>
                        Validator ;;;
                        xerr <- invoke Validator_ExecuteStoredBatches ExecuteStoredBatches ;;
                        match xerr with
                        | Some err =>
                            ret (Some (ToInternalError
                              (wrapError "could not execute batches. Cause: %w" err)))
                        | None => ret None
                        end
                    end)
              end
          end
      end.

Definition CreateBatch (skipBatchIfEmpty : bool) : M W (option error) :=
  stop <- IsStopping ;;
  if stop then
    ret (Some (ToInternalError (errorString "requested CreateBatch with the enclave stopping")))
  else withMainMutex (
    Sequencer ;;;
    err <- invoke Sequencer_CreateBatch (sequencer_CreateBatch skipBatchIfEmpty) ;;
    match err with
    | Some err => ret (Some (ToInternalError err))
    | None => ret None
    end).

Definition CreateRollup (fromSeqNo : Z) : M W (result ExtRollup) :=
  stop <- IsStopping ;;
  if stop then stoppingErr "GenerateRollup"
  else withMainMutex (
    head <- query Registry_HeadBatchSeq HeadBatchSeq ;;
    match head with
    | None => ret (Err (ToInternalError (errorString "not initialised yet")))
    | Some _ =>
        Sequencer ;;;
        r <- invoke Sequencer_CreateRollup (sequencer_CreateRollup fromSeqNo) ;;
        match r with
        | Err err => ret (Err (ToInternalError err))
        | Ok rollup => ret (Ok rollup)
        end
    end).

Definition ObsCall (encryptedParams : bytes) : M W (result bytes) :=
  withVKEncryption "ObsCall" TenCallRpc encryptedParams.

Definition GetTransactionCount (encryptedParams : bytes) : M W (result bytes) :=
  withVKEncryption "GetTransactionCount" GetTransactionCountRpc encryptedParams.

Definition GetTransaction (encryptedParams : bytes) : M W (result bytes) :=
  withVKEncryption "GetTransaction" GetTransactionRpc encryptedParams.

Definition GetTransactionReceipt (encryptedParams : bytes) : M W (result bytes) :=
  withVKEncryption "GetTransactionReceipt" GetTransactionReceiptRpc encryptedParams.

Definition Attestation : M W (result bytes) :=
  stop <- IsStopping ;;
  if stop then stoppingErr "ObsCall"
  else
    r <- query Attestation_GetReport
               (GetReport (PublicKeyBytes (enclaveKey e)) (config_HostID e)
                          (config_HostAddress e)) ;;
    match r with
    | Err err => ret (Err (ToInternalError (wrapError "could not produce remote report. Cause %w" err)))
    | Ok report => ret (Ok report)
    end.

Definition GenerateSecret : M W (result EncryptedSharedEnclaveSecret) :=
  stop <- IsStopping ;;
  if stop then stoppingErr "GenerateSecret"
  else
    secret <- invoke Crypto_GenerateEntropy GenerateEntropy ;;
    err <- invoke (Storage_StoreSecret secret) (StoreSecret secret) ;;
    match err with
    | Some err => ret (Err (ToInternalError (wrapError "could not store secret. Cause: %w" err)))
    | None =>
        r <- invoke Crypto_EncryptSecret
                    (EncryptSecret (PublicKeyBytes (enclaveKey e)) secret) ;;
        match r with
        | Err err => ret (Err (ToInternalError (wrapError "failed to encrypt secret. Cause: %w" err)))
        | Ok encSec => ret (Ok encSec)
        end
    end.

Definition InitEnclave (s : EncryptedSharedEnclaveSecret) : M W (option error) :=
  stop <- IsStopping ;;
  if stop then
    ret (Some (ToInternalError (errorString "requested InitEnclave with the enclave stopping")))
  else
    match DecryptSecret s (PrivateKey (enclaveKey e)) with
    | Err err => ret (Some (ToInternalError err))
    | Ok secret =>
        err <- invoke (Storage_StoreSecret secret) (StoreSecret secret) ;;
        match err with
        | Some err => ret (Some (ToInternalError (wrapError "could not store secret. Cause: %w" err)))
        | None =>
            logger LvlTrace "Secret decrypted and stored. Secret: %v" ;;;
            ret None
        end
    end.

Definition EnclaveID : M W (result Z) := ret (Ok (key_EnclaveID (enclaveKey e))).

Definition GetBalance (encryptedParams : bytes) : M W (result bytes) :=
  withVKEncryption "GetBalance" GetBalanceRpc encryptedParams.

(** [GetCode] on a batch hash that is there; [GetCodePtr] below is the
    method on the pointer. *)
Definition GetCode (address : Z) (batchHash : Hash) : M W (result bytes) :=
  stop <- IsStopping ;;
  if stop then stoppingErr "GetCode"
  else
    r <- query (Storage_CreateStateDB batchHash) (CreateStateDB batchHash) ;;
    match r with
    | Err err => ret (Err (ToInternalError (wrapError "could not create stateDB. Cause: %w" err)))
    | Ok stateDB => ret (Ok (stateDB address))
    end.

Definition Subscribe (id : Z) (encryptedSubscription : bytes) : M W (option error) :=
  stop <- IsStopping ;;
  if stop then
    ret (Some (ToInternalError
      (errorString "requested SubscribeForExecutedBatches with the enclave stopping")))
  else
    r <- query Rpc_DecryptBytes (DecryptBytes encryptedSubscription) ;;
    match r with
    | Err err =>
        ret (Some (wrapError
          "could not decrypt params in eth_subscribe logs request. Cause: %w" err))
    | Ok encodedSubscription =>
        invoke Subs_AddSubscription (AddSubscription id encodedSubscription)
    end.

Definition Unsubscribe (id : Z) : M W (option error) :=
  stop <- IsStopping ;;
  if stop then
    ret (Some (ToInternalError (errorString "requested Unsubscribe with the enclave stopping")))
  else
    invoke Subs_RemoveSubscription (fun w => (tt, RemoveSubscription id w)) ;;;
    ret None.

Definition Stop : M W (option error) :=
  stopControl_Stop ;;;
  perr <- (if profiler e then invoke Profiler_Stop profiler_Stop else ret None) ;;
  match perr with
  | Some err =>
      logger LvlError "Could not stop profiler" ;;;
      ret (Some err)
  | None =>
      invoke Registry_UnsubscribeFromBatches (fun w => (tt, UnsubscribeFromBatches w)) ;;;
      cerr <- invoke Service_Close service_Close ;;
      match cerr with
      | Some _ => logger LvlError "Could not stop node service"
      | None => ret tt
      end ;;;
      serr <- invoke Storage_Close storage_Close ;;
      match serr with
      | Some err =>
          logger LvlError "Could not stop db" ;;;
          ret (Some err)
      | None => ret None
      end
  end.

Definition EstimateGas (encryptedParams : bytes) : M W (result bytes) :=
  withVKEncryption "EstimateGas" EstimateGasRpc encryptedParams.

Definition GetLogs (encryptedParams : bytes) : M W (result bytes) :=
  withVKEncryption "GetLogs" GetLogsRpc encryptedParams.

Definition HealthCheck : M W (result bool) :=
  stop <- IsStopping ;;
  if stop then stoppingErr "HealthCheck"
  else
    st <- query Storage_HealthCheck storage_HealthCheck ;;
    match st with
    | Err _ =>
        logger LvlInfo "HealthCheck failed for the enclave storage" ;;;
        ret (Ok false)
    | Ok storageHealthy =>
        l1 <- query L1_HealthCheck l1_HealthCheck ;;
        match l1 with
        | Err _ =>
            logger LvlInfo "HealthCheck failed for the l1 block processor" ;;;
            ret (Ok false)
        | Ok l1blockHealthy =>
            l2 <- query Registry_HealthCheck registry_HealthCheck ;;
            match l2 with
            | Err _ =>
                logger LvlInfo "HealthCheck failed for the l2 batch registry" ;;;
                ret (Ok false)
            | Ok l2batchHealthy =>
                ret (Ok (storageHealthy && l1blockHealthy && l2batchHealthy))
            end
        end
    end.

(** The [config] pointer is handed on to the debugger as it is; it is part of
    what [debugger_DebugTraceTransaction] stands for. *)
Definition DebugTraceTransaction (txHash : Hash) : M W (result RawMessage) :=
  stop <- IsStopping ;;
  if stop then stoppingErr "DebugTraceTransaction"
  else if negb (config_DebugNamespaceEnabled e) then
    ret (Err (ToInternalError (errorString "debug namespace not enabled")))
  else
    r <- query Debugger_DebugTraceTransaction (debugger_DebugTraceTransaction txHash) ;;
    match r with
    | Err err =>
        if errors_IsInternal err then ret (Err (ToInternalError err))
        else ret (Ok (RawErrorText err))
    | Ok jsonMsg => ret (Ok (RawJSON jsonMsg))
    end.

Definition DebugEventLogRelevancy (txHash : Hash) : M W (result RawMessage) :=
  stop <- IsStopping ;;
  if stop then stoppingErr "DebugEventLogRelevancy"
  else if negb (config_DebugNamespaceEnabled e) then
    ret (Err (ToInternalError (errorString "debug namespace not enabled")))
  else
    r <- query Debugger_DebugEventLogRelevancy (debugger_DebugEventLogRelevancy txHash) ;;
    match r with
    | Err err =>
        if errors_IsInternal err then ret (Err (ToInternalError err))
        else ret (Ok (RawErrorText err))
    | Ok jsonMsg => ret (Ok (RawJSON jsonMsg))
    end.

Definition GetTotalContractCount : M W (result Z) :=
  stop <- IsStopping ;;
  if stop then stoppingErr "GetTotalContractCount"
  else query Storage_GetContractCount GetContractCount.

Definition GetCustomQuery (encryptedParams : bytes) : M W (result bytes) :=
  withVKEncryption "GetReceiptsByAddress" GetCustomQueryRpc encryptedParams.

(** [pagination] is a pointer that is handed on to storage as it is. *)
Definition GetPublicTransactionData (pagination : option QueryPagination)
    : M W (result TransactionListingResponse) :=
  stop <- IsStopping ;;
  if stop then stoppingErr "GetPublicTransactionData"
  else
    r <- query Storage_GetPublicTransactionData (storage_GetPublicTransactionData pagination) ;;
    match r with
    | Err err => ret (Err (ToInternalError (wrapError "unable to fetch data - %w" err)))
    | Ok paginatedData =>
        t <- query Storage_GetPublicTransactionCount GetPublicTransactionCount ;;
        match t with
        | Err err => ret (Err (ToInternalError (wrapError "unable to fetch data - %w" err)))
        | Ok totalData =>
            ret (Ok {| TransactionsData := paginatedData; Total := totalData |})
        end
    end.

Definition EnclavePublicConfig : M W (result Z) :=
  r <- query CrossChain_GetL2MessageBusAddress GetL2MessageBusAddress ;;
  match r with
  | Err systemError => ret (Err systemError)
  | Ok address => ret (Ok address)
  end.

End Methods.

(** ** Pointer arguments *)

(** Two methods dereference a pointer argument without a nil check:
    [SubmitBatch] its [*common.ExtBatch], the [Header] of the batch and the
    header's [SequencerOrderNo] (a pointer to a [big.Int]), and [GetCode] its
    [*common.L2BatchHash].  The records below are the external batch as the
    caller hands it over: [None] is nil. *)
Record BatchHeaderPtr := {
  ptr_ParentHash : Hash;
  ptr_Number : Z;
  ptr_SequencerOrderNo : option Z;
  ptr_L1Proof : Hash;
  ptr_Root : Hash;
  ptr_Signature : bytes
}.

Record ExtBatchPtr := {
  ptr_Header : option BatchHeaderPtr;
  ptr_EncryptedTxBlob : bytes
}.

(** The external batch behind the pointers, when none of them is nil. *)
Definition derefExtBatch (extBatch : option ExtBatchPtr) : option ExtBatch :=
  match extBatch with
  | None => None
  | Some b =>
      match ptr_Header b with
      | None => None
      | Some h =>
          match ptr_SequencerOrderNo h with
          | None => None
          | Some seqNo =>
              Some {| ext_Header := {| ParentHash := ptr_ParentHash h;
                                       Number := ptr_Number h;
                                       SequencerOrderNo := seqNo;
                                       L1Proof := ptr_L1Proof h;
                                       Root := ptr_Root h;
                                       Signature := ptr_Signature h |};
                      EncryptedTxBlob := ptr_EncryptedTxBlob b |}
          end
      end
  end.

(** What the Go runtime panics with at a nil dereference. *)
Definition nilDereference : string :=
  "runtime error: invalid memory address or nil pointer dereference".

Section PointerArguments.

Context {W : Type} `{Collaborators W}.
Variable e : enclaveImpl.

(** [SubmitBatch] as it is called.  The stop-control check comes first.  The
    arguments of the deferred [LogMethodDuration] and of the first log line
    read [extBatch.Hash()] and [extBatch.Header.Number]: a nil [extBatch] or a
    nil [Header] panics there, before the line is logged.  A nil
    [SequencerOrderNo] panics in [Uint64()], after the line is logged. *)
Definition SubmitBatchPtr (extBatch : option ExtBatchPtr) : M W (option error) :=
  match derefExtBatch extBatch with
  | Some b => SubmitBatch e b
  | None =>
      stop <- IsStopping ;;
      if stop then
        ret (Some (ToInternalError
          (errorString "requested SubmitBatch with the enclave stopping")))
      else
        match extBatch with
        | None => panic nilDereference
        | Some b =>
            match ptr_Header b with
            | None => panic nilDereference
            | Some _ =>
                logger LvlInfo "Received new p2p batch" ;;;
                panic nilDereference
            end
        end
  end.

(** [GetCode] as it is called: [*batchHash] is read after the stop-control
    check. *)
Definition GetCodePtr (address : Z) (batchHash : option Hash) : M W (result bytes) :=
  stop <- IsStopping ;;
  if stop then stoppingErr "GetCode"
  else
    match batchHash with
    | None => panic nilDereference
    | Some hash =>
        r <- query (Storage_CreateStateDB hash) (CreateStateDB hash) ;;
        match r with
        | Err err =>
            ret (Err (ToInternalError (wrapError "could not create stateDB. Cause: %w" err)))
        | Ok stateDB => ret (Ok (stateDB address))
        end
    end.

End PointerArguments.

(** ** Start-up recovery of the stateDB cache *)

Section Recovery.

Context {W : Type} `{Collaborators W}.

Definition stateDBAvailableForBatch (hash : Hash) : M W bool :=
  r <- query (Storage_CreateStateDB hash) (CreateStateDB hash) ;;
  ret (isOk r).

(** First loop of [replayBatchesToValidState]: step backwards from
    [batchToReplayFrom], appending every batch without stateDB data.  The Go
    loop is unbounded; [fuel] bounds the number of iterations. *)
Fixpoint collectBatchesToReplay (fuel : nat) (batchToReplayFrom : Batch)
    (batchesToReplay : list Batch) : M W (result (list Batch)) :=
  match fuel with
  | O => timeout
  | S fuel' =>
      avail <- stateDBAvailableForBatch (batch_Hash batchToReplayFrom) ;;
      if (avail : bool) then ret (Ok batchesToReplay)
      else
        let batchesToReplay := batchesToReplay ++ [batchToReplayFrom] in
        if NumberU64 batchToReplayFrom =? 0 then ret (Ok batchesToReplay)
        else
          r <- query (Storage_FetchBatch (ParentHash (Header batchToReplayFrom)))
                     (FetchBatch (ParentHash (Header batchToReplayFrom))) ;;
          match r with
          | Err err =>
              ret (Err (wrapError
                "unable to fetch previous batch while rolling back to stable state - %w" err))
          | Ok parent => collectBatchesToReplay fuel' parent batchesToReplay
          end
  end.

(** Second loop: [for i := len(batchesToReplay) - 1; i >= 0; i--], with
    [n = i + 1]. *)
Fixpoint replayLoop (n : nat) (batchesToReplay : list Batch) : M W (option error) :=
  match n with
  | O => ret None
  | S i =>
      match nth_error batchesToReplay i with
      | None => panic "runtime error: index out of range"
      | Some batch =>
          if NumberU64 batch =? 0 then
            err <- invoke Genesis_CommitGenesisState CommitGenesisState ;;
            match err with
            | Some err => ret (Some err)
            | None => replayLoop i batchesToReplay
            end
          else
            err <- invoke (Executor_ExecuteBatch batch) (ExecuteBatch batch) ;;
            match err with
            | Some err => ret (Some err)
            | None => replayLoop i batchesToReplay
            end
      end
  end.

Definition replayBatchesToValidState (fuel : nat) : M W (option error) :=
  head <- query Registry_HeadBatchSeq HeadBatchSeq ;;
  match head with
  | None => panic "runtime error: invalid memory address or nil pointer dereference"
  | Some headSeq =>
      r <- query (Storage_FetchBatchBySeqNo (Uint64 headSeq))
                 (FetchBatchBySeqNo (Uint64 headSeq)) ;;
      match r with
      | Err err =>
          ret (Some (wrapError
            "no head batch found in DB but expected to replay batches - %w" err))
      | Ok batchToReplayFrom =>
          c <- collectBatchesToReplay fuel batchToReplayFrom [] ;;
          match c with
          | Err err => ret (Some err)
          | Ok batchesToReplay =>
              match batchesToReplay with
              | [] => panic "runtime error: index out of range [-1]"
              | _ :: _ =>
                  logger LvlInfo "replaying batch data into stateDB cache" ;;;
                  replayLoop (List.length batchesToReplay) batchesToReplay
              end
          end
      end
  end.

(** [registry.HeadBatchSeq()] is called twice, once for the nil check and
    once for [Uint64()]; [replayBatchesToValidState] calls it a third time and
    asks [CreateStateDB] for the head batch again.  Each call is a read of the
    same world. *)
Definition restoreStateDBCache (fuel : nat) : M W (option error) :=
  head <- query Registry_HeadBatchSeq HeadBatchSeq ;;
  match head with
  | None => ret None
  | Some _ =>
      head' <- query Registry_HeadBatchSeq HeadBatchSeq ;;
      match head' with
      | None => panic "runtime error: invalid memory address or nil pointer dereference"
      | Some headSeq =>
          r <- query (Storage_FetchBatchBySeqNo (Uint64 headSeq))
                     (FetchBatchBySeqNo (Uint64 headSeq)) ;;
          match r with
          | Err err =>
              if errors_Is err ErrNotFound then
                logger LvlInfo "no head batch found in DB after restart" ;;;
                ret None
              else
                ret (Some (wrapError
                  "unexpected error fetching head batch to resync- %w" err))
          | Ok batch =>
              avail <- stateDBAvailableForBatch (batch_Hash batch) ;;
              if (avail : bool) then ret None
              else
                logger LvlInfo
                  "state not available for latest batch after restart - rebuilding stateDB cache from batches" ;;;
                err <- replayBatchesToValidState fuel ;;
                match err with
                | Some err =>
                    ret (Some (wrapError
                      "unable to replay batches to restore valid state - %w" err))
                | None => ret None
                end
          end
      end
  end.

End Recovery.

(** ** The flat surface of the façade *)

(** One request per method of [common.Enclave] that [enclaveImpl] implements,
    with the pointers that the method dereferences in place; [Invocation]
    below adds the calls that hand over a nil pointer. *)
Inductive Request :=
| ReqGetBatch (hash : Hash)
| ReqGetBatchBySeqNo (seqNo : Z)
| ReqStatus
| ReqStopClient
| ReqStreamL2Updates
| ReqSubmitL1Block (block : L1Block) (receipts : Receipts)
| ReqSubmitTx (params : bytes)
| ReqSubmitBatch (extBatch : ExtBatch)
| ReqCreateBatch (skipBatchIfEmpty : bool)
| ReqCreateRollup (fromSeqNo : Z)
| ReqObsCall (params : bytes)
| ReqGetTransactionCount (params : bytes)
| ReqGetTransaction (params : bytes)
| ReqGetTransactionReceipt (params : bytes)
| ReqAttestation
| ReqGenerateSecret
| ReqInitEnclave (s : EncryptedSharedEnclaveSecret)
| ReqEnclaveID
| ReqGetBalance (params : bytes)
| ReqGetCode (address : Z) (batchHash : Hash)
| ReqSubscribe (id : Z) (params : bytes)
| ReqUnsubscribe (id : Z)
| ReqStop
| ReqEstimateGas (params : bytes)
| ReqGetLogs (params : bytes)
| ReqHealthCheck
| ReqDebugTraceTransaction (txHash : Hash)
| ReqDebugEventLogRelevancy (txHash : Hash)
| ReqGetTotalContractCount
| ReqGetCustomQuery (params : bytes)
| ReqGetPublicTransactionData (pagination : option QueryPagination)
| ReqEnclavePublicConfig.

Inductive Payload :=
| PExtBatch (b : ExtBatch)
| PStatus (s : common_Status)
| PChannel (c : UpdatesChannel)
| PBlockSubmission (r : BlockSubmissionResponse)
| PEncrypted (b : bytes)
| PRollup (r : ExtRollup)
| PReport (b : bytes)
| PSecret (s : EncryptedSharedEnclaveSecret)
| PNumber (z : Z)
| PCode (b : bytes)
| PBool (b : bool)
| PRaw (m : RawMessage)
| PListing (l : TransactionListingResponse).

(** What a method hands back: its payload, if any, and its error, if any. *)
Record Response := {
  resp_payload : option Payload;
  resp_err : option error
}.

Definition ofResult {A} (inj : A -> Payload) (r : result A) : Response :=
  match r with
  | Ok a => {| resp_payload := Some (inj a); resp_err := None |}
  | Err err => {| resp_payload := None; resp_err := Some err |}
  end.

Definition ofError (err : option error) : Response :=
  {| resp_payload := None; resp_err := err |}.

(** The methods that begin with the stop-control check.  [GetBatch],
    [GetBatchBySeqNo], [StopClient], [EnclaveID] and [EnclavePublicConfig]
    never read the flag, and [Stop] sets it. *)
Definition checksStopControl (req : Request) : bool :=
  match req with
  | ReqGetBatch _ | ReqGetBatchBySeqNo _ | ReqStopClient
  | ReqEnclaveID | ReqStop | ReqEnclavePublicConfig => false
  | _ => true
  end.

(** Those of them that answer a stopping enclave with an error:
    [StreamL2Updates] has no error to return and hands back a closed channel. *)
Definition failsWhenStopping (req : Request) : bool :=
  match req with
  | ReqStreamL2Updates => false
  | _ => checksStopControl req
  end.

(** The read-only RPCs served under the viewing-key envelope. *)
Definition encryptedReadRpc (req : Request) : bool :=
  match req with
  | ReqObsCall _ | ReqGetTransactionCount _ | ReqGetTransaction _
  | ReqGetTransactionReceipt _ | ReqGetBalance _ | ReqEstimateGas _
  | ReqGetLogs _ | ReqGetCustomQuery _ => true
  | _ => false
  end.

(** The four entry points the ingestion mutex serialises. *)
Definition ingestionEntryPoint (req : Request) : bool :=
  match req with
  | ReqSubmitL1Block _ _ | ReqSubmitBatch _ | ReqCreateBatch _ | ReqCreateRollup _ => true
  | _ => false
  end.

Section Serve.

Context {W : Type} `{Collaborators W}.
Variable e : enclaveImpl.

Definition answer {A} (f : A -> Response) (m : M W A) : M W Response :=
  a <- m ;; ret (f a).

Definition serve (req : Request) : M W Response :=
  match req with
  | ReqGetBatch hash => answer (ofResult PExtBatch) (GetBatch hash)
  | ReqGetBatchBySeqNo seqNo => answer (ofResult PExtBatch) (GetBatchBySeqNo seqNo)
  | ReqStatus =>
      answer (fun r => {| resp_payload := Some (PStatus (fst r)); resp_err := snd r |}) Status
  | ReqStopClient => answer ofError StopClient
  | ReqStreamL2Updates =>
      answer (fun c => {| resp_payload := Some (PChannel c); resp_err := None |})
             StreamL2Updates
  | ReqSubmitL1Block block receipts =>
      answer (ofResult PBlockSubmission) (SubmitL1Block block receipts)
  | ReqSubmitTx p => answer (ofResult PEncrypted) (SubmitTx p)
  | ReqSubmitBatch extBatch => answer ofError (SubmitBatch e extBatch)
  | ReqCreateBatch skip => answer ofError (CreateBatch e skip)
  | ReqCreateRollup fromSeqNo => answer (ofResult PRollup) (CreateRollup e fromSeqNo)
  | ReqObsCall p => answer (ofResult PEncrypted) (ObsCall p)
  | ReqGetTransactionCount p => answer (ofResult PEncrypted) (GetTransactionCount p)
  | ReqGetTransaction p => answer (ofResult PEncrypted) (GetTransaction p)
  | ReqGetTransactionReceipt p => answer (ofResult PEncrypted) (GetTransactionReceipt p)
  | ReqAttestation => answer (ofResult PReport) (Attestation e)
  | ReqGenerateSecret => answer (ofResult PSecret) (GenerateSecret e)
  | ReqInitEnclave s => answer ofError (InitEnclave e s)
  | ReqEnclaveID => answer (ofResult PNumber) (EnclaveID e)
  | ReqGetBalance p => answer (ofResult PEncrypted) (GetBalance p)
  | ReqGetCode address batchHash => answer (ofResult PCode) (GetCode address batchHash)
  | ReqSubscribe id p => answer ofError (Subscribe id p)
  | ReqUnsubscribe id => answer ofError (Unsubscribe id)
  | ReqStop => answer ofError (Stop e)
  | ReqEstimateGas p => answer (ofResult PEncrypted) (EstimateGas p)
  | ReqGetLogs p => answer (ofResult PEncrypted) (GetLogs p)
  | ReqHealthCheck => answer (ofResult PBool) HealthCheck
  | ReqDebugTraceTransaction txHash => answer (ofResult PRaw) (DebugTraceTransaction e txHash)
  | ReqDebugEventLogRelevancy txHash => answer (ofResult PRaw) (DebugEventLogRelevancy e txHash)
  | ReqGetTotalContractCount => answer (ofResult PNumber) GetTotalContractCount
  | ReqGetCustomQuery p => answer (ofResult PEncrypted) (GetCustomQuery p)
  | ReqGetPublicTransactionData pagination =>
      answer (ofResult PListing) (GetPublicTransactionData pagination)
  | ReqEnclavePublicConfig => answer (ofResult PNumber) EnclavePublicConfig
  end.

End Serve.

(** A call as the host makes it: [Invoke req] when the pointers the method
    dereferences are there, and the two methods that dereference a pointer
    argument on a pointer that may be nil. *)
Inductive Invocation :=
| Invoke (req : Request)
| InvokeSubmitBatch (extBatch : option ExtBatchPtr)
| InvokeGetCode (address : Z) (batchHash : option Hash).

(** The request a call amounts to, unless it hands over a nil pointer that
    the method dereferences. *)
Definition derefInvocation (i : Invocation) : option Request :=
  match i with
  | Invoke req => Some req
  | InvokeSubmitBatch extBatch => option_map ReqSubmitBatch (derefExtBatch extBatch)
  | InvokeGetCode address batchHash => option_map (ReqGetCode address) batchHash
  end.

Section Perform.

Context {W : Type} `{Collaborators W}.
Variable e : enclaveImpl.

Definition perform (i : Invocation) : M W Response :=
  match i with
  | Invoke req => serve e req
  | InvokeSubmitBatch extBatch => answer ofError (SubmitBatchPtr e extBatch)
  | InvokeGetCode address batchHash => answer (ofResult PCode) (GetCodePtr address batchHash)
  end.

End Perform.

(** ** Reading a run *)

(** The three components of a run. *)
Definition outcomeOf {W A} (r : Outcome A * St W * list Event) : Outcome A := fst (fst r).
Definition stateOf {W A} (r : Outcome A * St W * list Event) : St W := snd (fst r).
Definition traceOf {W A} (r : Outcome A * St W * list Event) : list Event := snd r.

(** The collaborator calls of a trace that write to the world. *)
Fixpoint writes (t : list Event) : list Call :=
  match t with
  | [] => []
  | EvCall c :: t' => if mutating c then c :: writes t' else writes t'
  | _ :: t' => writes t'
  end.

Definition locks (t : list Event) : bool :=
  existsb (fun ev => match ev with EvLock => true | _ => false end) t.

(** [guarded held t]: scanning [t] from a state where the mutex is [held],
    every write happens while the mutex is held, a lock is only taken when
    the mutex is free and an unlock only when it is held.  The result is the
    final state of the mutex, [None] when the discipline is broken. *)
Fixpoint guarded (held : bool) (t : list Event) : option bool :=
  match t with
  | [] => Some held
  | EvLock :: t' => if held then None else guarded true t'
  | EvUnlock :: t' => if held then guarded false t' else None
  | EvCall c :: t' => if mutating c && negb held then None else guarded held t'
  | _ :: t' => guarded held t'
  end.

Definition mutexOp (ev : Event) : bool :=
  match ev with
  | EvLock | EvUnlock => true
  | _ => false
  end.

(** The trace takes the mutex as its first step, gives it back as its last
    and does not touch it in between. *)
Definition heldThroughout (t : list Event) : bool :=
  match t with
  | EvLock :: rest =>
      match rev rest with
      | EvUnlock :: body => negb (existsb mutexOp body)
      | _ => false
      end
  | _ => false
  end.

(** ** An in-memory implementation of the collaborators *)

Module Sim.

Record World := {
  secret : option Secret;
  batches : list Batch;               (* stored batches, oldest first *)
  stateDBs : list Hash;               (* batch hashes with a cached stateDB *)
  headSeq : option Z;                 (* the registry's head batch *)
  l1Blocks : list L1Block;            (* processed L1 blocks, head first *)
  entropy : Secret;                   (* what the entropy source yields next *)
  closed : bool
}.

Definition hashOf (b : Batch) : Hash := 1000 + Uint64 (SequencerOrderNo (Header b)).

Definition setSecret (s : Secret) (w : World) : World :=
  {| secret := Some s; batches := batches w; stateDBs := stateDBs w; headSeq := headSeq w;
     l1Blocks := l1Blocks w; entropy := entropy w; closed := closed w |}.

Definition setBatches (bs : list Batch) (w : World) : World :=
  {| secret := secret w; batches := bs; stateDBs := stateDBs w; headSeq := headSeq w;
     l1Blocks := l1Blocks w; entropy := entropy w; closed := closed w |}.

Definition setStateDBs (hs : list Hash) (w : World) : World :=
  {| secret := secret w; batches := batches w; stateDBs := hs; headSeq := headSeq w;
     l1Blocks := l1Blocks w; entropy := entropy w; closed := closed w |}.

Definition setHeadSeq (h : option Z) (w : World) : World :=
  {| secret := secret w; batches := batches w; stateDBs := stateDBs w; headSeq := h;
     l1Blocks := l1Blocks w; entropy := entropy w; closed := closed w |}.

Definition setL1Blocks (bs : list L1Block) (w : World) : World :=
  {| secret := secret w; batches := batches w; stateDBs := stateDBs w; headSeq := headSeq w;
     l1Blocks := bs; entropy := entropy w; closed := closed w |}.

Definition setEntropy (s : Secret) (w : World) : World :=
  {| secret := secret w; batches := batches w; stateDBs := stateDBs w; headSeq := headSeq w;
     l1Blocks := l1Blocks w; entropy := s; closed := closed w |}.

Definition setClosed (w : World) : World :=
  {| secret := secret w; batches := batches w; stateDBs := stateDBs w; headSeq := headSeq w;
     l1Blocks := l1Blocks w; entropy := entropy w; closed := true |}.

Definition found {A} (o : option A) : result A :=
  match o with
  | Some a => Ok a
  | None => Err ErrNotFound
  end.

Definition hasStateDB (h : Hash) (w : World) : bool :=
  existsb (Z.eqb h) (stateDBs w).

Definition seqOf (b : Batch) : Z := Uint64 (SequencerOrderNo (Header b)).

Definition maxSeq (bs : list Batch) : option Z :=
  fold_left (fun acc b => match acc with
                          | None => Some (seqOf b)
                          | Some m => Some (Z.max m (seqOf b))
                          end) bs None.

Definition knownBlock (h : Hash) (w : World) : bool :=
  existsb (fun b => Z.eqb (blk_Hash b) h) (l1Blocks w).

(** The L1 block processor: a known block is already processed, a block
    whose parent is unknown has no ancestor, any other block becomes the head. *)
Definition process (br : BlockAndReceipts) (w : World)
    : result BlockIngestionType * World :=
  let blk := br_Block br in
  if knownBlock (blk_Hash blk) w then (Err ErrBlockAlreadyProcessed, w)
  else if negb (Nat.eqb (List.length (l1Blocks w)) 0)
          && negb (knownBlock (blk_ParentHash blk) w)
  then (Err ErrBlockAncestorNotFound, w)
  else (Ok {| IsFork := false;
              ing_ChainFork := {| CommonAncestor := blk_ParentHash blk;
                                  NonCanonicalPath := [];
                                  CanonicalPath := [blk_Hash blk] |} |},
        setL1Blocks (blk :: l1Blocks w) w).

(** The validator replays every stored batch and moves the head forward. *)
Definition executeStored (w : World) : option error * World :=
  (None, setHeadSeq (maxSeq (batches w))
           (setStateDBs (stateDBs w ++ map hashOf (batches w)) w)).

(** The executor needs the parent's snapshot and commits the batch's own. *)
Definition executeBatch (b : Batch) (w : World) : option error * World :=
  if hasStateDB (ParentHash (Header b)) w
  then (None, setStateDBs (hashOf b :: stateDBs w) w)
  else (Some (errorString "could not retrieve parent state"), w).

Definition commitGenesis (w : World) : option error * World :=
  match find (fun b => NumberU64 b =? 0) (batches w) with
  | Some g => (None, setStateDBs (hashOf g :: stateDBs w) w)
  | None => (Some (errorString "no genesis batch"), w)
  end.

Fixpoint stripPrefix (p s : bytes) : option bytes :=
  match p, s with
  | [], _ => Some s
  | x :: p', y :: s' => if Byte.eqb x y then stripPrefix p' s' else None
  | _ :: _, [] => None
  end.

(** A toy envelope: the key followed by the secret; only the same key opens it. *)
Definition encryptSecret (pub : bytes) (s : Secret) (w : World)
    : result EncryptedSharedEnclaveSecret * World :=
  (Ok (pub ++ s), w).

Definition decryptSecret (env : EncryptedSharedEnclaveSecret) (priv : bytes)
    : result Secret :=
  match stripPrefix priv env with
  | Some s => Ok s
  | None => Err (errorString "ecies: invalid message")
  end.

Definition toBatch (ext : ExtBatch) : result Batch :=
  match EncryptedTxBlob ext with
  | [] => Err (errorString "brotli: corrupted input")
  | blob => Ok {| Header := ext_Header ext; Transactions := [blob] |}
  end.

Definition verifySignature (b : Batch) (w : World) : option error :=
  match Signature (Header b) with
  | [] => Some (errorString "could not verify the signature against the sequencer")
  | _ => None
  end.

Definition createEthHeader (h : BatchHeader) (w : World) : result EthHeader :=
  if Number h <? 0 then Err (errorString "negative batch height")
  else Ok {| eth_ParentHash := ParentHash h; eth_Number := Number h; eth_Root := Root h |}.

#[export] Instance simCollaborators : Collaborators World := {|
  FetchSecret w := found (secret w);
  StoreSecret s w := (None, setSecret s w);
  FetchBatch h w := found (find (fun b => Z.eqb (hashOf b) h) (batches w));
  FetchBatchBySeqNo n w := found (find (fun b => Z.eqb (seqOf b) n) (batches w));
  FetchCurrentSequencerNo w := found (maxSeq (batches w));
  StoreBatch b _ w := (None, setBatches (batches w ++ [b]) w);
  CreateStateDB h w := if hasStateDB h w then Ok (fun _ => []) else Err ErrNotFound;
  storage_HealthCheck w := Ok (negb (closed w));
  storage_Close w := (None, setClosed w);
  GetContractCount _ := Ok 0;
  storage_GetPublicTransactionData _ _ := Ok [];
  GetPublicTransactionCount _ := Ok 0;
  GetHead w := found (hd_error (l1Blocks w));
  Process := process;
  l1_HealthCheck w := Ok (negb (Nat.eqb (List.length (l1Blocks w)) 0));
  ProcessRollupsInBlock _ w := (None, w);
  OnL1Block _ _ w := (None, w);
  OnL1Fork _ w := (None, w);
  service_Close w := (None, w);
  sequencer_CreateBatch _ w := (None, w);
  sequencer_CreateRollup from w :=
    match headSeq w with
    | Some h => (Ok {| rollup_FromSeq := from; rollup_ToSeq := h; rollup_Blob := [] |}, w)
    | None => (Err (errorString "no batches for rollup"), w)
    end;
  VerifySequencerSignature := verifySignature;
  ExecuteStoredBatches := executeStored;
  HeadBatchSeq := headSeq;
  SubscribeForExecutedBatches w := w;
  UnsubscribeFromBatches w := w;
  registry_HealthCheck _ := Ok true;
  ProcessNetworkSecretMsgs _ w := ([], w);
  GenerateEntropy w := (entropy w, setEntropy (rev (entropy w)) w);
  EncryptSecret := encryptSecret;
  DecryptSecret := decryptSecret;
  batch_Hash := hashOf;
  eth_Hash h := 2000 + eth_Number h;
  ToBatch := toBatch;
  ToExtBatch b := Ok {| ext_Header := Header b; EncryptedTxBlob := List.concat (Transactions b) |};
  ParseBlockAndReceipts blk rs := Ok {| br_Block := blk; br_Receipts := rs |};
  CreateEthHeaderForBatch := createEthHeader;
  WithVKEncryption _ p _ := Ok p;
  SubmitTx_WithVKEncryption p w := (Ok p, w);
  DecryptBytes p _ := Ok p;
  AddSubscription _ _ w := (None, w);
  RemoveSubscription _ w := w;
  GetReport pub _ _ _ := Ok pub;
  debugger_DebugTraceTransaction _ _ := Ok [];
  debugger_DebugEventLogRelevancy _ _ := Ok [];
  GetL2MessageBusAddress _ := Ok 0;
  profiler_Stop w := (None, w);
  CommitGenesisState := commitGenesis;
  ExecuteBatch := executeBatch
|}.

(** Sample data. *)

Definition key : EnclaveKey :=
  {| PublicKeyBytes := [Byte.x6b; Byte.x31];
     PrivateKey := [Byte.x6b; Byte.x31];
     key_EnclaveID := 7 |}.

Definition validator : enclaveImpl :=
  {| config_HostID := 1; config_HostAddress := "127.0.0.1:10000";
     config_DebugNamespaceEnabled := false; service := ValidatorNode;
     profiler := false; enclaveKey := key |}.

Definition sequencer : enclaveImpl :=
  {| config_HostID := 0; config_HostAddress := "127.0.0.1:10001";
     config_DebugNamespaceEnabled := false; service := SequencerNode;
     profiler := false; enclaveKey := key |}.

Definition mkBatch (seq : Z) : Batch :=
  {| Header := {| ParentHash := 1000 + (seq - 1); Number := seq - 1;
                  SequencerOrderNo := seq; L1Proof := 500; Root := 40 + seq;
                  Signature := [Byte.x73] |};
     Transactions := [[Byte.x74]] |}.

Definition mkExtBatch (seq : Z) : ExtBatch :=
  {| ext_Header := Header (mkBatch seq); EncryptedTxBlob := [Byte.x74] |}.

Definition emptyWorld : World :=
  {| secret := None; batches := []; stateDBs := []; headSeq := None; l1Blocks := [];
     entropy := [Byte.x61; Byte.x62; Byte.x63]; closed := false |}.

(** Batches 1..3 stored (batch 1 is the genesis batch, height 0), head at 3,
    and an empty stateDB cache, as after an unclean shutdown. *)
Definition coldWorld : World :=
  setHeadSeq (Some 3) (setBatches [mkBatch 1; mkBatch 2; mkBatch 3] emptyWorld).

(** The same chain with the snapshot of batch 1 still cached. *)
Definition warmWorld : World := setStateDBs [1001] coldWorld.

Definition blockA : L1Block := {| blk_Hash := 500; blk_ParentHash := 499; blk_Number := 10 |}.

(** An enclave holding the secret that has already processed [blockA]. *)
Definition runningWorld : World :=
  setL1Blocks [blockA] (setSecret [Byte.x78] warmWorld).

(** A batch of sequence number 4 whose header carries no signature. *)
Definition unsignedExtBatch : ExtBatch :=
  {| ext_Header := {| ParentHash := 1003; Number := 3; SequencerOrderNo := 4;
                      L1Proof := 500; Root := 44; Signature := [] |};
     EncryptedTxBlob := [Byte.x74] |}.

Definition start (w : World) : St World := {| world := w; stopping := false |}.

End Sim.

(** ** Start-up: [NewEnclave] *)

(** The fields of [config.EnclaveConfig] that [NewEnclave] branches on or
    copies into the enclave. *)
Record EnclaveConfig := {
  cfg_NodeType : NodeKind;
  cfg_HostID : Z;
  cfg_HostAddress : string;
  cfg_WillAttest : bool;
  cfg_ProfilerEnabled : bool;
  cfg_ValidateL1Blocks : bool;
  cfg_GenesisJSON : option bytes;     (* None is the nil slice *)
  cfg_DebugNamespaceEnabled : bool;
  cfg_SequencerID : Z
}.

(** [components.EgoAttestationProvider] or [components.DummyAttestationProvider]. *)
Inductive AttestationProviderKind := EgoAttestationProvider | DummyAttestationProvider.

(** The constructors and storage methods of [NewEnclave] that can fail.  The
    other constructors it calls ([NewStorageFromConfig], [NewBatchRegistry],
    [NewChain], ...) return no error and only wire the collaborators. *)
Class StartupCollaborators (W : Type) := {
  profiler_Start : W -> option error * W;
  GetEnclaveKey : W -> result EnclaveKey;
  GenerateEnclaveKey : W -> result EnclaveKey * W;
  StoreEnclaveKey : EnclaveKey -> W -> option error * W;
  NewSignatureValidator : Z -> W -> option error;
  NewTxPool : W -> option error
}.

(** What [NewEnclave] does, in program order. *)
Inductive StartupStep :=
| StepProfilerStart
| StepNewL1Blockchain
| StepGetEnclaveKey
| StepGenerateEnclaveKey
| StepStoreEnclaveKey (k : EnclaveKey)
| StepNewSignatureValidator
| StepNewTxPool
| StepRestoreStateDBCache (t : list Event)
| StepLog (lvl : LogLevel) (msg : string).

(** How a start-up ends: with a value, with [logger.Crit] (which logs and
    exits the process), or with the panic or the exhausted fuel of the
    recovery routine. *)
Inductive Boot (A : Type) : Type :=
| Booted (a : A)
| Crit (msg : string)
| Crashed (msg : string)
| OutOfFuel.
Arguments Booted {A} a.
Arguments Crit {A} msg.
Arguments Crashed {A} msg.
Arguments OutOfFuel {A}.

(** The enclave [NewEnclave] returns: the data of [enclaveImpl], the
    attestation provider it chose, whether it built an L1 blockchain to
    validate blocks, and its initial state. *)
Record Enclave (W : Type) := {
  impl : enclaveImpl;
  attestationProvider : AttestationProviderKind;
  l1Blockchain : bool;                (* e.l1Blockchain != nil *)
  initial : St W
}.
Arguments impl {W} _.
Arguments attestationProvider {W} _.
Arguments l1Blockchain {W} _.
Arguments initial {W} _.

Section Startup.

Context {W : Type} `{Collaborators W} `{StartupCollaborators W}.

Definition B (A : Type) : Type := W -> Boot A * W * list StartupStep.

Definition bootRet {A} (a : A) : B A := fun w => (Booted a, w, []).

Definition bootBind {A C} (m : B A) (k : A -> B C) : B C := fun w =>
  match m w with
  | (Booted a, w1, t1) =>
      match k a w1 with
      | (o, w2, t2) => (o, w2, t1 ++ t2)
      end
  | (Crit msg, w1, t1) => (Crit msg, w1, t1)
  | (Crashed msg, w1, t1) => (Crashed msg, w1, t1)
  | (OutOfFuel, w1, t1) => (OutOfFuel, w1, t1)
  end.

(** [logger.Crit]: the message is logged and the process exits. *)
Definition logger_Crit {A} (msg : string) : B A := fun w => (Crit msg, w, []).

Definition bootLog (lvl : LogLevel) (msg : string) : B unit := fun w =>
  (Booted tt, w, [StepLog lvl msg]).

Definition bootRead {A} (step : StartupStep) (f : W -> A) : B A := fun w =>
  (Booted (f w), w, [step]).

Definition bootStep {A} (step : StartupStep) (f : W -> A * W) : B A := fun w =>
  match f w with
  | (a, w') => (Booted a, w', [step])
  end.

(** [restoreStateDBCache] run from [NewEnclave], before the stop-control
    exists; an error is critical. *)
Definition bootRestore (fuel : nat) : B unit := fun w =>
  match restoreStateDBCache fuel {| world := w; stopping := false |} with
  | (Ret None, s, t) => (Booted tt, world s, [StepRestoreStateDBCache t])
  | (Ret (Some _), s, t) =>
      (Crit "failed to resync L2 chain state DB after restart", world s,
       [StepRestoreStateDBCache t])
  | (Panic msg, s, t) => (Crashed msg, world s, [StepRestoreStateDBCache t])
  | (Timeout, s, t) => (OutOfFuel, world s, [StepRestoreStateDBCache t])
  end.

Definition NewEnclave (fuel : nat) (config : EnclaveConfig) : B (Enclave W) :=
  bootBind (bootLog LvlInfo "Creating enclave service with following config") (fun _ =>
  bootBind
    (if negb (cfg_WillAttest config) && cfg_ProfilerEnabled config then
       bootBind (bootStep StepProfilerStart profiler_Start) (fun err =>
       match err with
       | Some _ => logger_Crit "unable to start the profiler"
       | None => bootRet true
       end)
     else bootRet false) (fun prof =>
  bootBind
    (if cfg_ValidateL1Blocks config then
       match cfg_GenesisJSON config with
       | None => logger_Crit "enclave is configured to validate blocks, but genesis JSON is nil"
       | Some _ => bootBind (bootRead StepNewL1Blockchain (fun _ => tt)) (fun _ => bootRet true)
       end
     else
       bootBind (bootLog LvlInfo
                   "validateBlocks is set to false. L1 blocks will not be validated.")
                (fun _ => bootRet false)) (fun l1 =>
  bootBind
    (if cfg_WillAttest config then bootRet EgoAttestationProvider
     else
       bootBind (bootLog LvlInfo
                   "WARNING - Attestation is not enabled, enclave will not create a verified attestation report.")
                (fun _ => bootRet DummyAttestationProvider)) (fun attestation =>
  bootBind (bootRead StepGetEnclaveKey GetEnclaveKey) (fun fetched =>
  bootBind
    (match fetched with
     | Ok k => bootRet k
     | Err err =>
         bootBind
           (if negb (errors_Is err ErrNotFound)
            then logger_Crit "Failed to fetch enclave key"
            else bootRet tt) (fun _ =>
         bootBind (bootLog LvlInfo "Generating new enclave key") (fun _ =>
         bootBind (bootStep StepGenerateEnclaveKey GenerateEnclaveKey) (fun generated =>
         match generated with
         | Err _ => logger_Crit "Failed to generate enclave key."
         | Ok k =>
             bootBind (bootStep (StepStoreEnclaveKey k) (StoreEnclaveKey k)) (fun serr =>
             match serr with
             | Some _ => logger_Crit "Failed to store enclave key."
             | None => bootRet k
             end)
         end)))
     end) (fun key =>
  bootBind (bootLog LvlInfo "Enclave key available. EnclaveID=%s, publicKey=%s") (fun _ =>
  bootBind (bootRead StepNewSignatureValidator
              (NewSignatureValidator (cfg_SequencerID config))) (fun verr =>
  bootBind
    (match verr with
     | Some _ => logger_Crit "Could not initialise the signature validator"
     | None => bootRet tt
     end) (fun _ =>
  bootBind (bootRead StepNewTxPool NewTxPool) (fun perr =>
  bootBind
    (match perr with
     | Some _ => logger_Crit "unable to init eth tx pool"
     | None => bootRet tt
     end) (fun _ =>
  let service := match cfg_NodeType config with
                 | SequencerNode => SequencerNode
                 | ValidatorNode => ValidatorNode
                 end in
  bootBind (bootRestore fuel) (fun _ =>
  bootBind (bootLog LvlInfo "Enclave service created with following config") (fun _ =>
  fun w =>
    (Booted {| impl := {| config_HostID := cfg_HostID config;
                          config_HostAddress := cfg_HostAddress config;
                          config_DebugNamespaceEnabled := cfg_DebugNamespaceEnabled config;
                          service := service;
                          profiler := prof;
                          enclaveKey := key |};
               attestationProvider := attestation;
               l1Blockchain := l1;
               initial := {| world := w; stopping := false |} |},
     w, [])))))))))))))).

End Startup.

(** ** Streaming executed batches *)

(** [common.StreamL2UpdatesResponse]: a batch, or the logs of the
    subscriptions. *)
Inductive StreamL2UpdatesResponse :=
| BatchUpdate (b : ExtBatch)
| LogsUpdate (logs : list (Z * bytes)).

(** [events.SubscriptionManager.GetSubscribedLogsForBatch]; the logs are a
    Go map, [None] is the nil map. *)
Class StreamCollaborators (W : Type) := {
  GetSubscribedLogsForBatch : Batch -> Receipts -> W -> result (option (list (Z * bytes)))
}.

(** What a callback run puts on [outChannel], in order, with its log lines;
    or the [logger.Crit] that ends the process.  The capacity of the channel
    and a sender blocked on a full channel are not modelled. *)
Inductive Sent :=
| SentOn (msgs : list StreamL2UpdatesResponse) (logs : list Event)
| SendCrit (msg : string).

Section Streaming.

Context {W : Type} `{Collaborators W} `{StreamCollaborators W}.

Definition sendBatch (batch : Batch) : Sent :=
  match ToExtBatch batch with
  | Err _ => SendCrit "failed to convert batch"
  | Ok extBatch => SentOn [BatchUpdate extBatch] [EvLog LvlInfo "Streaming batch to host"]
  end.

Definition streamEventsForNewHeadBatch (batch : Batch) (receipts : Receipts) (w : W) : Sent :=
  match GetSubscribedLogsForBatch batch receipts w with
  | Err _ =>
      SentOn [] [EvLog LvlDebug "Stream Events for";
                 EvLog LvlError "Error while getting subscription logs"]
  | Ok None => SentOn [] [EvLog LvlDebug "Stream Events for"]
  | Ok (Some logs) => SentOn [LogsUpdate logs] [EvLog LvlDebug "Stream Events for"]
  end.

(** The callback [StreamL2Updates] registers with the batch registry;
    [receipts] is [None] for the nil slice. *)
Definition onExecutedBatch (batch : Batch) (receipts : option Receipts) (w : W) : Sent :=
  match sendBatch batch with
  | SendCrit msg => SendCrit msg
  | SentOn msgs logs =>
      match receipts with
      | None => SentOn msgs logs
      | Some rs =>
          match streamEventsForNewHeadBatch batch rs w with
          | SendCrit msg => SendCrit msg
          | SentOn msgs' logs' => SentOn (msgs ++ msgs') (logs ++ logs')
          end
      end
  end.

End Streaming.

(** ** In-memory start-up and subscription collaborators *)

Module SimBoot.

(** Storage holding the enclave key [stored] (or none); a generated key is
    [fresh]. *)
Definition startup (stored : option EnclaveKey) (fresh : EnclaveKey)
    : StartupCollaborators Sim.World := {|
  profiler_Start w := (None, w);
  GetEnclaveKey _ := Sim.found stored;
  GenerateEnclaveKey w := (Ok fresh, w);
  StoreEnclaveKey _ w := (None, w);
  NewSignatureValidator _ _ := None;
  NewTxPool _ := None
|}.

(** Subscriptions that match every batch with a non-empty transaction list. *)
Definition streaming : StreamCollaborators Sim.World := {|
  GetSubscribedLogsForBatch b rs _ :=
    match rs with
    | [] => Ok None
    | r :: _ => Ok (Some [(1, r)])
    end
|}.

Definition freshKey : EnclaveKey :=
  {| PublicKeyBytes := [Byte.x6b; Byte.x32];
     PrivateKey := [Byte.x6b; Byte.x32];
     key_EnclaveID := 8 |}.


Definition devConfig : EnclaveConfig :=
  {| cfg_NodeType := SequencerNode; cfg_HostID := 0; cfg_HostAddress := "127.0.0.1:10001";
     cfg_WillAttest := false; cfg_ProfilerEnabled := true; cfg_ValidateL1Blocks := false;
     cfg_GenesisJSON := None; cfg_DebugNamespaceEnabled := true; cfg_SequencerID := 0 |}.

End SimBoot.

(** ** In-memory collaborators with injected faults *)

Module SimFaults.

(** Which writes fail, and what the rollup consumer returns. *)
Record Faults := {
  failStoreBatch : bool;
  failExecuteStored : bool;
  failEncrypt : bool;
  failProfilerStop : bool;
  failServiceClose : bool;
  rollupError : option error
}.

Definition fault : error := errorString "injected fault".

(** The in-memory collaborators, except for the faults of [f]. *)
Definition collaborators (f : Faults) : Collaborators Sim.World := {|
  FetchSecret := @FetchSecret _ Sim.simCollaborators;
  StoreSecret := @StoreSecret _ Sim.simCollaborators;
  FetchBatch := @FetchBatch _ Sim.simCollaborators;
  FetchBatchBySeqNo := @FetchBatchBySeqNo _ Sim.simCollaborators;
  FetchCurrentSequencerNo := @FetchCurrentSequencerNo _ Sim.simCollaborators;
  StoreBatch := fun b h w => if failStoreBatch f then (Some fault, w) else @StoreBatch _ Sim.simCollaborators b h w;
  CreateStateDB := @CreateStateDB _ Sim.simCollaborators;
  storage_HealthCheck := @storage_HealthCheck _ Sim.simCollaborators;
  storage_Close := @storage_Close _ Sim.simCollaborators;
  GetContractCount := @GetContractCount _ Sim.simCollaborators;
  storage_GetPublicTransactionData := @storage_GetPublicTransactionData _ Sim.simCollaborators;
  GetPublicTransactionCount := @GetPublicTransactionCount _ Sim.simCollaborators;
  GetHead := @GetHead _ Sim.simCollaborators;
  Process := @Process _ Sim.simCollaborators;
  l1_HealthCheck := @l1_HealthCheck _ Sim.simCollaborators;
  ProcessRollupsInBlock := fun br w => (rollupError f, w);
  OnL1Block := @OnL1Block _ Sim.simCollaborators;
  OnL1Fork := @OnL1Fork _ Sim.simCollaborators;
  service_Close := fun w => if failServiceClose f then (Some fault, w) else @service_Close _ Sim.simCollaborators w;
  sequencer_CreateBatch := @sequencer_CreateBatch _ Sim.simCollaborators;
  sequencer_CreateRollup := @sequencer_CreateRollup _ Sim.simCollaborators;
  VerifySequencerSignature := @VerifySequencerSignature _ Sim.simCollaborators;
  ExecuteStoredBatches := fun w => if failExecuteStored f then (Some fault, w) else @ExecuteStoredBatches _ Sim.simCollaborators w;
  HeadBatchSeq := @HeadBatchSeq _ Sim.simCollaborators;
  SubscribeForExecutedBatches := @SubscribeForExecutedBatches _ Sim.simCollaborators;
  UnsubscribeFromBatches := @UnsubscribeFromBatches _ Sim.simCollaborators;
  registry_HealthCheck := @registry_HealthCheck _ Sim.simCollaborators;
  ProcessNetworkSecretMsgs := @ProcessNetworkSecretMsgs _ Sim.simCollaborators;
  GenerateEntropy := @GenerateEntropy _ Sim.simCollaborators;
  EncryptSecret := fun pub sec w => if failEncrypt f then (Err fault, w) else @EncryptSecret _ Sim.simCollaborators pub sec w;
  DecryptSecret := @DecryptSecret _ Sim.simCollaborators;
  batch_Hash := @batch_Hash _ Sim.simCollaborators;
  eth_Hash := @eth_Hash _ Sim.simCollaborators;
  ToBatch := @ToBatch _ Sim.simCollaborators;
  ToExtBatch := @ToExtBatch _ Sim.simCollaborators;
  ParseBlockAndReceipts := @ParseBlockAndReceipts _ Sim.simCollaborators;
  CreateEthHeaderForBatch := @CreateEthHeaderForBatch _ Sim.simCollaborators;
  WithVKEncryption := @WithVKEncryption _ Sim.simCollaborators;
  SubmitTx_WithVKEncryption := @SubmitTx_WithVKEncryption _ Sim.simCollaborators;
  DecryptBytes := @DecryptBytes _ Sim.simCollaborators;
  AddSubscription := @AddSubscription _ Sim.simCollaborators;
  RemoveSubscription := @RemoveSubscription _ Sim.simCollaborators;
  GetReport := @GetReport _ Sim.simCollaborators;
  debugger_DebugTraceTransaction := @debugger_DebugTraceTransaction _ Sim.simCollaborators;
  debugger_DebugEventLogRelevancy := @debugger_DebugEventLogRelevancy _ Sim.simCollaborators;
  GetL2MessageBusAddress := @GetL2MessageBusAddress _ Sim.simCollaborators;
  profiler_Stop := fun w => if failProfilerStop f then (Some fault, w) else @profiler_Stop _ Sim.simCollaborators w;
  CommitGenesisState := @CommitGenesisState _ Sim.simCollaborators;
  ExecuteBatch := @ExecuteBatch _ Sim.simCollaborators
|}.

Definition noFaults : Faults :=
  {| failStoreBatch := false; failExecuteStored := false; failEncrypt := false;
     failProfilerStop := false; failServiceClose := false; rollupError := None |}.

Definition executeFails : Faults :=
  {| failStoreBatch := false; failExecuteStored := true; failEncrypt := false;
     failProfilerStop := false; failServiceClose := false; rollupError := None |}.

Definition encryptFails : Faults :=
  {| failStoreBatch := false; failExecuteStored := false; failEncrypt := true;
     failProfilerStop := false; failServiceClose := false; rollupError := None |}.

Definition profilerFails : Faults :=
  {| failStoreBatch := false; failExecuteStored := false; failEncrypt := false;
     failProfilerStop := true; failServiceClose := true; rollupError := None |}.

Definition rollupFails : Faults :=
  {| failStoreBatch := false; failExecuteStored := false; failEncrypt := false;
     failProfilerStop := false; failServiceClose := false;
     rollupError := Some (errorString "could not decompress rollup") |}.

(** A validator with a profiler. *)
Definition profiled : enclaveImpl :=
  {| config_HostID := 1; config_HostAddress := "127.0.0.1:10000";
     config_DebugNamespaceEnabled := false; service := ValidatorNode;
     profiler := true; enclaveKey := Sim.key |}.

(** Only batch 3 is stored: its parent cannot be fetched. *)
Definition brokenWorld : Sim.World :=
  Sim.setHeadSeq (Some 3) (Sim.setBatches [Sim.mkBatch 3] Sim.emptyWorld).

Definition blockB : L1Block := {| blk_Hash := 501; blk_ParentHash := 500; blk_Number := 11 |}.

(** The error of a storage that is closed a second time. *)
Definition alreadyClosed : error := errorString "database is closed".

(** The in-memory collaborators with a storage that cannot be closed twice. *)
Definition closesOnce : Collaborators Sim.World := {|
  FetchSecret := @FetchSecret _ Sim.simCollaborators;
  StoreSecret := @StoreSecret _ Sim.simCollaborators;
  FetchBatch := @FetchBatch _ Sim.simCollaborators;
  FetchBatchBySeqNo := @FetchBatchBySeqNo _ Sim.simCollaborators;
  FetchCurrentSequencerNo := @FetchCurrentSequencerNo _ Sim.simCollaborators;
  StoreBatch := @StoreBatch _ Sim.simCollaborators;
  CreateStateDB := @CreateStateDB _ Sim.simCollaborators;
  storage_HealthCheck := @storage_HealthCheck _ Sim.simCollaborators;
  storage_Close := fun w =>
    if Sim.closed w then (Some alreadyClosed, w)
    else @storage_Close _ Sim.simCollaborators w;
  GetContractCount := @GetContractCount _ Sim.simCollaborators;
  storage_GetPublicTransactionData := @storage_GetPublicTransactionData _ Sim.simCollaborators;
  GetPublicTransactionCount := @GetPublicTransactionCount _ Sim.simCollaborators;
  GetHead := @GetHead _ Sim.simCollaborators;
  Process := @Process _ Sim.simCollaborators;
  l1_HealthCheck := @l1_HealthCheck _ Sim.simCollaborators;
  ProcessRollupsInBlock := @ProcessRollupsInBlock _ Sim.simCollaborators;
  OnL1Block := @OnL1Block _ Sim.simCollaborators;
  OnL1Fork := @OnL1Fork _ Sim.simCollaborators;
  service_Close := @service_Close _ Sim.simCollaborators;
  sequencer_CreateBatch := @sequencer_CreateBatch _ Sim.simCollaborators;
  sequencer_CreateRollup := @sequencer_CreateRollup _ Sim.simCollaborators;
  VerifySequencerSignature := @VerifySequencerSignature _ Sim.simCollaborators;
  ExecuteStoredBatches := @ExecuteStoredBatches _ Sim.simCollaborators;
  HeadBatchSeq := @HeadBatchSeq _ Sim.simCollaborators;
  SubscribeForExecutedBatches := @SubscribeForExecutedBatches _ Sim.simCollaborators;
  UnsubscribeFromBatches := @UnsubscribeFromBatches _ Sim.simCollaborators;
  registry_HealthCheck := @registry_HealthCheck _ Sim.simCollaborators;
  ProcessNetworkSecretMsgs := @ProcessNetworkSecretMsgs _ Sim.simCollaborators;
  GenerateEntropy := @GenerateEntropy _ Sim.simCollaborators;
  EncryptSecret := @EncryptSecret _ Sim.simCollaborators;
  DecryptSecret := @DecryptSecret _ Sim.simCollaborators;
  batch_Hash := @batch_Hash _ Sim.simCollaborators;
  eth_Hash := @eth_Hash _ Sim.simCollaborators;
  ToBatch := @ToBatch _ Sim.simCollaborators;
  ToExtBatch := @ToExtBatch _ Sim.simCollaborators;
  ParseBlockAndReceipts := @ParseBlockAndReceipts _ Sim.simCollaborators;
  CreateEthHeaderForBatch := @CreateEthHeaderForBatch _ Sim.simCollaborators;
  WithVKEncryption := @WithVKEncryption _ Sim.simCollaborators;
  SubmitTx_WithVKEncryption := @SubmitTx_WithVKEncryption _ Sim.simCollaborators;
  DecryptBytes := @DecryptBytes _ Sim.simCollaborators;
  AddSubscription := @AddSubscription _ Sim.simCollaborators;
  RemoveSubscription := @RemoveSubscription _ Sim.simCollaborators;
  GetReport := @GetReport _ Sim.simCollaborators;
  debugger_DebugTraceTransaction := @debugger_DebugTraceTransaction _ Sim.simCollaborators;
  debugger_DebugEventLogRelevancy := @debugger_DebugEventLogRelevancy _ Sim.simCollaborators;
  GetL2MessageBusAddress := @GetL2MessageBusAddress _ Sim.simCollaborators;
  profiler_Stop := @profiler_Stop _ Sim.simCollaborators;
  CommitGenesisState := @CommitGenesisState _ Sim.simCollaborators;
  ExecuteBatch := @ExecuteBatch _ Sim.simCollaborators
|}.

End SimFaults.

(** ** Notions used to state the properties *)

Section Notions.

Context {W : Type} `{Collaborators W}.

(** What [Status] reports as the L1 head: the head's hash, or the zero hash
    when the block processor has no head. *)
Definition reportedL1Head (w : W) : Hash :=
  match GetHead w with
  | Ok blk => blk_Hash blk
  | Err _ => zeroHash
  end.

(** What [Status] reports as the L2 head: the highest sequencer number
    stored, or 0 when storage has none. *)
Definition reportedL2Head (w : W) : Z :=
  match FetchCurrentSequencerNo w with
  | Ok n => n
  | Err _ => 0
  end.

(** The sequencer order number [SubmitBatch] reads off an external batch. *)
Definition seqNoOf (extBatch : ExtBatch) : Z :=
  Uint64 (SequencerOrderNo (ext_Header extBatch)).

(** The batch needs a parent and storage does not return the batch at
    [seq - 1]. *)
Definition parentMissing (w : W) (extBatch : ExtBatch) : Prop :=
  seqNoOf extBatch > L2GenesisSeqNo + 1 /\
  isOk (FetchBatchBySeqNo (seqNoOf extBatch - 1) w) = false.

(** One of the checks [SubmitBatch] makes before it stores the batch fails.
    The signature is verified by the validator service on the converted
    batch, and the converted header is computed after that, so the last two
    checks are only made by a validator and on a batch that converts. *)
Inductive PreStorageCheckFails (e : enclaveImpl) (w : W) (extBatch : ExtBatch) : Prop :=
| ParentCheckFails :
    parentMissing w extBatch -> PreStorageCheckFails e w extBatch
| ConversionFails err :
    ToBatch extBatch = Err err -> PreStorageCheckFails e w extBatch
| SignatureFails batch err :
    ToBatch extBatch = Ok batch -> service e = ValidatorNode ->
    VerifySequencerSignature batch w = Some err -> PreStorageCheckFails e w extBatch
| ConvertedHeaderFails batch err :
    ToBatch extBatch = Ok batch -> service e = ValidatorNode ->
    CreateEthHeaderForBatch (ext_Header extBatch) w = Err err ->
    PreStorageCheckFails e w extBatch.

(** No call of the trace stores a batch or executes the stored batches. *)
Definition storesNothing (t : list Event) : Prop :=
  (forall b h, ~ In (EvCall (Storage_StoreBatch b h)) t) /\
  ~ In (EvCall Validator_ExecuteStoredBatches) t.

(** The error [SubmitL1Block] hands back for a block it rejects in world [w]
    because of [cause]. *)
Definition rejection (w : W) (cause : error) : error :=
  BlockRejectError (reportedL1Head w) (wrapError "could not submit L1 block. Cause: %w" cause).

(** The panic of a role-specific method called on the other role. *)
Definition roleMismatch (e : enclaveImpl) (req : Request) : option string :=
  match req, service e with
  | ReqCreateBatch _, ValidatorNode
  | ReqCreateRollup _, ValidatorNode =>
      Some "enclave service is not a sequencer but sequencer was requested!"
  | ReqSubmitBatch _, SequencerNode =>
      Some "enclave service is not a validator but validator was requested!"
  | _, _ => None
  end.

(** The error a stopping enclave answers with. *)
Definition isStoppingError (err : error) : Prop :=
  exists method,
    err = InternalError
            (errorString ("requested " ++ method ++ " with the enclave stopping")%string).

(** The stateDB cache holds a snapshot for the batch. *)
Definition snapshotCached (w : W) (b : Batch) : bool :=
  isOk (CreateStateDB (batch_Hash b) w).

(** [parentOf w p b]: storage resolves the parent hash of [b] to [p]. *)
Definition parentOf (w : W) (p b : Batch) : Prop :=
  FetchBatch (ParentHash (Header b)) w = Ok p.

(** [Collected w b l]: walking the parent links backwards from [b], [l] lists
    every batch met without a cached snapshot, newest first, up to the first
    batch with a cached snapshot (left out) or the genesis batch (included). *)
Inductive Collected (w : W) : Batch -> list Batch -> Prop :=
| Collected_cached b :
    snapshotCached w b = true -> Collected w b []
| Collected_genesis b :
    snapshotCached w b = false -> NumberU64 b = 0 -> Collected w b [b]
| Collected_parent b p l :
    snapshotCached w b = false -> NumberU64 b <> 0 -> parentOf w p b ->
    Collected w p l -> Collected w b (b :: l).

(** Replaying one batch: the genesis batch seeds the state through the
    [Genesis] collaborator, any other batch goes through the batch executor. *)
Definition replayStep (b : Batch) (w : W) : option error * W :=
  if NumberU64 b =? 0 then CommitGenesisState w else ExecuteBatch b w.

Definition replayCall (b : Batch) : Call :=
  if NumberU64 b =? 0 then Genesis_CommitGenesisState else Executor_ExecuteBatch b.

(** Replaying a list of batches in the order given, up to the first failure:
    the error if any, the resulting world and the calls made. *)
Fixpoint replayForward (bs : list Batch) (w : W) : option error * W * list Call :=
  match bs with
  | [] => (None, w, [])
  | b :: bs' =>
      match replayStep b w with
      | (Some err, w') => (Some err, w', [replayCall b])
      | (None, w') =>
          match replayForward bs' w' with
          | (r, w'', calls) => (r, w'', replayCall b :: calls)
          end
      end
  end.

(** Each batch of the list is the stored parent of the next one. *)
Definition ascending (w : W) (bs : list Batch) : Prop :=
  forall l1 p b l2, bs = l1 ++ p :: b :: l2 -> parentOf w p b.

End Notions.

(** ** Further notions *)

Section MoreNotions.

Context {W : Type} `{Collaborators W}.

(** The methods that hand on no error of a collaborator: whatever error
    they return is built in [enclave.go].  Of the others, [SubmitBatch] and
    [Subscribe] build some of their errors and hand on one; the encrypted
    RPCs, [SubmitTx], [GetTotalContractCount], [Stop] and
    [EnclavePublicConfig] build at most the error of a stopping enclave. *)
Definition buildsItsErrors (req : Request) : bool :=
  match req with
  | ReqSubmitTx _ | ReqObsCall _ | ReqGetTransactionCount _ | ReqGetTransaction _
  | ReqGetTransactionReceipt _ | ReqGetBalance _ | ReqEstimateGas _ | ReqGetLogs _
  | ReqGetCustomQuery _ | ReqSubmitBatch _ | ReqSubscribe _ _ | ReqStop
  | ReqGetTotalContractCount | ReqEnclavePublicConfig => false
  | _ => true
  end.

(** All the checks [SubmitBatch] makes before it stores the batch pass, with
    [batch] the converted batch and [hdr] the converted header. *)
Definition checksPass (e : enclaveImpl) (w : W) (extBatch : ExtBatch)
    (batch : Batch) (hdr : EthHeader) : Prop :=
  service e = ValidatorNode /\
  ~ parentMissing w extBatch /\
  ToBatch extBatch = Ok batch /\
  VerifySequencerSignature batch w = None /\
  CreateEthHeaderForBatch (ext_Header extBatch) w = Ok hdr.

(** What [SubmitBatch] returns once the checks have passed, from the results
    of the two writes. *)
Definition storeAndExecute (batch : Batch) (hdr : EthHeader) (w : W)
    : option error * W * list Call :=
  match StoreBatch batch (eth_Hash hdr) w with
  | (Some err, w1) =>
      (Some (ToInternalError (wrapError "could not store batch. Cause: %w" err)), w1,
       [Storage_StoreBatch batch (eth_Hash hdr)])
  | (None, w1) =>
      match ExecuteStoredBatches w1 with
      | (Some err, w2) =>
          (Some (ToInternalError (wrapError "could not execute batches. Cause: %w" err)), w2,
           [Storage_StoreBatch batch (eth_Hash hdr); Validator_ExecuteStoredBatches])
      | (None, w2) =>
          (None, w2, [Storage_StoreBatch batch (eth_Hash hdr); Validator_ExecuteStoredBatches])
      end
  end.

(** The steps of [SubmitBatch] on an enclave that is not stopping, up to the
    point where it takes the mutex, when all its checks pass: the log line,
    the lookup of the parent if the batch needs one, the signature check and
    the converted header. *)
Definition passedChecks (extBatch : ExtBatch) : list Event :=
  EvLog LvlInfo "Received new p2p batch" ::
  (if seqNoOf extBatch >? L2GenesisSeqNo + 1
   then [EvCall (Storage_FetchBatchBySeqNo (wrap64 (seqNoOf extBatch - 1)))]
   else []) ++
  [EvCall Validator_VerifySequencerSignature; EvCall Encoding_CreateEthHeaderForBatch].

(** In world [w] everything [Stop] stops can be stopped once more: stopping
    the profiler, unsubscribing from the registry, closing the node service
    and closing storage change nothing, and the profiler and storage report
    no error (the error of the node service is only logged). *)
Definition repeatableStop (e : enclaveImpl) (w : W) : Prop :=
  (profiler e = true -> profiler_Stop w = (None, w)) /\
  UnsubscribeFromBatches w = w /\
  (exists cerr, service_Close w = (cerr, w)) /\
  storage_Close w = (None, w).

(** The trace calls the debugger. *)
Definition callsDebugger (t : list Event) : Prop :=
  In (EvCall Debugger_DebugTraceTransaction) t \/
  In (EvCall Debugger_DebugEventLogRelevancy) t.

(** [Broken w b n err]: walking the parent links backwards from [b] over
    batches without a cached snapshot, the [n]-th parent lookup fails with
    [err]. *)
Inductive Broken (w : W) : Batch -> nat -> error -> Prop :=
| Broken_here b err :
    snapshotCached w b = false -> NumberU64 b <> 0 ->
    FetchBatch (ParentHash (Header b)) w = Err err -> Broken w b 1 err
| Broken_parent b p n err :
    snapshotCached w b = false -> NumberU64 b <> 0 -> parentOf w p b ->
    Broken w p n err -> Broken w b (S n) err.

End MoreNotions.

(** ** Notions for the start-up *)

Section StartupNotions.

Context {W : Type} `{StartupCollaborators W}.

(** The world in which [NewEnclave] looks for the enclave key: the profiler,
    if it is started, has run. *)
Definition profiledWorld (config : EnclaveConfig) (w : W) : W :=
  if negb (cfg_WillAttest config) && cfg_ProfilerEnabled config
  then snd (profiler_Start w)
  else w.

(** The start-up generated or stored an enclave key. *)
Definition makesKey (steps : list StartupStep) : Prop :=
  In StepGenerateEnclaveKey steps \/ exists k, In (StepStoreEnclaveKey k) steps.

End StartupNotions.

(** * Properties *)

(** Unfolding the monad. *)
Create HintDb facade.
#[local] Hint Unfold bind ret panic timeout emit query invoke logger IsStopping
  stopControl_Stop withMainMutex stoppingErr outcomeOf stateOf traceOf answer : facade.

Ltac run := autounfold with facade; cbn.
Ltac run_upto f := autounfold with facade; cbn -[f].

Ltac branch :=
  match goal with
  | |- context [match ?x with _ => _ end] =>
      lazymatch x with
      | context [match _ with _ => _ end] => fail
      | _ => destruct x eqn:?
      end
  end.

(** ** [Status] *)

Section StatusFacts.

Context {W : Type} `{Collaborators W}.

(** C10. On an enclave that is not stopping, [Status] answers absent data
    without an error: with no stored secret (the fetch fails with
    [ErrNotFound]) it returns [AwaitingSecret] with [L2Head = 0]; with a
    secret it returns [Running], where [L1Head] is the head's hash or the
    zero hash when there is no L1 head, and [L2Head] is the highest stored
    sequencer number or 0 when none is stored.  Nothing is changed. *)
Theorem Status_degrades_gracefully (s : St W) :
  stopping s = false ->
  (forall err, FetchSecret (world s) = Err err -> errors_Is err ErrNotFound = true ->
     outcomeOf (Status s)
     = Ret ({| StatusCode_ := AwaitingSecret; L1Head := zeroHash; L2Head := Some 0 |}, None)
     /\ stateOf (Status s) = s)
  /\
  (forall sec, FetchSecret (world s) = Ok sec ->
     outcomeOf (Status s)
     = Ret ({| StatusCode_ := Running;
               L1Head := reportedL1Head (world s);
               L2Head := Some (reportedL2Head (world s)) |}, None)
     /\ stateOf (Status s) = s).
Proof.
  intros Hrun. unfold Status, reportedL1Head, reportedL2Head. split.
  - intros err Hsec Hnf. run. rewrite Hrun, Hsec, Hnf. cbn. auto.
  - intros sec Hsec. run. rewrite Hrun, Hsec.
    destruct (GetHead (world s)); destruct (FetchCurrentSequencerNo (world s)); cbn; auto.
Qed.

End StatusFacts.

(** ** [SubmitBatch] *)

(** Closes a goal about a run that ended in an error before any write. *)
Ltac no_store s :=
  cbn; destruct s; cbn in *; (repeat split; eauto);
  try (let b := fresh in let h := fresh in intros b h);
  let Hin := fresh "Hin" in
  try (intros Hin);
  repeat (destruct Hin as [Hin | Hin]; try discriminate); try contradiction.

Section SubmitBatchFacts.

Context {W : Type} `{Collaborators W}.

Lemma Uint64_range (x : Z) : 0 <= Uint64 x < uint64_mod.
Proof.
  unfold Uint64, wrap64, uint64_mod. apply Z.mod_pos_bound. reflexivity.
Qed.

Lemma wrap64_pred (x : Z) : Uint64 x > L2GenesisSeqNo + 1 -> wrap64 (Uint64 x - 1) = Uint64 x - 1.
Proof.
  intros Hgt. pose proof (Uint64_range x) as Hr. unfold L2GenesisSeqNo in Hgt.
  unfold wrap64. apply Z.mod_small. unfold uint64_mod in *.
  change (2 ^ 64) with 18446744073709551616 in *. lia.
Qed.

(** The run of [SubmitBatch] when the parent lookup fails. *)
Lemma SubmitBatch_parent_missing_run (e : enclaveImpl) (s : St W) (extBatch : ExtBatch) :
  stopping s = false ->
  parentMissing (world s) extBatch ->
  SubmitBatch e extBatch s
  = (Ret (Some (ToInternalError (errorString
       ("could not find previous batch with seq: " ++ fmt_d (seqNoOf extBatch - 1))%string))),
     s,
     [EvLog LvlInfo "Received new p2p batch";
      EvCall (Storage_FetchBatchBySeqNo (seqNoOf extBatch - 1))]).
Proof.
  intros Hrun [Hgt Hmiss]. unfold SubmitBatch, seqNoOf in *. run. rewrite Hrun.
  rewrite wrap64_pred by assumption.
  replace (_ >? _) with true by (symmetry; apply Z.gtb_lt; unfold L2GenesisSeqNo in *; lia).
  rewrite Hmiss. destruct s; reflexivity.
Qed.

(** The run of [SubmitBatch] on a stopping enclave. *)
Lemma SubmitBatch_stopping_run (e : enclaveImpl) (s : St W) (extBatch : ExtBatch) :
  stopping s = true ->
  SubmitBatch e extBatch s
  = (Ret (Some (ToInternalError
       (errorString "requested SubmitBatch with the enclave stopping"))), s, []).
Proof.
  intros Hstop. unfold SubmitBatch. run. rewrite Hstop. reflexivity.
Qed.

(** C1, as the code has it. When the batch needs a parent
    ([seq > genesisSeq + 1]) and the lookup of the batch at [seq - 1] fails,
    [SubmitBatch] fails with an error of code [Internal] (on an enclave that
    is not stopping: "could not find previous batch with seq: seq-1"), the
    world is unchanged and no batch is stored. *)
Theorem SubmitBatch_missing_parent_internal (e : enclaveImpl) (s : St W) (extBatch : ExtBatch) :
  parentMissing (world s) extBatch ->
  exists err,
    outcomeOf (SubmitBatch e extBatch s) = Ret (Some err) /\
    codeOf err = Some CodeInternal /\
    (stopping s = false ->
     err = InternalError (errorString
       ("could not find previous batch with seq: " ++ fmt_d (seqNoOf extBatch - 1))%string)) /\
    stateOf (SubmitBatch e extBatch s) = s /\
    writes (traceOf (SubmitBatch e extBatch s)) = [] /\
    storesNothing (traceOf (SubmitBatch e extBatch s)).
Proof.
  intros Hmiss. destruct (stopping s) eqn:Hstop.
  - rewrite (SubmitBatch_stopping_run e s extBatch Hstop). eexists. cbn.
    repeat split; try reflexivity; try discriminate; intros; intros [].
  - rewrite (SubmitBatch_parent_missing_run e s extBatch Hstop Hmiss). eexists. cbn.
    repeat split; try reflexivity.
    + intros b h [Hin | [Hin | []]]; discriminate.
    + intros [Hin | [Hin | []]]; discriminate.
Qed.

(** C9. When one of the pre-storage checks fails (parent presence, payload
    conversion, sequencer signature, converted header), [SubmitBatch] returns
    an error, leaves the world (storage and executed head) as it was, and
    calls neither [StoreBatch] nor [ExecuteStoredBatches]. *)
Theorem SubmitBatch_atomic_on_failed_checks (e : enclaveImpl) (s : St W) (extBatch : ExtBatch) :
  PreStorageCheckFails e (world s) extBatch ->
  (exists err, outcomeOf (SubmitBatch e extBatch s) = Ret (Some err)) /\
  stateOf (SubmitBatch e extBatch s) = s /\
  writes (traceOf (SubmitBatch e extBatch s)) = [] /\
  storesNothing (traceOf (SubmitBatch e extBatch s)).
Proof.
  intros Hfail. destruct (stopping s) eqn:Hstop.
  { rewrite (SubmitBatch_stopping_run e s extBatch Hstop). cbn.
    repeat split; eauto; intros; intros []. }
  destruct (Z.gtb_spec (seqNoOf extBatch) (L2GenesisSeqNo + 1)) as [Hgt | Hle];
    [destruct (isOk (FetchBatchBySeqNo (seqNoOf extBatch - 1) (world s))) eqn:Hpar | ].
  2:{ rewrite (SubmitBatch_parent_missing_run e s extBatch Hstop) by (split; [lia | assumption]).
      cbn. repeat split; eauto.
      - intros b h [Hin | [Hin | []]]; discriminate.
      - intros [Hin | [Hin | []]]; discriminate. }
  - (* the parent is there *)
    assert (Hnot : ~ parentMissing (world s) extBatch)
      by (intros [_ Hm]; congruence).
    unfold SubmitBatch, Validator. fold (seqNoOf extBatch). run. rewrite Hstop.
    unfold seqNoOf in *. rewrite wrap64_pred by lia.
    replace (_ >? _) with true by (symmetry; apply Z.gtb_lt; unfold L2GenesisSeqNo in *; lia).
    rewrite Hpar. cbn.
    destruct Hfail as [Hm | err Hc | batch err Hc Hv Hsig | batch err Hc Hv Hhdr];
      [contradiction | rewrite Hc | rewrite Hc, Hv; cbn; rewrite Hsig
      | rewrite Hc, Hv; cbn;
        destruct (VerifySequencerSignature batch (world s)); [ | cbn; rewrite Hhdr] ];
      no_store s.
  - (* no parent needed *)
    assert (Hnot : ~ parentMissing (world s) extBatch)
      by (intros [Hm _]; lia).
    unfold SubmitBatch, Validator. fold (seqNoOf extBatch). run. rewrite Hstop.
    replace (_ >? _) with false
      by (symmetry; rewrite Z.gtb_ltb; apply Z.ltb_ge; unfold L2GenesisSeqNo in *; lia).
    cbn.
    destruct Hfail as [Hm | err Hc | batch err Hc Hv Hsig | batch err Hc Hv Hhdr];
      [contradiction | rewrite Hc | rewrite Hc, Hv; cbn; rewrite Hsig
      | rewrite Hc, Hv; cbn;
        destruct (VerifySequencerSignature batch (world s)); [ | cbn; rewrite Hhdr] ];
      no_store s.
Qed.

End SubmitBatchFacts.

(** ** [SubmitL1Block] *)

Section SubmitL1BlockFacts.

Context {W : Type} `{Collaborators W}.

Lemma rejectBlockErr_run (cause : error) (s : St W) :
  rejectBlockErr cause s
  = (Ret (BlockRejectError (reportedL1Head (world s)) cause), s, [EvCall L1_GetHead]).
Proof.
  unfold rejectBlockErr, reportedL1Head. run. reflexivity.
Qed.

(** [ingestL1Block] never panics and never looks at the stop-control flag. *)
Lemma ingestL1Block_returns (br : BlockAndReceipts) (s : St W) :
  exists r, outcomeOf (ingestL1Block br s) = Ret r.
Proof.
  unfold ingestL1Block. run. repeat (branch; cbn); eauto.
Qed.

Lemma ingestL1Block_stopping (br : BlockAndReceipts) (s : St W) :
  stopping (stateOf (ingestL1Block br s)) = stopping s.
Proof.
  unfold ingestL1Block. run. repeat (branch; cbn); reflexivity.
Qed.

(** The shape of [SubmitL1Block] on an enclave that is not stopping, in terms
    of the run of [ingestL1Block]. *)
Lemma SubmitL1Block_parse_failure (block : L1Block) (receipts : Receipts) (s : St W) err :
  stopping s = false ->
  ParseBlockAndReceipts block receipts = Err err ->
  SubmitL1Block block receipts s
  = (Ret (Err (rejection (world s) err)), s,
     [EvLock; EvLog LvlInfo "SubmitL1Block"; EvCall L1_GetHead; EvUnlock]).
Proof.
  intros Hrun Hparse. unfold SubmitL1Block, rejectBlockErr, rejection, reportedL1Head.
  run. rewrite Hrun. cbn. rewrite Hparse. cbn. reflexivity.
Qed.

Lemma SubmitL1Block_ingestion_failure (block : L1Block) (receipts : Receipts) (s : St W)
    br err :
  stopping s = false ->
  ParseBlockAndReceipts block receipts = Ok br ->
  outcomeOf (ingestL1Block br s) = Ret (Err err) ->
  SubmitL1Block block receipts s
  = (Ret (Err (rejection (world (stateOf (ingestL1Block br s))) err)),
     stateOf (ingestL1Block br s),
     EvLock :: (EvLog LvlInfo "SubmitL1Block" :: traceOf (ingestL1Block br s)
                ++ [EvCall L1_GetHead]) ++ [EvUnlock]).
Proof.
  intros Hrun Hparse Hing. unfold SubmitL1Block, rejectBlockErr, rejection, reportedL1Head.
  run_upto @ingestL1Block. rewrite Hrun. cbn -[ingestL1Block]. rewrite Hparse.
  unfold outcomeOf in Hing. destruct (ingestL1Block br s) as [[o s'] t]. cbn in *. subst o.
  reflexivity.
Qed.

Lemma SubmitL1Block_service_failure (block : L1Block) (receipts : Receipts) (s : St W)
    br ingestion err w' :
  stopping s = false ->
  ParseBlockAndReceipts block receipts = Ok br ->
  outcomeOf (ingestL1Block br s) = Ret (Ok ingestion) ->
  OnL1Block block ingestion (world (stateOf (ingestL1Block br s))) = (Some err, w') ->
  outcomeOf (SubmitL1Block block receipts s) = Ret (Err (rejection w' err)) /\
  world (stateOf (SubmitL1Block block receipts s)) = w'.
Proof.
  intros Hrun Hparse Hing Hsvc. unfold SubmitL1Block, rejectBlockErr, rejection, reportedL1Head.
  run_upto @ingestL1Block. rewrite Hrun. cbn -[ingestL1Block]. rewrite Hparse.
  unfold outcomeOf, stateOf in *. destruct (ingestL1Block br s) as [[o s'] t]. cbn in *. subst o.
  destruct (IsFork ingestion); cbn; rewrite Hsvc; cbn; auto.
Qed.

(** C6. On an enclave that is not stopping, every error [SubmitL1Block]
    returns is a [BlockRejectError] that wraps a cause and carries the hash of
    the L1 head at the time of the rejection (the zero hash when the block
    processor has no head); the cause is the parse error, the ingestion error
    or the node service's error. *)
Theorem SubmitL1Block_rejects_with_BlockReject (block : L1Block) (receipts : Receipts)
    (s : St W) :
  stopping s = false ->
  (forall rej, outcomeOf (SubmitL1Block block receipts s) = Ret (Err rej) ->
     exists cause,
       rej = BlockRejectError
               (reportedL1Head (world (stateOf (SubmitL1Block block receipts s))))
               (wrapError "could not submit L1 block. Cause: %w" cause) /\
       codeOf rej = Some CodeBlockReject)
  /\
  (forall err, ParseBlockAndReceipts block receipts = Err err ->
     outcomeOf (SubmitL1Block block receipts s) = Ret (Err (rejection (world s) err)))
  /\
  (forall br err, ParseBlockAndReceipts block receipts = Ok br ->
     outcomeOf (ingestL1Block br s) = Ret (Err err) ->
     outcomeOf (SubmitL1Block block receipts s)
     = Ret (Err (rejection (world (stateOf (ingestL1Block br s))) err)))
  /\
  (forall br ingestion err w', ParseBlockAndReceipts block receipts = Ok br ->
     outcomeOf (ingestL1Block br s) = Ret (Ok ingestion) ->
     OnL1Block block ingestion (world (stateOf (ingestL1Block br s))) = (Some err, w') ->
     outcomeOf (SubmitL1Block block receipts s) = Ret (Err (rejection w' err))).
Proof.
  intros Hrun. repeat split.
  - intros rej Hrej.
    destruct (ParseBlockAndReceipts block receipts) as [br | perr] eqn:Hparse.
    + destruct (ingestL1Block_returns br s) as [[ingestion | ierr] Hing].
      * destruct (OnL1Block block ingestion (world (stateOf (ingestL1Block br s))))
          as [[oerr | ] w'] eqn:Hsvc.
        -- destruct (SubmitL1Block_service_failure _ _ _ _ _ _ _ Hrun Hparse Hing Hsvc)
             as [Hout Hw].
           rewrite Hw. rewrite Hout in Hrej. injection Hrej as <-.
           exists oerr. split; reflexivity.
        -- exfalso. revert Hrej. unfold SubmitL1Block. run_upto @ingestL1Block. rewrite Hrun.
           cbn -[ingestL1Block]. rewrite Hparse. unfold outcomeOf, stateOf in *.
           destruct (ingestL1Block br s) as [[o s'] t]. cbn in *. subst o.
           destruct (IsFork ingestion); cbn; rewrite Hsvc; cbn;
             destruct (ProcessNetworkSecretMsgs br w'); cbn; discriminate.
      * rewrite (SubmitL1Block_ingestion_failure _ _ _ _ _ Hrun Hparse Hing) in *.
        cbn in *. injection Hrej as <-. exists ierr. split; reflexivity.
    + rewrite (SubmitL1Block_parse_failure _ _ _ _ Hrun Hparse) in *.
      cbn in *. injection Hrej as <-. exists perr. split; reflexivity.
  - intros err Hparse. rewrite (SubmitL1Block_parse_failure _ _ _ _ Hrun Hparse). reflexivity.
  - intros br err Hparse Hing.
    rewrite (SubmitL1Block_ingestion_failure _ _ _ _ _ Hrun Hparse Hing). reflexivity.
  - intros br ingestion err w' Hparse Hing Hsvc.
    apply (SubmitL1Block_service_failure _ _ _ _ _ _ _ Hrun Hparse Hing Hsvc).
Qed.

(** C4, as the code has it. When the block processor answers
    [AlreadyProcessed], [ingestL1Block] matches the error by kind only to log
    it at debug level, and hands it on: [SubmitL1Block] fails with a
    [BlockRejectError] that wraps it and carries the current L1 head hash.
    The rollup consumer, the node service and the shared-secret processor are
    not called; the only write is the block processor's own. *)
Theorem SubmitL1Block_already_processed_rejected (block : L1Block) (receipts : Receipts)
    (s : St W) br err w' :
  stopping s = false ->
  ParseBlockAndReceipts block receipts = Ok br ->
  Process br (world s) = (Err err, w') ->
  errors_Is err ErrBlockAlreadyProcessed = true ->
  SubmitL1Block block receipts s
  = (Ret (Err (BlockRejectError (reportedL1Head w')
                 (wrapError "could not submit L1 block. Cause: %w" err))),
     {| world := w'; stopping := false |},
     [EvLock; EvLog LvlInfo "SubmitL1Block"; EvLog LvlInfo "Start ingesting block";
      EvCall L1_Process; EvLog LvlDebug "Did not ingest block"; EvCall L1_GetHead;
      EvUnlock]).
Proof.
  intros Hrun Hparse Hproc Hkind.
  unfold SubmitL1Block, ingestL1Block, rejectBlockErr, reportedL1Head.
  run. rewrite Hrun. cbn. rewrite Hparse. cbn. rewrite Hproc. cbn.
  rewrite Hkind, orb_true_r. cbn. rewrite Hrun. reflexivity.
Qed.

End SubmitL1BlockFacts.

(** ** The whole surface *)

Ltac unfold_methods :=
  unfold serve, GetBatch, GetBatchBySeqNo, Status, StopClient, StreamL2Updates,
    SubmitL1Block, ingestL1Block, rejectBlockErr, SubmitTx, SubmitBatch, CreateBatch,
    CreateRollup, ObsCall, GetTransactionCount, GetTransaction, GetTransactionReceipt,
    Attestation, GenerateSecret, InitEnclave, EnclaveID, GetBalance, GetCode, Subscribe,
    Unsubscribe, Stop, EstimateGas, GetLogs, HealthCheck, DebugTraceTransaction,
    DebugEventLogRelevancy, GetTotalContractCount, GetCustomQuery,
    GetPublicTransactionData, EnclavePublicConfig, withVKEncryption, Validator, Sequencer.

Section SurfaceFacts.

Context {W : Type} `{Collaborators W}.

(** Every method returns, except at a failed role assertion. *)
Lemma serve_returns_or_role_panic (e : enclaveImpl) (s : St W) (req : Request) :
  (exists resp, outcomeOf (serve e req s) = Ret resp) \/
  (exists msg, outcomeOf (serve e req s) = Panic msg /\ roleMismatch e req = Some msg).
Proof.
  destruct req; unfold_methods; unfold roleMismatch; run; repeat (branch; cbn);
    first [ left; eexists; reflexivity
          | right; eexists; split; reflexivity ].
Qed.

(** With the pointers it dereferences in place, a call is the request it
    amounts to. *)
Lemma perform_deref (e : enclaveImpl) (s : St W) (i : Invocation) (req : Request) :
  derefInvocation i = Some req -> perform e i s = serve e req s.
Proof.
  destruct i as [req' | extBatch | address [hash | ]]; cbn.
  - intros Heq. injection Heq as <-. reflexivity.
  - unfold SubmitBatchPtr. destruct (derefExtBatch extBatch) as [b | ]; cbn;
      [ | discriminate]. intros Heq. injection Heq as <-. reflexivity.
  - intros Heq. injection Heq as <-. reflexivity.
  - discriminate.
Qed.

(** A nil pointer that the method dereferences: a stopping enclave never
    gets that far, any other panics before it has written anything. *)
Lemma perform_nil (e : enclaveImpl) (s : St W) (i : Invocation) :
  derefInvocation i = None ->
  (stopping s = false ->
     outcomeOf (perform e i s) = Panic nilDereference /\
     stateOf (perform e i s) = s /\
     writes (traceOf (perform e i s)) = []) /\
  (stopping s = true ->
     exists err, perform e i s = (Ret (ofError (Some err)), s, []) /\ isStoppingError err).
Proof.
  destruct i as [req' | extBatch | address [hash | ]]; cbn; try discriminate.
  - unfold SubmitBatchPtr. destruct (derefExtBatch extBatch) as [b | ] eqn:Hderef;
      [discriminate | ]. intros _. split; intros Hstop; run; rewrite Hstop; cbn.
    + destruct extBatch as [[[hdr | ] blob] | ]; cbn; auto.
    + eexists. split; [reflexivity | ]. exists "SubmitBatch". reflexivity.
  - intros _. unfold GetCodePtr. split; intros Hstop; run; rewrite Hstop; cbn; auto.
    eexists. split; [reflexivity | ]. exists "GetCode". reflexivity.
Qed.

(** C5, as the code has it. With the pointers it dereferences in place,
    every façade method returns (a payload or an error) except at a failed
    role assertion: [CreateBatch] and [CreateRollup] on a validator, and
    [SubmitBatch] on a sequencer, panic.  On a validator that is not stopping
    [CreateBatch] always panics, and [CreateRollup] panics once the registry
    has a head batch; on a sequencer that is not stopping [SubmitBatch]
    panics once the parent check and the conversion have passed; a stopping
    enclave answers all three with the stopping error.  [SubmitBatch] on a
    nil batch, header or sequencer order number, and [GetCode] on a nil batch
    hash, panic at the dereference unless the enclave is stopping. *)
Theorem facade_returns_or_panics (e : enclaveImpl) (s : St W) (i : Invocation) :
  (forall req, derefInvocation i = Some req ->
     ((exists resp, outcomeOf (perform e i s) = Ret resp) \/
      (exists msg, outcomeOf (perform e i s) = Panic msg /\ roleMismatch e req = Some msg)) /\
     (roleMismatch e req = None -> exists resp, outcomeOf (perform e i s) = Ret resp))
  /\
  (derefInvocation i = None ->
     (stopping s = false ->
        outcomeOf (perform e i s) = Panic nilDereference /\
        stateOf (perform e i s) = s /\
        writes (traceOf (perform e i s)) = []) /\
     (stopping s = true ->
        exists err, perform e i s = (Ret (ofError (Some err)), s, []) /\ isStoppingError err))
  /\
  (service e = ValidatorNode -> stopping s = false ->
     (forall skip, outcomeOf (CreateBatch e skip s)
        = Panic "enclave service is not a sequencer but sequencer was requested!") /\
     (forall fromSeqNo, HeadBatchSeq (world s) <> None ->
        outcomeOf (CreateRollup e fromSeqNo s)
        = Panic "enclave service is not a sequencer but sequencer was requested!") /\
     (forall fromSeqNo, HeadBatchSeq (world s) = None ->
        outcomeOf (CreateRollup e fromSeqNo s)
        = Ret (Err (InternalError (errorString "not initialised yet")))))
  /\
  (service e = SequencerNode -> stopping s = false ->
     forall extBatch batch,
       ~ parentMissing (world s) extBatch -> ToBatch extBatch = Ok batch ->
       outcomeOf (SubmitBatch e extBatch s)
       = Panic "enclave service is not a validator but validator was requested!")
  /\
  (stopping s = true ->
     (forall skip, outcomeOf (CreateBatch e skip s)
        = Ret (Some (InternalError
                 (errorString "requested CreateBatch with the enclave stopping")))) /\
     (forall fromSeqNo, outcomeOf (CreateRollup e fromSeqNo s)
        = Ret (Err (InternalError
                 (errorString "requested GenerateRollup with the enclave stopping")))) /\
     (forall extBatch, outcomeOf (SubmitBatch e extBatch s)
        = Ret (Some (InternalError
                 (errorString "requested SubmitBatch with the enclave stopping"))))).
Proof.
  split; [ | split; [ | split; [ | split]]].
  - intros req Hderef. rewrite (perform_deref e s i req Hderef).
    pose proof (serve_returns_or_role_panic e s req) as Hall.
    split; [exact Hall | ].
    intros Hnone. destruct Hall as [Hret | [msg [_ Hmsg]]]; [exact Hret | congruence].
  - apply perform_nil.
  - intros Hval Hrun. repeat split.
    + intros skip. unfold CreateBatch, Sequencer. run. rewrite Hrun, Hval. reflexivity.
    + intros fromSeqNo Hhead. unfold CreateRollup, Sequencer. run. rewrite Hrun. cbn.
      destruct (HeadBatchSeq (world s)); [ | contradiction]. cbn. rewrite Hval. reflexivity.
    + intros fromSeqNo Hhead. unfold CreateRollup. run. rewrite Hrun. cbn.
      rewrite Hhead. reflexivity.
  - intros Hseq Hrun extBatch batch Hpar Hconv.
    assert (Hmiss : (if seqNoOf extBatch >? L2GenesisSeqNo + 1
                     then negb (isOk (FetchBatchBySeqNo (wrap64 (seqNoOf extBatch - 1))
                                        (world s)))
                     else false) = false).
    { destruct (Z.gtb_spec (seqNoOf extBatch) (L2GenesisSeqNo + 1)) as [Hgt | Hle];
        [ | reflexivity].
      unfold seqNoOf in *. rewrite wrap64_pred by lia.
      destruct (isOk (FetchBatchBySeqNo _ (world s))) eqn:Hok; [reflexivity | ].
      exfalso. apply Hpar. split; [unfold seqNoOf; lia | exact Hok]. }
    unfold SubmitBatch, Validator. fold (seqNoOf extBatch). run. rewrite Hrun.
    change (L2GenesisSeqNo + 1) with 2 in Hmiss.
    destruct (seqNoOf extBatch >? 2); cbn in *;
      rewrite ?Hmiss; cbn; rewrite Hconv, Hseq; reflexivity.
  - intros Hstop. repeat split; intros; unfold_methods; run; rewrite Hstop; reflexivity.
Qed.

(** The classification of the calls is sound: a run of a façade method
    whose trace has no write leaves the world as it was. *)
Lemma world_changes_only_by_writes (e : enclaveImpl) (s : St W) (req : Request) :
  writes (traceOf (serve e req s)) = [] -> world (stateOf (serve e req s)) = world s.
Proof.
  destruct req; unfold_methods; run; repeat (branch; cbn);
    intros Hw; try reflexivity; discriminate Hw.
Qed.

Lemma Stop_sets_flag (e : enclaveImpl) (s : St W) :
  (exists r, outcomeOf (Stop e s) = Ret r) /\ stopping (stateOf (Stop e s)) = true.
Proof.
  unfold Stop. run. repeat (branch; cbn); eauto.
Qed.

Lemma stopping_call_run (e : enclaveImpl) (s : St W) (req : Request) :
  stopping s = true ->
  failsWhenStopping req = true ->
  exists resp err,
    serve e req s = (Ret resp, s, []) /\
    resp_err resp = Some err /\
    isStoppingError err /\
    codeOf err = Some CodeInternal.
Proof.
  intros Hstop Hchk.
  destruct req; try discriminate Hchk; unfold_methods; run; rewrite Hstop; cbn;
    do 2 eexists; (split; [reflexivity | split; [reflexivity | split; [ | reflexivity]]]);
    unfold isStoppingError.
  - exists "Status"; reflexivity.
  - exists "SubmitL1Block"; reflexivity.
  - exists "SubmitTx"; reflexivity.
  - exists "SubmitBatch"; reflexivity.
  - exists "CreateBatch"; reflexivity.
  - exists "GenerateRollup"; reflexivity.
  - exists "ObsCall"; reflexivity.
  - exists "GetTransactionCount"; reflexivity.
  - exists "GetTransaction"; reflexivity.
  - exists "GetTransactionReceipt"; reflexivity.
  - exists "ObsCall"; reflexivity.
  - exists "GenerateSecret"; reflexivity.
  - exists "InitEnclave"; reflexivity.
  - exists "GetBalance"; reflexivity.
  - exists "GetCode"; reflexivity.
  - exists "SubscribeForExecutedBatches"; reflexivity.
  - exists "Unsubscribe"; reflexivity.
  - exists "EstimateGas"; reflexivity.
  - exists "GetLogs"; reflexivity.
  - exists "HealthCheck"; reflexivity.
  - exists "DebugTraceTransaction"; reflexivity.
  - exists "DebugEventLogRelevancy"; reflexivity.
  - exists "GetTotalContractCount"; reflexivity.
  - exists "GetReceiptsByAddress"; reflexivity.
  - exists "GetPublicTransactionData"; reflexivity.
Qed.

(** A method that does not check stop-control answers a stopping enclave
    as it answers any other. *)
Lemma unchecked_call_ignores_flag (e : enclaveImpl) (w : W) (req : Request) :
  checksStopControl req = false -> req <> ReqStop ->
  outcomeOf (serve e req {| world := w; stopping := true |})
  = outcomeOf (serve e req {| world := w; stopping := false |}) /\
  traceOf (serve e req {| world := w; stopping := true |})
  = traceOf (serve e req {| world := w; stopping := false |}) /\
  world (stateOf (serve e req {| world := w; stopping := true |}))
  = world (stateOf (serve e req {| world := w; stopping := false |})).
Proof.
  intros Hchk Hreq.
  destruct req; try discriminate Hchk; try congruence; unfold_methods; run;
    repeat (branch; cbn); repeat split; reflexivity.
Qed.

(** No method clears the stop-control flag. *)
Lemma flag_stays_set (e : enclaveImpl) (s : St W) (req : Request) :
  stopping s = true -> stopping (stateOf (serve e req s)) = true.
Proof.
  intros Hstop.
  destruct req; unfold_methods; run; rewrite ?Hstop; cbn;
    repeat (branch; cbn); first [reflexivity | assumption].
Qed.

(** A second [Stop], in a world where everything can be stopped once more. *)
Lemma Stop_again (e : enclaveImpl) (s : St W) :
  stopping s = true ->
  repeatableStop e (world s) ->
  outcomeOf (Stop e s) = Ret None /\ stateOf (Stop e s) = s.
Proof.
  intros Hstop (Hprof & Hunsub & [cerr Hsvc] & Hdb).
  destruct s as [w b]. cbn in *. subst b. unfold Stop. run.
  destruct (profiler e); cbn; rewrite ?Hprof by reflexivity; cbn;
    rewrite Hunsub, Hsvc; destruct cerr; cbn; rewrite Hdb; cbn; auto.
Qed.

(** C7, as the code has it. [Stop] returns and sets the stop-control flag.
    From then on every method that checks stop-control and can return an
    error fails, before it touches anything, with an error of code [Internal]
    ("requested ... with the enclave stopping"); [Status] also reports the
    status code [Unavailable]; [StreamL2Updates], which checks the flag as
    well, hands back a closed channel and does not subscribe; the methods
    that do not check the flag answer as they would have before; no method
    clears the flag.  A second
    [Stop] after a successful one succeeds again and leaves the enclave as it
    was, where the profiler, the registry, the node service and storage can
    be stopped once more. *)
Theorem after_Stop_calls_fail_internal_or_close (e : enclaveImpl) (s : St W) :
  let stopped := stateOf (Stop e s) in
  (exists r, outcomeOf (Stop e s) = Ret r) /\
  stopping stopped = true /\
  (forall s' req, stopping s' = true -> failsWhenStopping req = true ->
     exists resp err,
       serve e req s' = (Ret resp, s', []) /\
       resp_err resp = Some err /\
       isStoppingError err /\
       codeOf err = Some CodeInternal) /\
  (forall s', stopping s' = true ->
     exists err, outcomeOf (Status s')
       = Ret ({| StatusCode_ := Unavailable; L1Head := zeroHash; L2Head := None |},
              Some err)) /\
  (forall s', stopping s' = true -> StreamL2Updates s' = (Ret ClosedChannel, s', [])) /\
  (forall s' req, stopping s' = true -> stopping (stateOf (serve e req s')) = true) /\
  (forall req w, checksStopControl req = false -> req <> ReqStop ->
     outcomeOf (serve e req {| world := w; stopping := true |})
     = outcomeOf (serve e req {| world := w; stopping := false |}) /\
     traceOf (serve e req {| world := w; stopping := true |})
     = traceOf (serve e req {| world := w; stopping := false |})) /\
  (outcomeOf (Stop e s) = Ret None -> repeatableStop e (world stopped) ->
     outcomeOf (Stop e stopped) = outcomeOf (Stop e s) /\
     stateOf (Stop e stopped) = stopped).
Proof.
  cbv zeta. split; [ | split; [ | split; [ | split; [ | split; [ | split; [ | split]]]]]].
  - exact (proj1 (Stop_sets_flag e s)).
  - exact (proj2 (Stop_sets_flag e s)).
  - intros s' req. apply stopping_call_run.
  - intros s' Hstop. unfold Status. run. rewrite Hstop. eexists. reflexivity.
  - intros s' Hstop. unfold StreamL2Updates. run. rewrite Hstop. reflexivity.
  - intros s' req. apply flag_stays_set.
  - intros req w Hchk Hreq.
    destruct (unchecked_call_ignores_flag e w req Hchk Hreq) as (Hout & Htr & _).
    split; assumption.
  - intros Hfirst Hrep. rewrite Hfirst.
    apply Stop_again; [exact (proj2 (Stop_sets_flag e s)) | exact Hrep].
Qed.

End SurfaceFacts.

(** ** The shared secret *)

Section SecretExchange.

Context {W : Type} `{Collaborators W}.

(** [keyPair pub priv]: [priv] is the private key of the public key [pub]. *)
Variable keyPair : bytes -> bytes -> Prop.

(** What the crypto helpers and the storage adapter promise: a secret
    decrypted with the matching private key is the secret that was encrypted,
    a stored secret is the one fetched afterwards, and encrypting does not
    touch the stored secret. *)
Hypothesis decrypt_encrypt : forall pub priv secret w enc w' secret',
  keyPair pub priv ->
  EncryptSecret pub secret w = (Ok enc, w') ->
  DecryptSecret enc priv = Ok secret' ->
  secret' = secret.

Hypothesis fetch_stored : forall secret w w',
  StoreSecret secret w = (None, w') -> FetchSecret w' = Ok secret.

Hypothesis encrypt_keeps_secret : forall pub secret w r w',
  EncryptSecret pub secret w = (r, w') -> FetchSecret w' = FetchSecret w.

(** C8. If [GenerateSecret] on enclave [a] returns the envelope [env] and
    [InitEnclave env] succeeds on enclave [b], whose private key matches the
    public key of [a] under which [env] was encrypted, then both enclaves
    have stored the same secret. *)
Theorem secrets_agree_after_exchange (a b : enclaveImpl) (sa sb : St W)
    (env : EncryptedSharedEnclaveSecret) :
  keyPair (PublicKeyBytes (enclaveKey a)) (PrivateKey (enclaveKey b)) ->
  outcomeOf (GenerateSecret a sa) = Ret (Ok env) ->
  outcomeOf (InitEnclave b env sb) = Ret None ->
  exists secret,
    FetchSecret (world (stateOf (GenerateSecret a sa))) = Ok secret /\
    FetchSecret (world (stateOf (InitEnclave b env sb))) = Ok secret /\
    In (EvCall (Storage_StoreSecret secret)) (traceOf (GenerateSecret a sa)) /\
    In (EvCall (Storage_StoreSecret secret)) (traceOf (InitEnclave b env sb)).
Proof.
  intros Hkeys. unfold GenerateSecret, InitEnclave. run.
  destruct (stopping sa); [discriminate | ].
  destruct (stopping sb); [discriminate | ]. cbn.
  destruct (GenerateEntropy (world sa)) as [secret w1]. cbn.
  destruct (StoreSecret secret w1) as [[serr | ] w2] eqn:Hstore; [discriminate | ]. cbn.
  destruct (EncryptSecret (PublicKeyBytes (enclaveKey a)) secret w2)
    as [[enc | eerr] w3] eqn:Henc; [ | discriminate]. cbn.
  intros Henv. injection Henv as ->.
  destruct (DecryptSecret env (PrivateKey (enclaveKey b))) as [secret' | derr] eqn:Hdec;
    [ | discriminate]. cbn.
  destruct (StoreSecret secret' (world sb)) as [[serr | ] w4] eqn:Hstore'; [discriminate | ].
  cbn. intros _.
  assert (secret' = secret) as -> by (eapply decrypt_encrypt; eassumption).
  exists secret. repeat split.
  - rewrite (encrypt_keeps_secret _ _ _ _ _ Henc). eapply fetch_stored; eassumption.
  - eapply fetch_stored; eassumption.
  - right; left; reflexivity.
  - left; reflexivity.
Qed.

End SecretExchange.

(** ** Recovery of the stateDB cache *)

Section RecoveryFacts.

Context {W : Type} `{Collaborators W}.

Lemma writes_app (t1 t2 : list Event) : writes (t1 ++ t2) = writes t1 ++ writes t2.
Proof.
  induction t1 as [ | ev t1 IH]; cbn; [reflexivity | ].
  destruct ev; try assumption. destruct (mutating c); cbn; congruence.
Qed.

Lemma writes_calls (calls : list Call) :
  forallb mutating calls = true -> writes (map EvCall calls) = calls.
Proof.
  induction calls as [ | c calls IH]; cbn; [reflexivity | ].
  intros Hall. apply andb_prop in Hall as [Hc Hall]. rewrite Hc, IH; auto.
Qed.

Lemma replayCall_mutating (b : Batch) : mutating (replayCall b) = true.
Proof.
  unfold replayCall. destruct (NumberU64 b =? 0); reflexivity.
Qed.

Lemma replayForward_calls_mutating (bs : list Batch) (w : W) :
  forallb mutating (snd (replayForward bs w)) = true.
Proof.
  revert w. induction bs as [ | b bs IH]; intros w; cbn; [reflexivity | ].
  destruct (replayStep b w) as [[err | ] w'].
  - cbn. rewrite replayCall_mutating. reflexivity.
  - specialize (IH w'). destruct (replayForward bs w') as [[r w''] calls].
    cbn in *. rewrite replayCall_mutating. assumption.
Qed.

(** The backward walk, with enough fuel, returns what [Collected] describes
    and writes nothing. *)
Lemma collectBatchesToReplay_run (s : St W) (b : Batch) (l : list Batch) :
  Collected (world s) b l ->
  forall fuel acc, (List.length l < fuel)%nat ->
  exists t,
    collectBatchesToReplay fuel b acc s = (Ret (Ok (acc ++ l)), s, t) /\ writes t = [].
Proof.
  induction 1 as [b Hc | b Hc Hg | b p l Hc Hg Hp Hcol IH]; intros fuel acc Hfuel;
    (destruct fuel as [ | fuel]; [cbn in Hfuel; lia | ]);
    cbn [collectBatchesToReplay]; unfold stateDBAvailableForBatch;
    unfold snapshotCached in Hc; run; rewrite Hc; cbn.
  - rewrite app_nil_r. eauto.
  - apply Z.eqb_eq in Hg. rewrite Hg. cbn. eauto.
  - apply Z.eqb_neq in Hg. rewrite Hg. cbn. unfold parentOf in Hp. rewrite Hp.
    destruct (IH fuel (acc ++ [b])) as [t [Hrun Hw]]; [cbn in Hfuel; lia | ].
    rewrite Hrun. rewrite <- app_assoc. cbn. eauto.
Qed.

Lemma firstn_snoc (bs : list Batch) (i : nat) (b : Batch) :
  nth_error bs i = Some b -> firstn (S i) bs = firstn i bs ++ [b].
Proof.
  revert i. induction bs as [ | x bs IH]; intros [ | i] Hnth; cbn in *; try discriminate.
  - injection Hnth as ->. reflexivity.
  - rewrite (IH i Hnth). reflexivity.
Qed.

(** The replay loop, counting the index down, is the forward replay of the
    reversed list. *)
Lemma replayLoop_run (bs : list Batch) (n : nat) :
  (n <= List.length bs)%nat ->
  forall s : St W,
  replayLoop n bs s
  = (Ret (fst (fst (replayForward (rev (firstn n bs)) (world s)))),
     {| world := snd (fst (replayForward (rev (firstn n bs)) (world s)));
        stopping := stopping s |},
     map EvCall (snd (replayForward (rev (firstn n bs)) (world s)))).
Proof.
  induction n as [ | i IH]; intros Hn s.
  - cbn. destruct s; reflexivity.
  - destruct (nth_error bs i) as [b | ] eqn:Hnth;
      [ | apply nth_error_None in Hnth; lia ].
    rewrite (firstn_snoc _ _ _ Hnth), rev_app_distr. cbn [rev app replayLoop replayForward].
    rewrite Hnth. unfold replayStep.
    destruct (NumberU64 b =? 0) eqn:Hg; unfold replayCall; rewrite Hg; run.
    + destruct (CommitGenesisState (world s)) as [[err | ] w']; cbn; [reflexivity | ].
      rewrite IH by lia. cbn.
      destruct (replayForward (rev (firstn i bs)) w') as [[r w''] calls]. reflexivity.
    + destruct (ExecuteBatch b (world s)) as [[err | ] w']; cbn; [reflexivity | ].
      rewrite IH by lia. cbn.
      destruct (replayForward (rev (firstn i bs)) w') as [[r w''] calls]. reflexivity.
Qed.

Lemma Collected_head (w : W) (b : Batch) (l : list Batch) :
  Collected w b l -> snapshotCached w b = false -> hd_error l = Some b.
Proof.
  intros Hcol Hc. destruct Hcol; [congruence | reflexivity | reflexivity].
Qed.

Lemma Collected_linked (w : W) (b : Batch) (l : list Batch) :
  Collected w b l ->
  forall l1 x y l2, l = l1 ++ x :: y :: l2 -> parentOf w y x.
Proof.
  induction 1 as [b Hc | b Hc Hg | b p l Hc Hg Hp Hcol IH]; intros l1 x y l2 Heq.
  - destruct l1; discriminate.
  - destruct l1 as [ | ? [ | ]]; discriminate.
  - destruct l1 as [ | z l1]; cbn in Heq.
    + injection Heq as <- Hl.
      pose proof (Collected_head _ _ _ Hcol) as Hhd. rewrite Hl in Hhd.
      destruct (snapshotCached w p) eqn:Hcp.
      * inversion Hcol; subst; try congruence; discriminate.
      * specialize (Hhd eq_refl). cbn in Hhd. injection Hhd as ->. assumption.
    + injection Heq as <- Hl. eapply IH; eassumption.
Qed.

Lemma Collected_uncached (w : W) (b : Batch) (l : list Batch) :
  Collected w b l -> forall x, In x l -> snapshotCached w x = false.
Proof.
  induction 1 as [b Hc | b Hc Hg | b p l Hc Hg Hp Hcol IH]; intros x Hin.
  - destruct Hin.
  - destruct Hin as [<- | []]. assumption.
  - destruct Hin as [<- | Hin]; [assumption | auto].
Qed.

Lemma rev_ascending (w : W) (b : Batch) (l : list Batch) :
  Collected w b l -> ascending w (rev l).
Proof.
  intros Hcol l1 p x l2 Heq.
  apply (Collected_linked _ _ _ Hcol (rev l2) x p (rev l1)).
  rewrite <- (rev_involutive l), Heq, rev_app_distr. cbn.
  rewrite <- !app_assoc. reflexivity.
Qed.

(** C2. [restoreStateDBCache] does nothing when the registry has no head
    batch, and nothing when the head batch has a cached snapshot.  When the
    head batch has none, and [l] is what the backward walk over the parent
    links collects (every batch without a cached snapshot, down to the first
    cached one or to genesis), then with enough fuel for the walk the routine
    replays exactly the batches of [l] in ascending order (oldest first, each
    after its parent) up to the first failure: the genesis batch through
    [CommitGenesisState], every other batch through [ExecuteBatch]; these are
    its only writes. *)
Theorem restoreStateDBCache_replays_forward (fuel : nat) (s : St W) :
  (HeadBatchSeq (world s) = None ->
     restoreStateDBCache fuel s = (Ret None, s, [EvCall Registry_HeadBatchSeq]))
  /\
  (forall headSeq batch,
     HeadBatchSeq (world s) = Some headSeq ->
     FetchBatchBySeqNo (Uint64 headSeq) (world s) = Ok batch ->
     snapshotCached (world s) batch = true ->
     outcomeOf (restoreStateDBCache fuel s) = Ret None /\
     stateOf (restoreStateDBCache fuel s) = s /\
     writes (traceOf (restoreStateDBCache fuel s)) = [])
  /\
  (forall headSeq batch l,
     HeadBatchSeq (world s) = Some headSeq ->
     FetchBatchBySeqNo (Uint64 headSeq) (world s) = Ok batch ->
     snapshotCached (world s) batch = false ->
     Collected (world s) batch l ->
     (List.length l < fuel)%nat ->
     hd_error l = Some batch /\
     (forall b, In b l -> snapshotCached (world s) b = false) /\
     ascending (world s) (rev l) /\
     outcomeOf (restoreStateDBCache fuel s)
     = Ret (option_map (wrapError "unable to replay batches to restore valid state - %w")
                       (fst (fst (replayForward (rev l) (world s))))) /\
     world (stateOf (restoreStateDBCache fuel s))
     = snd (fst (replayForward (rev l) (world s))) /\
     writes (traceOf (restoreStateDBCache fuel s))
     = snd (replayForward (rev l) (world s))).
Proof.
  split; [ | split].
  - intros Hhead. unfold restoreStateDBCache. run. rewrite Hhead. reflexivity.
  - intros headSeq batch Hhead Hfetch Hc. unfold restoreStateDBCache, stateDBAvailableForBatch.
    unfold snapshotCached in Hc. run. rewrite Hhead. cbn. rewrite Hhead. cbn.
    rewrite Hfetch. cbn. rewrite Hc. cbn. auto.
  - intros headSeq batch l Hhead Hfetch Hc Hcol Hfuel.
    split; [exact (Collected_head _ _ _ Hcol Hc) | ].
    split; [exact (Collected_uncached _ _ _ Hcol) | ].
    split; [exact (rev_ascending _ _ _ Hcol) | ].
    destruct (collectBatchesToReplay_run s batch l Hcol fuel [] Hfuel) as [t [Hrun Hw]].
    pose proof (Collected_head _ _ _ Hcol Hc) as Hhd.
    pose proof (replayLoop_run l (List.length l) (le_n _) s) as Hloop.
    rewrite firstn_all in Hloop.
    pose proof (replayForward_calls_mutating (rev l) (world s)) as Hmut.
    unfold restoreStateDBCache, replayBatchesToValidState, stateDBAvailableForBatch.
    unfold snapshotCached in Hc.
    autounfold with facade; cbn -[collectBatchesToReplay replayLoop].
    rewrite Hhead. cbn -[collectBatchesToReplay replayLoop].
    rewrite Hhead. cbn -[collectBatchesToReplay replayLoop].
    rewrite Hfetch. cbn -[collectBatchesToReplay replayLoop].
    rewrite Hc. cbn -[collectBatchesToReplay replayLoop].
    rewrite Hhead. cbn -[collectBatchesToReplay replayLoop].
    rewrite Hfetch. cbn -[collectBatchesToReplay replayLoop].
    rewrite Hrun. cbn -[collectBatchesToReplay replayLoop].
    destruct l as [ | b0 l0]; [discriminate | ].
    cbn -[collectBatchesToReplay replayLoop rev]. cbn [List.length] in Hloop.
    rewrite Hloop.
    destruct (replayForward (rev (b0 :: l0)) (world s)) as [[r w'] calls].
    cbn -[rev] in *.
    destruct r; cbn -[rev]; rewrite !writes_app, Hw; cbn;
      rewrite writes_calls, app_nil_r by assumption; auto.
Qed.

End RecoveryFacts.

(** ** Runs on the in-memory collaborators *)

Section SimRuns.

Import Sim.

Lemma stripPrefix_app (p s : bytes) : stripPrefix p (p ++ s) = Some s.
Proof.
  induction p as [ | x p IH]; cbn; [reflexivity | ].
  rewrite (Byte.byte_dec_lb (eq_refl x)). exact IH.
Qed.

Lemma sim_decrypt_encrypt (pub priv : bytes) (s : Secret) (w : World) enc w' s' :
  pub = priv ->
  EncryptSecret pub s w = (Ok enc, w') ->
  DecryptSecret enc priv = Ok s' ->
  s' = s.
Proof.
  intros <- Henc Hdec. cbn in Henc, Hdec. unfold encryptSecret in Henc.
  injection Henc as <- <-. unfold decryptSecret in Hdec.
  rewrite stripPrefix_app in Hdec. congruence.
Qed.

Lemma sim_fetch_stored (s : Secret) (w w' : World) :
  StoreSecret s w = (None, w') -> FetchSecret w' = Ok s.
Proof.
  cbn. intros Heq. injection Heq as <-. reflexivity.
Qed.

Lemma sim_encrypt_keeps_secret (pub : bytes) (s : Secret) (w : World) r w' :
  EncryptSecret pub s w = (r, w') -> FetchSecret w' = FetchSecret w.
Proof.
  cbn. unfold encryptSecret. intros Heq. injection Heq as _ <-. reflexivity.
Qed.

(** A batch of sequence number 3 arrives at a validator that stores no
    batch: its parent is missing. *)
Lemma sim_parent_missing : parentMissing (world (start emptyWorld)) (mkExtBatch 3).
Proof.
  split; reflexivity.
Defined.

(** C1 at that input. *)
Lemma SubmitBatch_missing_parent_internal_witness :
  parentMissing (world (start emptyWorld)) (mkExtBatch 3) /\
  exists err,
    outcomeOf (SubmitBatch validator (mkExtBatch 3) (start emptyWorld)) = Ret (Some err) /\
    codeOf err = Some CodeInternal /\
    stateOf (SubmitBatch validator (mkExtBatch 3) (start emptyWorld)) = start emptyWorld.
Proof.
  split; [exact sim_parent_missing | ].
  destruct (SubmitBatch_missing_parent_internal (H := simCollaborators) validator (start emptyWorld) (mkExtBatch 3)
              sim_parent_missing) as (err & Hout & Hcode & _ & Hst & _).
  exists err. repeat split; assumption.
Defined.

(** C1 as stated fails there: the parent is missing, and the error is not a
    user-facing one. *)
Lemma SubmitBatch_missing_parent_not_UserFacing :
  parentMissing (world (start emptyWorld)) (mkExtBatch 3) /\
  outcomeOf (SubmitBatch validator (mkExtBatch 3) (start emptyWorld))
  = Ret (Some (InternalError (errorString "could not find previous batch with seq: 2"))) /\
  ~ (exists err,
       outcomeOf (SubmitBatch validator (mkExtBatch 3) (start emptyWorld)) = Ret (Some err) /\
       codeOf err = Some CodeUserFacing).
Proof.
  split; [exact sim_parent_missing | split; [reflexivity | ]].
  intros (err & Hout & Hcode). vm_compute in Hout. injection Hout as <-. discriminate Hcode.
Qed.

(** C9 at a batch whose signature does not verify. *)
Lemma SubmitBatch_atomic_on_failed_checks_witness :
  PreStorageCheckFails validator (world (start warmWorld)) unsignedExtBatch /\
  (exists err, outcomeOf (SubmitBatch validator unsignedExtBatch (start warmWorld))
               = Ret (Some err)) /\
  stateOf (SubmitBatch validator unsignedExtBatch (start warmWorld)) = start warmWorld.
Proof.
  assert (Hfail : PreStorageCheckFails validator (world (start warmWorld)) unsignedExtBatch).
  { eapply SignatureFails; reflexivity. }
  split; [exact Hfail | ].
  destruct (SubmitBatch_atomic_on_failed_checks (H := simCollaborators) validator (start warmWorld) unsignedExtBatch
              Hfail) as (Hout & Hst & _).
  split; assumption.
Defined.

(** C10 at an enclave without a secret and at a running one. *)
Lemma Status_degrades_gracefully_witness :
  outcomeOf (Status (start emptyWorld))
  = Ret ({| StatusCode_ := AwaitingSecret; L1Head := zeroHash; L2Head := Some 0 |}, None) /\
  outcomeOf (Status (start runningWorld))
  = Ret ({| StatusCode_ := Running; L1Head := 500; L2Head := Some 3 |}, None).
Proof.
  split.
  - exact (proj1 (proj1 (Status_degrades_gracefully (H := simCollaborators) (start emptyWorld) eq_refl)
                    ErrNotFound eq_refl eq_refl)).
  - exact (proj1 (proj2 (Status_degrades_gracefully (H := simCollaborators) (start runningWorld) eq_refl)
                    [Byte.x78] eq_refl)).
Defined.

(** C6 at a block that is already processed: the ingestion fails. *)
Lemma SubmitL1Block_rejects_with_BlockReject_witness :
  outcomeOf (SubmitL1Block blockA [] (start runningWorld))
  = Ret (Err (BlockRejectError 500
               (wrapError "could not submit L1 block. Cause: %w" ErrBlockAlreadyProcessed))).
Proof.
  exact (proj1 (proj2 (proj2 (SubmitL1Block_rejects_with_BlockReject (H := simCollaborators) blockA []
                                (start runningWorld) eq_refl)))
           {| br_Block := blockA; br_Receipts := [] |} ErrBlockAlreadyProcessed
           eq_refl eq_refl).
Defined.

(** C4 at the same input. *)
Lemma SubmitL1Block_already_processed_rejected_witness :
  traceOf (SubmitL1Block blockA [] (start runningWorld))
  = [EvLock; EvLog LvlInfo "SubmitL1Block"; EvLog LvlInfo "Start ingesting block";
     EvCall L1_Process; EvLog LvlDebug "Did not ingest block"; EvCall L1_GetHead;
     EvUnlock] /\
  stateOf (SubmitL1Block blockA [] (start runningWorld)) = start runningWorld.
Proof.
  rewrite (SubmitL1Block_already_processed_rejected (H := simCollaborators) blockA [] (start runningWorld)
             {| br_Block := blockA; br_Receipts := [] |} ErrBlockAlreadyProcessed
             runningWorld eq_refl eq_refl eq_refl eq_refl).
  split; reflexivity.
Defined.

(** C4 as stated fails there: [blockA] is already processed, and submitting
    it again fails. *)
Lemma SubmitL1Block_already_processed_fails :
  knownBlock (blk_Hash blockA) runningWorld = true /\
  fst (Process {| br_Block := blockA; br_Receipts := [] |} runningWorld)
  = Err ErrBlockAlreadyProcessed /\
  ~ (exists resp, outcomeOf (SubmitL1Block blockA [] (start runningWorld)) = Ret (Ok resp)).
Proof.
  split; [reflexivity | split; [reflexivity | ]].
  intros (resp & Hout). vm_compute in Hout. discriminate Hout.
Qed.

(** C5 on a validator, and at a nil batch hash. *)
Lemma facade_returns_or_panics_witness :
  outcomeOf (CreateBatch validator true (start runningWorld))
  = Panic "enclave service is not a sequencer but sequencer was requested!" /\
  (exists resp,
     outcomeOf (perform validator (Invoke ReqHealthCheck) (start runningWorld)) = Ret resp) /\
  outcomeOf (perform validator (InvokeGetCode 5 None) (start runningWorld))
  = Panic nilDereference.
Proof.
  split; [ | split].
  - exact (proj1 (proj1 (proj2 (proj2 (facade_returns_or_panics (H := simCollaborators)
                                         validator (start runningWorld)
                                         (Invoke ReqHealthCheck))))
                    eq_refl eq_refl) true).
  - exact (proj2 (proj1 (facade_returns_or_panics (H := simCollaborators) validator
                           (start runningWorld) (Invoke ReqHealthCheck))
                    ReqHealthCheck eq_refl) eq_refl).
  - exact (proj1 (proj1 (proj1 (proj2 (facade_returns_or_panics (H := simCollaborators)
                                         validator (start runningWorld)
                                         (InvokeGetCode 5 None)))
                           eq_refl) eq_refl)).
Defined.

(** C5 as stated fails there: on a validator neither [CreateBatch] nor
    [CreateRollup] returns, and [GetCode] does not return on a nil batch
    hash. *)
Lemma CreateBatch_on_validator_panics :
  service validator = ValidatorNode /\
  ~ (exists r, outcomeOf (CreateBatch validator true (start runningWorld)) = Ret r) /\
  ~ (exists r, outcomeOf (CreateRollup validator 1 (start runningWorld)) = Ret r) /\
  ~ (exists r, outcomeOf (GetCodePtr 5 None (start runningWorld)) = Ret r).
Proof.
  split; [reflexivity | split; [ | split]];
    intros (r & Hout); vm_compute in Hout; discriminate Hout.
Qed.

Lemma sim_stopped : stopping (stateOf (Stop sequencer (start runningWorld))) = true.
Proof.
  reflexivity.
Defined.

Lemma sim_repeatable :
  repeatableStop sequencer (world (stateOf (Stop sequencer (start runningWorld)))).
Proof.
  split; [discriminate | split; [reflexivity | split; [exists None | ]; reflexivity]].
Defined.

(** C7 after [Stop] on the sequencer. *)
Lemma after_Stop_calls_fail_internal_or_close_witness :
  (exists resp err,
     serve sequencer (ReqCreateBatch true) (stateOf (Stop sequencer (start runningWorld)))
     = (Ret resp, stateOf (Stop sequencer (start runningWorld)), []) /\
     resp_err resp = Some err /\
     codeOf err = Some CodeInternal) /\
  outcomeOf (Stop sequencer (stateOf (Stop sequencer (start runningWorld))))
  = outcomeOf (Stop sequencer (start runningWorld)) /\
  stateOf (Stop sequencer (stateOf (Stop sequencer (start runningWorld))))
  = stateOf (Stop sequencer (start runningWorld)).
Proof.
  split.
  - destruct (proj1 (proj2 (proj2 (after_Stop_calls_fail_internal_or_close
                                     (H := simCollaborators) sequencer
                                     (start runningWorld))))
                (stateOf (Stop sequencer (start runningWorld))) (ReqCreateBatch true)
                sim_stopped eq_refl) as (resp & err & Hrun & Herr & _ & Hcode).
    exists resp, err. repeat split; assumption.
  - exact (proj2 (proj2 (proj2 (proj2 (proj2 (proj2 (proj2
             (after_Stop_calls_fail_internal_or_close
                (H := simCollaborators) sequencer (start runningWorld))))))))
             eq_refl sim_repeatable).
Defined.

(** C7 as stated fails there: after [Stop], [CreateBatch] fails with an
    error that is not [Unavailable], [EnclaveID] does not fail at all and
    [StreamL2Updates] hands back a closed channel and no error.  And with a
    storage that cannot be closed twice, a second [Stop] fails after a first
    one that succeeded. *)
Lemma after_Stop_not_Unavailable :
  stopping (stateOf (Stop sequencer (start runningWorld))) = true /\
  ~ (exists err,
       outcomeOf (CreateBatch sequencer true (stateOf (Stop sequencer (start runningWorld))))
       = Ret (Some err) /\
       codeOf err = Some CodeUnavailable) /\
  outcomeOf (EnclaveID sequencer (stateOf (Stop sequencer (start runningWorld))))
  = Ret (Ok 7) /\
  outcomeOf (serve sequencer ReqStreamL2Updates (stateOf (Stop sequencer (start runningWorld))))
  = Ret {| resp_payload := Some (PChannel ClosedChannel); resp_err := None |} /\
  outcomeOf (@Stop _ SimFaults.closesOnce sequencer (start runningWorld)) = Ret None /\
  outcomeOf (@Stop _ SimFaults.closesOnce sequencer
               (stateOf (@Stop _ SimFaults.closesOnce sequencer (start runningWorld))))
  = Ret (Some SimFaults.alreadyClosed).
Proof.
  split; [reflexivity | split; [ | repeat split]].
  intros (err & Hout & Hcode). vm_compute in Hout. injection Hout as <-. discriminate Hcode.
Qed.

(** C8 between two enclaves that share the key. *)
Lemma secrets_agree_after_exchange_witness :
  exists secret,
    FetchSecret (world (stateOf (GenerateSecret sequencer (start emptyWorld)))) = Ok secret /\
    FetchSecret (world (stateOf (InitEnclave validator
                                   [Byte.x6b; Byte.x31; Byte.x61; Byte.x62; Byte.x63]
                                   (start coldWorld)))) = Ok secret.
Proof.
  destruct (secrets_agree_after_exchange (H := simCollaborators) eq sim_decrypt_encrypt sim_fetch_stored
              sim_encrypt_keeps_secret sequencer validator (start emptyWorld)
              (start coldWorld) [Byte.x6b; Byte.x31; Byte.x61; Byte.x62; Byte.x63]
              eq_refl eq_refl eq_refl) as (secret & Ha & Hb & _).
  exists secret. split; assumption.
Defined.

Lemma sim_cold_collected :
  Collected (world (start coldWorld)) (mkBatch 3) [mkBatch 3; mkBatch 2; mkBatch 1].
Proof.
  apply Collected_parent with (p := mkBatch 2);
    [reflexivity | vm_compute; discriminate | reflexivity | ].
  apply Collected_parent with (p := mkBatch 1);
    [reflexivity | vm_compute; discriminate | reflexivity | ].
  apply Collected_genesis; reflexivity.
Defined.

(** C2 on a chain of three batches with an empty cache. *)
Lemma restoreStateDBCache_replays_forward_witness :
  outcomeOf (restoreStateDBCache 10 (start coldWorld)) = Ret None /\
  writes (traceOf (restoreStateDBCache 10 (start coldWorld)))
  = [Genesis_CommitGenesisState; Executor_ExecuteBatch (mkBatch 2);
     Executor_ExecuteBatch (mkBatch 3)] /\
  stateDBs (world (stateOf (restoreStateDBCache 10 (start coldWorld)))) = [1003; 1002; 1001].
Proof.
  destruct (proj2 (proj2 (restoreStateDBCache_replays_forward (H := simCollaborators) 10 (start coldWorld)))
              3 (mkBatch 3) [mkBatch 3; mkBatch 2; mkBatch 1]
              eq_refl eq_refl eq_refl sim_cold_collected)
    as (_ & _ & _ & Hout & Hw & Hcalls).
  - cbn. lia.
  - split; [exact Hout | split; [exact Hcalls | ]]. rewrite Hw. reflexivity.
Defined.

End SimRuns.

(** * Further properties of the façade *)

Section MoreSurfaceFacts.

Context {W : Type} `{Collaborators W}.

(** X1. On an enclave that is not stopping [HealthCheck] never returns an
    error and changes nothing: it answers [true] exactly when storage, the L1
    block processor and the batch registry all report healthy without an
    error; a failing check is answered with [false]. *)
Theorem HealthCheck_never_fails (s : St W) :
  stopping s = false ->
  stateOf (HealthCheck s) = s /\
  exists healthy,
    outcomeOf (HealthCheck s) = Ret (Ok healthy) /\
    (healthy = true <->
     storage_HealthCheck (world s) = Ok true /\
     l1_HealthCheck (world s) = Ok true /\
     registry_HealthCheck (world s) = Ok true).
Proof.
  intros Hrun. unfold HealthCheck. run. rewrite Hrun. cbn.
  destruct (storage_HealthCheck (world s)) as [[ | ] | ];
    destruct (l1_HealthCheck (world s)) as [[ | ] | ];
    destruct (registry_HealthCheck (world s)) as [[ | ] | ]; cbn;
    (split; [reflexivity | eexists; split; [reflexivity | ]]);
    split; try discriminate; try (intros (? & ? & ?); discriminate); auto.
Qed.

(** X2. No method other than [SubmitL1Block], [SubmitBatch], [CreateBatch]
    and [CreateRollup] ever takes the ingestion mutex: [SubmitTx],
    [GenerateSecret], [InitEnclave], [Subscribe], [Unsubscribe] and [Stop]
    make their writes without it. *)
Theorem only_ingestion_entry_points_lock (e : enclaveImpl) (s : St W) (req : Request) :
  ingestionEntryPoint req = false ->
  locks (traceOf (serve e req s)) = false.
Proof.
  intros Hreq.
  destruct req; try discriminate Hreq; unfold_methods; run;
    repeat (branch; cbn); reflexivity.
Qed.

(** X3. The errors the façade builds itself carry the code [Internal], with
    two exceptions: the rejection of an L1 block carries [BlockReject], and
    the error [Subscribe] builds when the subscription does not decrypt is a
    bare [fmt.Errorf] wrap of the cause, with no code.  Two methods that build
    errors also hand one on as it is: [SubmitBatch] the error of the
    converted-header computation, [Subscribe] the error of [AddSubscription]. *)
Theorem facade_errors_are_internal (e : enclaveImpl) (s : St W) (req : Request)
    (resp : Response) (err : error) :
  outcomeOf (serve e req s) = Ret resp ->
  resp_err resp = Some err ->
  match req with
  | ReqSubmitBatch extBatch =>
      codeOf err = Some CodeInternal \/
      CreateEthHeaderForBatch (ext_Header extBatch) (world s) = Err err
  | ReqSubmitL1Block _ _ =>
      codeOf err = Some CodeInternal \/ codeOf err = Some CodeBlockReject
  | ReqSubscribe id params =>
      (stopping s = true /\ codeOf err = Some CodeInternal) \/
      (exists cause,
         DecryptBytes params (world s) = Err cause /\
         err = wrapError "could not decrypt params in eth_subscribe logs request. Cause: %w"
                         cause /\
         codeOf err = None) \/
      (exists encoded,
         DecryptBytes params (world s) = Ok encoded /\
         fst (AddSubscription id encoded (world s)) = Some err)
  | _ => buildsItsErrors req = true -> codeOf err = Some CodeInternal
  end.
Proof.
  destruct req; try (intros _ _ Hb; discriminate Hb);
    unfold_methods; run; repeat (branch; cbn);
    intros Hout Herr; try discriminate Hout;
    injection Hout as <-; cbn in Herr; try discriminate Herr;
    try (injection Herr as <-); auto.
  - right. right. eexists. split; [reflexivity | ].
    match goal with Hadd : AddSubscription _ _ _ = _ |- _ => rewrite Hadd end.
    cbn. assumption.
  - right. left. eexists. repeat split; reflexivity.
Qed.

(** X4. With the debug namespace disabled no façade method reaches the
    debugger. *)
Theorem debugger_unreachable_when_disabled (e : enclaveImpl) (s : St W) (req : Request) :
  config_DebugNamespaceEnabled e = false ->
  ~ callsDebugger (traceOf (serve e req s)).
Proof.
  intros Hoff [Hin | Hin]; revert Hin;
    destruct req; unfold_methods; run; rewrite ?Hoff; cbn; repeat (branch; cbn);
    intros Hin; repeat (destruct Hin as [Hin | Hin]; try discriminate Hin);
    try contradiction.
Qed.

(** X5. [Stop] sets the stop-control flag first.  If the profiler fails to
    stop, [Stop] returns that error straight away: the node service and
    storage are not closed.  Otherwise the error of the node service's
    [Close] is only logged, and [Stop] returns what storage's [Close]
    returns. *)
Theorem Stop_closes_in_order (e : enclaveImpl) (s : St W) :
  (forall err w',
     profiler e = true -> profiler_Stop (world s) = (Some err, w') ->
     Stop e s
     = (Ret (Some err), {| world := w'; stopping := true |},
        [EvStop; EvCall Profiler_Stop; EvLog LvlError "Could not stop profiler"]))
  /\
  (forall w1 cerr w2 serr w3,
     (if profiler e then profiler_Stop (world s) else (None, world s)) = (None, w1) ->
     service_Close (UnsubscribeFromBatches w1) = (cerr, w2) ->
     storage_Close w2 = (serr, w3) ->
     outcomeOf (Stop e s) = Ret serr /\
     stateOf (Stop e s) = {| world := w3; stopping := true |} /\
     writes (traceOf (Stop e s))
     = (if profiler e then [Profiler_Stop] else [])
       ++ [Registry_UnsubscribeFromBatches; Service_Close; Storage_Close]).
Proof.
  split.
  - intros err w' Hprof Hfail. unfold Stop. run. rewrite Hprof. cbn. rewrite Hfail.
    reflexivity.
  - intros w1 cerr w2 serr w3 Hprof Hsvc Hdb. unfold Stop. run.
    destruct (profiler e); cbn.
    + rewrite Hprof. cbn. rewrite Hsvc. destruct cerr; cbn; rewrite Hdb;
        destruct serr; cbn; auto.
    + injection Hprof as <-. rewrite Hsvc. destruct cerr; cbn; rewrite Hdb;
        destruct serr; cbn; auto.
Qed.

End MoreSurfaceFacts.

(** ** More on [SubmitBatch] *)

Section MoreSubmitBatchFacts.

Context {W : Type} `{Collaborators W}.

Lemma SubmitBatch_checked_run (e : enclaveImpl) (s : St W) (extBatch : ExtBatch)
    (batch : Batch) (hdr : EthHeader) :
  stopping s = false ->
  checksPass e (world s) extBatch batch hdr ->
  outcomeOf (SubmitBatch e extBatch s) = Ret (fst (fst (storeAndExecute batch hdr (world s)))) /\
  stateOf (SubmitBatch e extBatch s)
  = {| world := snd (fst (storeAndExecute batch hdr (world s))); stopping := false |} /\
  writes (traceOf (SubmitBatch e extBatch s)) = snd (storeAndExecute batch hdr (world s)) /\
  guarded false (traceOf (SubmitBatch e extBatch s)) = Some false.
Proof.
  intros Hrun (Hval & Hpar & Hconv & Hsig & Hhdr).
  assert (Hmiss : (if seqNoOf extBatch >? L2GenesisSeqNo + 1
                   then negb (isOk (FetchBatchBySeqNo (wrap64 (seqNoOf extBatch - 1)) (world s)))
                   else false) = false).
  { destruct (Z.gtb_spec (seqNoOf extBatch) (L2GenesisSeqNo + 1)) as [Hgt | Hle];
      [ | reflexivity].
    unfold seqNoOf in *. rewrite wrap64_pred by lia.
    destruct (isOk (FetchBatchBySeqNo _ (world s))) eqn:Hok; [reflexivity | ].
    exfalso. apply Hpar. split; [unfold seqNoOf; lia | exact Hok]. }
  unfold SubmitBatch, Validator, storeAndExecute. fold (seqNoOf extBatch). run. rewrite Hrun.
  change (L2GenesisSeqNo + 1) with 2 in Hmiss.
  destruct (seqNoOf extBatch >? 2); cbn in *;
    rewrite ?Hmiss; cbn; rewrite Hconv, Hval; cbn; rewrite Hsig; cbn; rewrite Hhdr; cbn;
    rewrite ?Hval;
    destruct (StoreBatch batch (eth_Hash hdr) (world s)) as [[serr | ] w1]; cbn;
    try (destruct (ExecuteStoredBatches w1) as [[xerr | ] w2]; cbn);
    rewrite ?Hrun; auto.
Qed.

(** X6. A batch whose sequence number is at most [genesisSeq + 1] is never
    checked for its parent: [SubmitBatch] makes no lookup by sequence number
    at all for it. *)
Theorem SubmitBatch_first_batches_skip_parent_lookup (e : enclaveImpl) (s : St W)
    (extBatch : ExtBatch) :
  seqNoOf extBatch <= L2GenesisSeqNo + 1 ->
  forall n, ~ In (EvCall (Storage_FetchBatchBySeqNo n)) (traceOf (SubmitBatch e extBatch s)).
Proof.
  intros Hle n. unfold SubmitBatch, Validator. fold (seqNoOf extBatch). run.
  change (L2GenesisSeqNo + 1) with 2 in Hle.
  replace (seqNoOf extBatch >? 2) with false
    by (symmetry; rewrite Z.gtb_ltb; apply Z.ltb_ge; lia).
  repeat (branch; cbn); intros Hin;
    repeat (destruct Hin as [Hin | Hin]; try discriminate Hin); try contradiction.
Qed.

(** X7. [SubmitBatch] does not roll back.  Once the checks have passed, a
    failing [StoreBatch] ends the call without [ExecuteStoredBatches] being
    called, and a failing [ExecuteStoredBatches] ends it with the batch
    stored: the world is the one the two writes left, the error is an
    [Internal] one, and both writes were made under the mutex. *)
Theorem SubmitBatch_no_rollback (e : enclaveImpl) (s : St W) (extBatch : ExtBatch)
    (batch : Batch) (hdr : EthHeader) :
  stopping s = false ->
  checksPass e (world s) extBatch batch hdr ->
  guarded false (traceOf (SubmitBatch e extBatch s)) = Some false /\
  (forall err w1,
     StoreBatch batch (eth_Hash hdr) (world s) = (Some err, w1) ->
     outcomeOf (SubmitBatch e extBatch s)
     = Ret (Some (InternalError (wrapError "could not store batch. Cause: %w" err))) /\
     world (stateOf (SubmitBatch e extBatch s)) = w1 /\
     writes (traceOf (SubmitBatch e extBatch s)) = [Storage_StoreBatch batch (eth_Hash hdr)])
  /\
  (forall w1 err w2,
     StoreBatch batch (eth_Hash hdr) (world s) = (None, w1) ->
     ExecuteStoredBatches w1 = (Some err, w2) ->
     outcomeOf (SubmitBatch e extBatch s)
     = Ret (Some (InternalError (wrapError "could not execute batches. Cause: %w" err))) /\
     world (stateOf (SubmitBatch e extBatch s)) = w2 /\
     writes (traceOf (SubmitBatch e extBatch s))
     = [Storage_StoreBatch batch (eth_Hash hdr); Validator_ExecuteStoredBatches])
  /\
  (forall w1 w2,
     StoreBatch batch (eth_Hash hdr) (world s) = (None, w1) ->
     ExecuteStoredBatches w1 = (None, w2) ->
     outcomeOf (SubmitBatch e extBatch s) = Ret None /\
     world (stateOf (SubmitBatch e extBatch s)) = w2).
Proof.
  intros Hrun Hchk.
  destruct (SubmitBatch_checked_run e s extBatch batch hdr Hrun Hchk)
    as (Hout & Hst & Hw & Hg).
  rewrite Hout, Hst, Hw. unfold storeAndExecute.
  split; [exact Hg | split; [ | split]].
  - intros err w1 Hstore. rewrite Hstore. cbn. auto.
  - intros w1 err w2 Hstore Hexec. rewrite Hstore, Hexec. cbn. auto.
  - intros w1 w2 Hstore Hexec. rewrite Hstore, Hexec. cbn. auto.
Qed.

End MoreSubmitBatchFacts.

(** ** The ingestion mutex *)

Section MutexFacts.

Context {W : Type} `{Collaborators W}.

(** The steps of [SubmitBatch] once the checks have passed. *)
Lemma SubmitBatch_checked_trace (e : enclaveImpl) (s : St W) (extBatch : ExtBatch)
    (batch : Batch) (hdr : EthHeader) :
  stopping s = false ->
  checksPass e (world s) extBatch batch hdr ->
  traceOf (SubmitBatch e extBatch s)
  = passedChecks extBatch ++
    EvLock :: map EvCall (snd (storeAndExecute batch hdr (world s))) ++ [EvUnlock].
Proof.
  intros Hrun (Hval & Hpar & Hconv & Hsig & Hhdr).
  assert (Hmiss : (if seqNoOf extBatch >? L2GenesisSeqNo + 1
                   then negb (isOk (FetchBatchBySeqNo (wrap64 (seqNoOf extBatch - 1)) (world s)))
                   else false) = false).
  { destruct (Z.gtb_spec (seqNoOf extBatch) (L2GenesisSeqNo + 1)) as [Hgt | Hle];
      [ | reflexivity].
    unfold seqNoOf in *. rewrite wrap64_pred by lia.
    destruct (isOk (FetchBatchBySeqNo _ (world s))) eqn:Hok; [reflexivity | ].
    exfalso. apply Hpar. split; [unfold seqNoOf; lia | exact Hok]. }
  unfold SubmitBatch, Validator, storeAndExecute, passedChecks.
  fold (seqNoOf extBatch). run. rewrite Hrun.
  change (L2GenesisSeqNo + 1) with 2 in Hmiss.
  destruct (seqNoOf extBatch >? 2); cbn in *;
    rewrite ?Hmiss; cbn; rewrite Hconv, Hval; cbn; rewrite Hsig; cbn; rewrite Hhdr; cbn;
    rewrite ?Hval;
    destruct (StoreBatch batch (eth_Hash hdr) (world s)) as [[serr | ] w1]; cbn;
    try (destruct (ExecuteStoredBatches w1) as [[xerr | ] w2]; cbn);
    reflexivity.
Qed.

(** [SubmitBatch] does not take the mutex when one of its checks fails. *)
Lemma SubmitBatch_failed_checks_lock_free (e : enclaveImpl) (s : St W) (extBatch : ExtBatch) :
  PreStorageCheckFails e (world s) extBatch ->
  locks (traceOf (SubmitBatch e extBatch s)) = false.
Proof.
  intros Hfail. destruct (stopping s) eqn:Hstop.
  { rewrite (SubmitBatch_stopping_run e s extBatch Hstop). reflexivity. }
  destruct Hfail as [Hm | err Hc | batch err Hc Hv Hsig | batch err Hc Hv Hhdr].
  - rewrite (SubmitBatch_parent_missing_run e s extBatch Hstop Hm). reflexivity.
  - unfold SubmitBatch, Validator. run. rewrite Hstop, Hc. cbn.
    repeat (branch; cbn); reflexivity.
  - unfold SubmitBatch, Validator. run. rewrite Hstop, Hc, Hv. cbn.
    repeat (branch; cbn); first [reflexivity | congruence].
  - unfold SubmitBatch, Validator. run. rewrite Hstop, Hc, Hv. cbn.
    repeat (branch; cbn); first [reflexivity | congruence].
Qed.

(** C3, as the code has it. On an enclave that is not stopping,
    [SubmitL1Block], [CreateBatch] and [CreateRollup] take the mutex as their
    first step and give it back as their last.  [SubmitBatch] takes it later:
    the log line, the parent lookup, the signature check and the converted
    header come first, none of them a write, and the mutex is held from there
    to the end of the call, for [StoreBatch] and [ExecuteStoredBatches]; when
    a check fails [SubmitBatch] never takes it.  In all four every write is
    made while the mutex is held, and a stopping enclave returns before it
    takes the mutex.  The encrypted read-only RPCs never take it. *)
Theorem ingestion_mutex_discipline (e : enclaveImpl) (s : St W) :
  (forall req, ingestionEntryPoint req = true ->
     guarded false (traceOf (serve e req s)) = Some false /\
     (stopping s = true -> traceOf (serve e req s) = []))
  /\
  (stopping s = false ->
     (forall block receipts,
        heldThroughout (traceOf (SubmitL1Block block receipts s)) = true) /\
     (forall skip, heldThroughout (traceOf (CreateBatch e skip s)) = true) /\
     (forall fromSeqNo, heldThroughout (traceOf (CreateRollup e fromSeqNo s)) = true) /\
     (forall extBatch batch hdr,
        checksPass e (world s) extBatch batch hdr ->
        traceOf (SubmitBatch e extBatch s)
        = passedChecks extBatch ++
          EvLock :: map EvCall (snd (storeAndExecute batch hdr (world s))) ++ [EvUnlock] /\
        writes (passedChecks extBatch) = [] /\
        locks (passedChecks extBatch) = false /\
        hd_error (snd (storeAndExecute batch hdr (world s)))
        = Some (Storage_StoreBatch batch (eth_Hash hdr))) /\
     (forall extBatch,
        PreStorageCheckFails e (world s) extBatch ->
        locks (traceOf (SubmitBatch e extBatch s)) = false))
  /\
  (forall req, encryptedReadRpc req = true -> locks (traceOf (serve e req s)) = false).
Proof.
  split; [ | split].
  - intros req Hreq. split.
    + destruct req; try discriminate Hreq; unfold_methods; run;
        repeat (branch; cbn); reflexivity.
    + intros Hstop.
      destruct req; try discriminate Hreq; unfold_methods; run; rewrite Hstop; reflexivity.
  - intros Hrun. split; [ | split; [ | split; [ | split]]].
    + intros block receipts. unfold_methods. run. rewrite Hrun. cbn.
      repeat (branch; cbn); reflexivity.
    + intros skip. unfold_methods. run. rewrite Hrun. cbn.
      repeat (branch; cbn); reflexivity.
    + intros fromSeqNo. unfold_methods. run. rewrite Hrun. cbn.
      repeat (branch; cbn); reflexivity.
    + intros extBatch batch hdr Hchk.
      split; [exact (SubmitBatch_checked_trace e s extBatch batch hdr Hrun Hchk) | ].
      unfold passedChecks, storeAndExecute.
      destruct (seqNoOf extBatch >? L2GenesisSeqNo + 1);
        destruct (StoreBatch batch (eth_Hash hdr) (world s)) as [[serr | ] w1];
        try destruct (ExecuteStoredBatches w1) as [[xerr | ] w2];
        repeat split; reflexivity.
    + intros extBatch. apply SubmitBatch_failed_checks_lock_free.
  - intros req Hreq.
    destruct req; try discriminate Hreq; unfold_methods; run;
      repeat (branch; cbn); reflexivity.
Qed.

End MutexFacts.

Section ReadBack.

Context {W : Type} `{Collaborators W}.

(** What the codec and the storage adapter promise: a converted batch
    converts back to the external batch it came from and keeps its header; a
    batch stored under a sequence number that was free is the one looked up
    afterwards; executing the stored batches does not change the lookups. *)
Hypothesis toExt_toBatch : forall extBatch batch,
  ToBatch extBatch = Ok batch ->
  ToExtBatch batch = Ok extBatch /\ Header batch = ext_Header extBatch.

Hypothesis fetch_stored_batch : forall batch h w w',
  isOk (FetchBatchBySeqNo (Uint64 (SequencerOrderNo (Header batch))) w) = false ->
  StoreBatch batch h w = (None, w') ->
  FetchBatchBySeqNo (Uint64 (SequencerOrderNo (Header batch))) w' = Ok batch.

Hypothesis execute_keeps_batches : forall w r w' n,
  ExecuteStoredBatches w = (r, w') -> FetchBatchBySeqNo n w' = FetchBatchBySeqNo n w.

(** X8. A batch that [SubmitBatch] accepts under a sequence number that was
    free is handed back unchanged by [GetBatchBySeqNo] at that number. *)
Theorem GetBatchBySeqNo_after_SubmitBatch (e : enclaveImpl) (s : St W)
    (extBatch : ExtBatch) :
  isOk (FetchBatchBySeqNo (seqNoOf extBatch) (world s)) = false ->
  outcomeOf (SubmitBatch e extBatch s) = Ret None ->
  outcomeOf (GetBatchBySeqNo (seqNoOf extBatch) (stateOf (SubmitBatch e extBatch s)))
  = Ret (Ok extBatch).
Proof.
  intros Hfree. unfold SubmitBatch, Validator, GetBatchBySeqNo. fold (seqNoOf extBatch). run.
  destruct (stopping s); [discriminate | ]. cbn.
  destruct (if seqNoOf extBatch >? 2 then _ else _) as [[[m | pm | ] s0] t0] eqn:Hpar.
  - assert (Hs0 : s0 = s).
    { destruct (seqNoOf extBatch >? 2); injection Hpar as _ <- _; reflexivity. }
    subst s0. cbn.
    destruct m; [discriminate | ].
    destruct (ToBatch extBatch) as [batch | cerr] eqn:Hconv; [ | discriminate].
    destruct (service e); [discriminate | ]. cbn.
    destruct (VerifySequencerSignature batch (world s)); [discriminate | ]. cbn.
    destruct (CreateEthHeaderForBatch (ext_Header extBatch) (world s)) as [hdr | herr];
      [ | discriminate]. cbn.
    destruct (StoreBatch batch (eth_Hash hdr) (world s)) as [[serr | ] w1] eqn:Hstore;
      [discriminate | ]. cbn.
    destruct (ExecuteStoredBatches w1) as [[xerr | ] w2] eqn:Hexec; [discriminate | ]. cbn.
    intros _.
    destruct (toExt_toBatch _ _ Hconv) as [Hback Hhdr].
    rewrite (execute_keeps_batches _ _ _ (seqNoOf extBatch) Hexec).
    unfold seqNoOf in *. rewrite <- Hhdr in *.
    rewrite (fetch_stored_batch _ _ _ _ Hfree Hstore). cbn. rewrite Hback. reflexivity.
  - exfalso. destruct (seqNoOf extBatch >? 2); discriminate Hpar.
  - exfalso. destruct (seqNoOf extBatch >? 2); discriminate Hpar.
Qed.

End ReadBack.

(** ** More on [SubmitL1Block] *)

(** Decides whether a log line or a call is in a concrete trace. *)
Ltac in_trace_iff :=
  split;
  [ let Hin := fresh "Hin" in
    intros Hin;
    first [ solve [auto]
          | repeat (destruct Hin as [Hin | Hin]; try discriminate Hin); contradiction ]
  | let Hr := fresh "Hr" in
    intros Hr;
    first [ solve [cbn; repeat (first [left; reflexivity | right])]
          | destruct Hr; congruence ] ].

Section MoreSubmitL1BlockFacts.

Context {W : Type} `{Collaborators W}.

(** X9. An error of the rollup consumer never rejects the block.  When the
    block processor ingests the block without a fork and the node service
    accepts it, [SubmitL1Block] succeeds with the responses of the
    shared-secret processor whatever [ProcessRollupsInBlock] returned; the
    four writes are made in this order under the mutex, and the rollup error
    is logged at error level unless it is a duplicate rollup. *)
Theorem SubmitL1Block_tolerates_rollup_errors (block : L1Block) (receipts : Receipts)
    (s : St W) br ingestion w1 rerr w2 w3 responses w4 :
  stopping s = false ->
  ParseBlockAndReceipts block receipts = Ok br ->
  Process br (world s) = (Ok ingestion, w1) ->
  IsFork ingestion = false ->
  ProcessRollupsInBlock br w1 = (rerr, w2) ->
  OnL1Block block ingestion w2 = (None, w3) ->
  ProcessNetworkSecretMsgs br w3 = (responses, w4) ->
  outcomeOf (SubmitL1Block block receipts s)
  = Ret (Ok {| ProducedSecretResponses := responses |}) /\
  stateOf (SubmitL1Block block receipts s) = {| world := w4; stopping := false |} /\
  writes (traceOf (SubmitL1Block block receipts s))
  = [L1_Process; Rollup_ProcessRollupsInBlock; Service_OnL1Block;
     SharedSecret_ProcessNetworkSecretMsgs] /\
  guarded false (traceOf (SubmitL1Block block receipts s)) = Some false /\
  (In (EvLog LvlError "Encountered error while processing l1 block")
      (traceOf (SubmitL1Block block receipts s))
   <-> exists err, rerr = Some err /\ errors_Is err ErrDuplicateRollup = false).
Proof.
  intros Hrun Hparse Hproc Hfork Hroll Hsvc Hsec.
  unfold SubmitL1Block, ingestL1Block. run. rewrite Hrun. cbn. rewrite Hparse. cbn.
  rewrite Hproc. cbn. rewrite Hroll. cbn.
  destruct rerr as [err | ]; [destruct (errors_Is err ErrDuplicateRollup) eqn:Hdup | ];
    cbn; rewrite Hfork; cbn; rewrite ?Hfork; cbn; rewrite Hsvc; cbn; rewrite Hsec; cbn;
    rewrite ?Hrun;
    (do 4 (split; [reflexivity | ])); split.
  - intros Hin. repeat (destruct Hin as [Hin | Hin]; try discriminate Hin). contradiction.
  - intros (err' & Heq & Hnd). injection Heq as <-. congruence.
  - intros _. exists err. auto.
  - intros _. cbn. repeat (first [left; reflexivity | right]).
  - intros Hin. repeat (destruct Hin as [Hin | Hin]; try discriminate Hin). contradiction.
  - intros (err' & Heq & _). discriminate Heq.
Qed.

(** X10. Whatever error the block processor returns, [SubmitL1Block] rejects
    the block with a [BlockRejectError] wrapping it, after that one write:
    the rollup consumer, the node service and the shared-secret processor
    are not called.  The failure is logged at warn level, unless the error
    is [AncestorNotFound] or [AlreadyProcessed], which are logged at debug
    level. *)
Theorem SubmitL1Block_process_failure (block : L1Block) (receipts : Receipts)
    (s : St W) br err w' :
  stopping s = false ->
  ParseBlockAndReceipts block receipts = Ok br ->
  Process br (world s) = (Err err, w') ->
  outcomeOf (SubmitL1Block block receipts s) = Ret (Err (rejection w' err)) /\
  stateOf (SubmitL1Block block receipts s) = {| world := w'; stopping := false |} /\
  writes (traceOf (SubmitL1Block block receipts s)) = [L1_Process] /\
  (In (EvLog LvlWarn "Failed ingesting block") (traceOf (SubmitL1Block block receipts s))
   <-> errors_Is err ErrBlockAncestorNotFound = false /\
       errors_Is err ErrBlockAlreadyProcessed = false) /\
  (In (EvLog LvlDebug "Did not ingest block") (traceOf (SubmitL1Block block receipts s))
   <-> errors_Is err ErrBlockAncestorNotFound = true \/
       errors_Is err ErrBlockAlreadyProcessed = true).
Proof.
  intros Hrun Hparse Hproc.
  unfold SubmitL1Block, ingestL1Block, rejectBlockErr, rejection, reportedL1Head.
  run. rewrite Hrun. cbn. rewrite Hparse. cbn. rewrite Hproc. cbn.
  destruct (errors_Is err ErrBlockAncestorNotFound);
    destruct (errors_Is err ErrBlockAlreadyProcessed); cbn; rewrite ?Hrun;
    (do 3 (split; [reflexivity | ])); split; in_trace_iff.
Qed.

End MoreSubmitL1BlockFacts.

(** ** More on the recovery of the stateDB cache *)

Section MoreRecoveryFacts.

Context {W : Type} `{Collaborators W}.

(** The backward walk never panics, changes nothing, and what it returns
    extends the list it was given; from a batch without a snapshot, that
    batch comes first. *)
Lemma collectBatchesToReplay_shape (fuel : nat) :
  forall (b : Batch) (acc : list Batch) (s : St W),
  exists o t,
    collectBatchesToReplay fuel b acc s = (o, s, t) /\
    writes t = [] /\
    match o with
    | Ret (Ok l) =>
        exists l', l = acc ++ l' /\
                   (snapshotCached (world s) b = false -> hd_error l' = Some b)
    | Ret (Err _) => True
    | Timeout => True
    | Panic _ => False
    end.
Proof.
  induction fuel as [ | fuel IH]; intros b acc s.
  - cbn. do 2 eexists. split; [reflexivity | split; [reflexivity | exact I]].
  - cbn [collectBatchesToReplay]. unfold stateDBAvailableForBatch, snapshotCached. run.
    destruct (isOk (CreateStateDB (batch_Hash b) (world s))) eqn:Hc; cbn.
    + do 2 eexists. split; [reflexivity | split; [reflexivity | ]].
      exists []. rewrite app_nil_r. split; [reflexivity | discriminate].
    + destruct (NumberU64 b =? 0); cbn.
      * do 2 eexists. split; [reflexivity | split; [reflexivity | ]].
        exists [b]. split; reflexivity.
      * destruct (FetchBatch (ParentHash (Header b)) (world s)) as [p | err]; cbn.
        -- destruct (IH p (acc ++ [b]) s) as (o & t & Hrun & Hw & Hshape).
           rewrite Hrun. do 2 eexists. split; [reflexivity | split; [exact Hw | ]].
           destruct o as [[l | err] | msg | ]; try exact Hshape.
           destruct Hshape as (l' & -> & _). exists (b :: l').
           rewrite <- app_assoc. split; reflexivity.
        -- do 2 eexists. split; [reflexivity | split; [reflexivity | exact I]].
Qed.

(** [restoreStateDBCache] on a head batch without a snapshot, in terms of
    what the backward walk returns. *)
Lemma restoreStateDBCache_via_walk (fuel : nat) (s : St W) headSeq batch o t :
  HeadBatchSeq (world s) = Some headSeq ->
  FetchBatchBySeqNo (Uint64 headSeq) (world s) = Ok batch ->
  snapshotCached (world s) batch = false ->
  collectBatchesToReplay fuel batch [] s = (o, s, t) ->
  writes t = [] ->
  match o with
  | Ret (Ok []) =>
      outcomeOf (restoreStateDBCache fuel s) = Panic "runtime error: index out of range [-1]"
  | Ret (Ok l) =>
      outcomeOf (restoreStateDBCache fuel s)
      = Ret (option_map (wrapError "unable to replay batches to restore valid state - %w")
                        (fst (fst (replayForward (rev l) (world s))))) /\
      stateOf (restoreStateDBCache fuel s)
      = {| world := snd (fst (replayForward (rev l) (world s))); stopping := stopping s |} /\
      writes (traceOf (restoreStateDBCache fuel s)) = snd (replayForward (rev l) (world s))
  | Ret (Err err) =>
      outcomeOf (restoreStateDBCache fuel s)
      = Ret (Some (wrapError "unable to replay batches to restore valid state - %w" err)) /\
      stateOf (restoreStateDBCache fuel s) = s /\
      writes (traceOf (restoreStateDBCache fuel s)) = []
  | Panic msg => outcomeOf (restoreStateDBCache fuel s) = Panic msg
  | Timeout => outcomeOf (restoreStateDBCache fuel s) = Timeout
  end.
Proof.
  intros Hhead Hfetch Hc Hrun Hw.
  unfold restoreStateDBCache, replayBatchesToValidState, stateDBAvailableForBatch.
  unfold snapshotCached in Hc.
  autounfold with facade; cbn -[collectBatchesToReplay replayLoop].
  rewrite Hhead. cbn -[collectBatchesToReplay replayLoop].
  rewrite Hhead. cbn -[collectBatchesToReplay replayLoop].
  rewrite Hfetch. cbn -[collectBatchesToReplay replayLoop].
  rewrite Hc. cbn -[collectBatchesToReplay replayLoop].
  rewrite Hhead. cbn -[collectBatchesToReplay replayLoop].
  rewrite Hfetch. cbn -[collectBatchesToReplay replayLoop].
  rewrite Hrun. cbn -[collectBatchesToReplay replayLoop].
  destruct o as [[[ | b0 l0] | err] | msg | ]; cbn -[collectBatchesToReplay replayLoop rev];
    try reflexivity.
  - pose proof (replayLoop_run (b0 :: l0) (List.length (b0 :: l0)) (le_n _) s) as Hloop.
    rewrite firstn_all in Hloop. cbn [List.length] in Hloop. rewrite Hloop.
    pose proof (replayForward_calls_mutating (rev (b0 :: l0)) (world s)) as Hmut.
    destruct (replayForward (rev (b0 :: l0)) (world s)) as [[r w'] calls].
    cbn -[rev] in *.
    destruct r; cbn -[rev]; rewrite !writes_app, Hw; cbn;
      rewrite writes_calls, app_nil_r by assumption; auto.
  - rewrite !writes_app, Hw. destruct s; auto.
Qed.

(** X11. As long as the registry and storage answer a repeated read as they
    answered the first (nothing else touches them during the start-up),
    [restoreStateDBCache] never panics, whatever those answers are: its nil
    check and its cache check are the ones [replayBatchesToValidState] relies
    on.  The head is dereferenced only after the nil check, the log line that
    indexes the list of batches to replay is only reached with a non-empty
    list, and the replay loop stays within the list. *)
Theorem restoreStateDBCache_never_panics (fuel : nat) (s : St W) (msg : string) :
  outcomeOf (restoreStateDBCache fuel s) <> Panic msg.
Proof.
  destruct (HeadBatchSeq (world s)) as [headSeq | ] eqn:Hhead.
  - destruct (FetchBatchBySeqNo (Uint64 headSeq) (world s)) as [batch | err] eqn:Hfetch.
    + destruct (snapshotCached (world s) batch) eqn:Hc.
      * unfold restoreStateDBCache, stateDBAvailableForBatch. unfold snapshotCached in Hc.
        run. rewrite Hhead. cbn. rewrite Hhead. cbn. rewrite Hfetch. cbn. rewrite Hc.
        discriminate.
      * destruct (collectBatchesToReplay_shape fuel batch [] s) as (o & t & Hrun & Hw & Hshape).
        pose proof (restoreStateDBCache_via_walk fuel s headSeq batch o t
                      Hhead Hfetch Hc Hrun Hw) as Hres.
        destruct o as [[[ | b0 l0] | err] | pm | ].
        -- destruct Hshape as (l' & Heq & Hhd). cbn in Heq. subst l'.
           specialize (Hhd Hc). discriminate Hhd.
        -- destruct Hres as [-> _]. discriminate.
        -- destruct Hres as [-> _]. discriminate.
        -- contradiction.
        -- rewrite Hres. discriminate.
    + unfold restoreStateDBCache. run. rewrite Hhead. cbn. rewrite Hhead. cbn.
      rewrite Hfetch. cbn. destruct (errors_Is err ErrNotFound); discriminate.
  - unfold restoreStateDBCache. run. rewrite Hhead. discriminate.
Qed.

(** X12. [replayBatchesToValidState] relies on its caller's checks: called
    when the registry has no head it panics on the nil head, and called on a
    head batch that has a cached snapshot it collects nothing and panics at
    the log line that indexes the empty list. *)
Theorem replayBatchesToValidState_needs_uncached_head (fuel : nat) (s : St W) :
  (HeadBatchSeq (world s) = None ->
     outcomeOf (replayBatchesToValidState fuel s)
     = Panic "runtime error: invalid memory address or nil pointer dereference")
  /\
  (forall headSeq batch,
     HeadBatchSeq (world s) = Some headSeq ->
     FetchBatchBySeqNo (Uint64 headSeq) (world s) = Ok batch ->
     snapshotCached (world s) batch = true ->
     fuel <> 0%nat ->
     outcomeOf (replayBatchesToValidState fuel s)
     = Panic "runtime error: index out of range [-1]" /\
     stateOf (replayBatchesToValidState fuel s) = s).
Proof.
  split.
  - intros Hhead. unfold replayBatchesToValidState. run. rewrite Hhead. reflexivity.
  - intros headSeq batch Hhead Hfetch Hc Hfuel.
    destruct fuel as [ | fuel]; [contradiction | ].
    unfold replayBatchesToValidState, stateDBAvailableForBatch. unfold snapshotCached in Hc.
    run. rewrite Hhead. cbn. rewrite Hfetch. cbn. rewrite Hc. cbn. auto.
Qed.

Lemma collectBatchesToReplay_broken (s : St W) (b : Batch) (n : nat) (err : error) :
  Broken (world s) b n err ->
  forall fuel acc, (n <= fuel)%nat ->
  exists t,
    collectBatchesToReplay fuel b acc s
    = (Ret (Err (wrapError
         "unable to fetch previous batch while rolling back to stable state - %w" err)),
       s, t) /\
    writes t = [].
Proof.
  induction 1 as [b err Hc Hg Hf | b p n err Hc Hg Hp Hbr IH]; intros fuel acc Hfuel;
    (destruct fuel as [ | fuel]; [lia | ]);
    cbn [collectBatchesToReplay]; unfold stateDBAvailableForBatch;
    unfold snapshotCached in Hc; run; rewrite Hc; cbn;
    apply Z.eqb_neq in Hg; rewrite Hg; cbn.
  - rewrite Hf. cbn. eauto.
  - unfold parentOf in Hp. rewrite Hp.
    destruct (IH fuel (acc ++ [b])) as [t [Hrun Hw]]; [lia | ].
    rewrite Hrun. cbn. eauto.
Qed.

(** X13. [restoreStateDBCache] replays nothing unless the whole backward
    walk succeeds.  A head batch that storage does not have ([ErrNotFound])
    is a new node: nothing is done and no error returned.  Any other error of
    the head lookup, and a parent that cannot be fetched anywhere along the
    walk, is returned wrapped, with the world unchanged and no write made. *)
Theorem restoreStateDBCache_fails_before_replay (fuel : nat) (s : St W) (headSeq : Z) :
  HeadBatchSeq (world s) = Some headSeq ->
  (forall err,
     FetchBatchBySeqNo (Uint64 headSeq) (world s) = Err err ->
     outcomeOf (restoreStateDBCache fuel s)
     = Ret (if errors_Is err ErrNotFound then None
            else Some (wrapError "unexpected error fetching head batch to resync- %w" err)) /\
     stateOf (restoreStateDBCache fuel s) = s /\
     writes (traceOf (restoreStateDBCache fuel s)) = [])
  /\
  (forall batch n err,
     FetchBatchBySeqNo (Uint64 headSeq) (world s) = Ok batch ->
     Broken (world s) batch n err ->
     (n <= fuel)%nat ->
     outcomeOf (restoreStateDBCache fuel s)
     = Ret (Some (wrapError "unable to replay batches to restore valid state - %w"
                    (wrapError
                       "unable to fetch previous batch while rolling back to stable state - %w"
                       err))) /\
     stateOf (restoreStateDBCache fuel s) = s /\
     writes (traceOf (restoreStateDBCache fuel s)) = []).
Proof.
  intros Hhead. split.
  - intros err Hfetch. unfold restoreStateDBCache. run. rewrite Hhead. cbn.
    rewrite Hhead. cbn. rewrite Hfetch. cbn.
    destruct (errors_Is err ErrNotFound); cbn; destruct s; auto.
  - intros batch n err Hfetch Hbr Hfuel.
    assert (Hc : snapshotCached (world s) batch = false) by (destruct Hbr; assumption).
    destruct (collectBatchesToReplay_broken s batch n err Hbr fuel [] Hfuel) as (t & Hrun & Hw).
    exact (restoreStateDBCache_via_walk fuel s headSeq batch _ t Hhead Hfetch Hc Hrun Hw).
Qed.

End MoreRecoveryFacts.

Section RecoveryTwice.

Context {W : Type} `{Collaborators W}.

(** What the batch executor and the genesis collaborator promise: a batch
    that executes has its snapshot in the cache afterwards, and replaying a
    batch changes neither the registry's head nor the lookups by sequence
    number. *)
Hypothesis execute_commits : forall b w w',
  ExecuteBatch b w = (None, w') -> snapshotCached w' b = true.

Hypothesis replay_keeps_chain : forall b w r w',
  replayStep b w = (r, w') ->
  HeadBatchSeq w' = HeadBatchSeq w /\
  forall n, FetchBatchBySeqNo n w' = FetchBatchBySeqNo n w.

Lemma replayForward_keeps_chain (bs : list Batch) :
  forall w,
  HeadBatchSeq (snd (fst (replayForward bs w))) = HeadBatchSeq w /\
  forall n, FetchBatchBySeqNo n (snd (fst (replayForward bs w))) = FetchBatchBySeqNo n w.
Proof.
  induction bs as [ | b bs IH]; intros w; cbn; [auto | ].
  destruct (replayStep b w) as [[err | ] w'] eqn:Hstep;
    destruct (replay_keeps_chain _ _ _ _ Hstep) as [Hh Hf]; cbn; [auto | ].
  specialize (IH w'). destruct (replayForward bs w') as [[r w''] calls]. cbn in *.
  destruct IH as [IHh IHf]. split; [congruence | ]. intros n. rewrite IHf. apply Hf.
Qed.

Lemma replayForward_last_commits (bs : list Batch) (b : Batch) :
  NumberU64 b <> 0 ->
  forall w,
  fst (fst (replayForward (bs ++ [b]) w)) = None ->
  snapshotCached (snd (fst (replayForward (bs ++ [b]) w))) b = true.
Proof.
  intros Hb. induction bs as [ | x bs IH]; intros w; cbn.
  - unfold replayStep. apply Z.eqb_neq in Hb. rewrite Hb.
    destruct (ExecuteBatch b w) as [[err | ] w'] eqn:Hexec; cbn; [discriminate | ].
    intros _. eapply execute_commits; eassumption.
  - destruct (replayStep x w) as [[err | ] w']; cbn; [discriminate | ].
    specialize (IH w'). destruct (replayForward (bs ++ [b]) w') as [[r w''] calls].
    cbn in *. exact IH.
Qed.

(** X14. Recovery is idempotent above genesis: when the head batch is not
    the genesis batch and [restoreStateDBCache] has returned without an
    error, running it again on the resulting state does nothing. *)
Theorem restoreStateDBCache_twice (fuel fuel' : nat) (s : St W) headSeq batch :
  HeadBatchSeq (world s) = Some headSeq ->
  FetchBatchBySeqNo (Uint64 headSeq) (world s) = Ok batch ->
  NumberU64 batch <> 0 ->
  outcomeOf (restoreStateDBCache fuel s) = Ret None ->
  outcomeOf (restoreStateDBCache fuel' (stateOf (restoreStateDBCache fuel s))) = Ret None /\
  stateOf (restoreStateDBCache fuel' (stateOf (restoreStateDBCache fuel s)))
  = stateOf (restoreStateDBCache fuel s) /\
  writes (traceOf (restoreStateDBCache fuel' (stateOf (restoreStateDBCache fuel s)))) = [].
Proof.
  intros Hhead Hfetch Hgen Hok.
  assert (Hcached : forall (f : nat) (s1 : St W),
            HeadBatchSeq (world s1) = Some headSeq ->
            FetchBatchBySeqNo (Uint64 headSeq) (world s1) = Ok batch ->
            snapshotCached (world s1) batch = true ->
            outcomeOf (restoreStateDBCache f s1) = Ret None /\
            stateOf (restoreStateDBCache f s1) = s1 /\
            writes (traceOf (restoreStateDBCache f s1)) = []).
  { intros f s1 Hh Hf Hc. unfold restoreStateDBCache, stateDBAvailableForBatch.
    unfold snapshotCached in Hc. run. rewrite Hh. cbn. rewrite Hh. cbn.
    rewrite Hf. cbn. rewrite Hc. cbn. auto. }
  destruct (snapshotCached (world s) batch) eqn:Hc.
  - destruct (Hcached fuel s Hhead Hfetch Hc) as (_ & Hst & _). rewrite Hst.
    apply Hcached; assumption.
  - destruct (collectBatchesToReplay_shape fuel batch [] s) as (o & t & Hrun & Hw & Hshape).
    pose proof (restoreStateDBCache_via_walk fuel s headSeq batch o t
                  Hhead Hfetch Hc Hrun Hw) as Hres.
    destruct o as [[[ | b0 l0] | err] | pm | ].
    + rewrite Hres in Hok. discriminate Hok.
    + destruct Hshape as (l' & Heq & Hhd). cbn in Heq. subst l'.
      specialize (Hhd Hc). cbn in Hhd. injection Hhd as ->.
      destruct Hres as (Hout & Hst & _). rewrite Hout in Hok.
      assert (Hnone : fst (fst (replayForward (rev (batch :: l0)) (world s))) = None).
      { destruct (fst (fst (replayForward (rev (batch :: l0)) (world s))));
          [discriminate Hok | reflexivity]. }
      rewrite Hst. cbn [rev] in *.
      destruct (replayForward_keeps_chain (rev l0 ++ [batch]) (world s)) as [Hh Hf].
      apply Hcached; cbn.
      * rewrite Hh. exact Hhead.
      * rewrite Hf. exact Hfetch.
      * apply replayForward_last_commits; assumption.
    + destruct Hres as (Hout & _). rewrite Hout in Hok. discriminate Hok.
    + rewrite Hres in Hok. discriminate Hok.
    + rewrite Hres in Hok. discriminate Hok.
Qed.

End RecoveryTwice.

(** ** The secret and [Status] *)

Section SecretAndStatus.

Context {W : Type} `{Collaborators W}.

(** What the storage adapter and the crypto helpers promise (as for the
    exchange of the secret). *)
Hypothesis fetch_stored : forall secret w w',
  StoreSecret secret w = (None, w') -> FetchSecret w' = Ok secret.

Hypothesis encrypt_keeps_secret : forall pub secret w r w',
  EncryptSecret pub secret w = (r, w') -> FetchSecret w' = FetchSecret w.

Lemma Status_with_secret (s : St W) (secret : Secret) :
  stopping s = false ->
  FetchSecret (world s) = Ok secret ->
  exists st, outcomeOf (Status s) = Ret (st, None) /\ StatusCode_ st = Running.
Proof.
  intros Hrun Hsec. unfold Status. run. rewrite Hrun, Hsec.
  destruct (GetHead (world s)); destruct (FetchCurrentSequencerNo (world s)); cbn;
    eexists; split; reflexivity.
Qed.

Lemma GenerateSecret_ok_state (e : enclaveImpl) (s : St W) env :
  outcomeOf (GenerateSecret e s) = Ret (Ok env) ->
  exists w' secret,
    stateOf (GenerateSecret e s) = {| world := w'; stopping := false |} /\
    FetchSecret w' = Ok secret.
Proof.
  unfold GenerateSecret. run.
  destruct (stopping s) eqn:Hrun; [discriminate | ]. cbn.
  destruct (GenerateEntropy (world s)) as [secret w1]. cbn.
  destruct (StoreSecret secret w1) as [[serr | ] w2] eqn:Hstore; [discriminate | ]. cbn.
  destruct (EncryptSecret (PublicKeyBytes (enclaveKey e)) secret w2)
    as [[enc | eerr] w3] eqn:Henc; [ | discriminate]. cbn. intros _.
  exists w3, secret. rewrite ?Hrun. split; [reflexivity | ].
  rewrite (encrypt_keeps_secret _ _ _ _ _ Henc). eapply fetch_stored; eassumption.
Qed.

Lemma InitEnclave_ok_state (e : enclaveImpl) (s : St W) env :
  outcomeOf (InitEnclave e env s) = Ret None ->
  exists w' secret,
    stateOf (InitEnclave e env s) = {| world := w'; stopping := false |} /\
    FetchSecret w' = Ok secret.
Proof.
  unfold InitEnclave. run.
  destruct (stopping s) eqn:Hrun; [discriminate | ]. cbn.
  destruct (DecryptSecret env (PrivateKey (enclaveKey e))) as [secret | derr];
    [ | discriminate]. cbn.
  destruct (StoreSecret secret (world s)) as [[serr | ] w1] eqn:Hstore; [discriminate | ].
  cbn. intros _. exists w1, secret. rewrite ?Hrun. split; [reflexivity | ].
  eapply fetch_stored; eassumption.
Qed.

(** X15. [Status] follows the secret.  After a [GenerateSecret] that returns
    an envelope, and after an [InitEnclave] that returns no error, [Status]
    reports [Running].  An [InitEnclave] whose envelope does not decrypt
    returns an [Internal] error and changes nothing, so an enclave that was
    awaiting the secret still is. *)
Theorem Status_follows_secret (e : enclaveImpl) (s : St W) :
  (forall env,
     outcomeOf (GenerateSecret e s) = Ret (Ok env) ->
     exists st, outcomeOf (Status (stateOf (GenerateSecret e s))) = Ret (st, None) /\
                StatusCode_ st = Running)
  /\
  (forall env,
     outcomeOf (InitEnclave e env s) = Ret None ->
     exists st, outcomeOf (Status (stateOf (InitEnclave e env s))) = Ret (st, None) /\
                StatusCode_ st = Running)
  /\
  (forall env err,
     stopping s = false ->
     DecryptSecret env (PrivateKey (enclaveKey e)) = Err err ->
     InitEnclave e env s = (Ret (Some (InternalError err)), s, [])).
Proof.
  split; [ | split].
  - intros env Hok. destruct (GenerateSecret_ok_state e s env Hok) as (w' & secret & -> & Hsec).
    apply (Status_with_secret _ secret); [reflexivity | exact Hsec].
  - intros env Hok. destruct (InitEnclave_ok_state e s env Hok) as (w' & secret & -> & Hsec).
    apply (Status_with_secret _ secret); [reflexivity | exact Hsec].
  - intros env err Hrun Hdec. unfold InitEnclave. run. rewrite Hrun, Hdec. reflexivity.
Qed.

(** X16. [GenerateSecret] stores the secret before it encrypts it: when the
    encryption fails the call returns an [Internal] error and no envelope,
    but the generated secret stays stored, and [Status] reports [Running]. *)
Theorem GenerateSecret_stores_before_encrypting (e : enclaveImpl) (s : St W)
    secret w1 w2 err w3 :
  stopping s = false ->
  GenerateEntropy (world s) = (secret, w1) ->
  StoreSecret secret w1 = (None, w2) ->
  EncryptSecret (PublicKeyBytes (enclaveKey e)) secret w2 = (Err err, w3) ->
  outcomeOf (GenerateSecret e s)
  = Ret (Err (InternalError (wrapError "failed to encrypt secret. Cause: %w" err))) /\
  FetchSecret (world (stateOf (GenerateSecret e s))) = Ok secret /\
  exists st, outcomeOf (Status (stateOf (GenerateSecret e s))) = Ret (st, None) /\
             StatusCode_ st = Running.
Proof.
  intros Hrun Hgen Hstore Henc.
  assert (Hst : stateOf (GenerateSecret e s) = {| world := w3; stopping := false |}).
  { unfold GenerateSecret. run. rewrite Hrun. cbn. rewrite Hgen. cbn. rewrite Hstore. cbn.
    rewrite Henc. cbn. rewrite Hrun. reflexivity. }
  assert (Hsec : FetchSecret w3 = Ok secret).
  { rewrite (encrypt_keeps_secret _ _ _ _ _ Henc). eapply fetch_stored; eassumption. }
  rewrite Hst. split; [ | split; [exact Hsec | ]].
  - unfold GenerateSecret. run. rewrite Hrun. cbn. rewrite Hgen. cbn. rewrite Hstore. cbn.
    rewrite Henc. reflexivity.
  - apply (Status_with_secret _ secret); [reflexivity | exact Hsec].
Qed.

End SecretAndStatus.

(** ** [NewEnclave] *)

Ltac boot :=
  unfold NewEnclave, bootBind, bootRet, bootLog, bootRead, bootStep, logger_Crit,
    bootRestore; cbn -[restoreStateDBCache].

Ltac not_in_steps :=
  let Hin := fresh "Hin" in
  intros Hin; repeat (destruct Hin as [Hin | Hin]; try discriminate Hin); contradiction.

Section StartupFacts.

Context {W : Type} `{Collaborators W} `{StartupCollaborators W}.


(** X18. The enclave key is made once.  When storage has a key, [NewEnclave]
    uses it and neither generates nor stores one.  When the lookup fails with
    anything but [ErrNotFound], the start-up ends critically without a key
    being generated.  Whenever a key is generated, the enclave only comes up
    after that key has been stored. *)
Theorem NewEnclave_makes_key_once (fuel : nat) (config : EnclaveConfig) (w : W) :
  (forall k,
     GetEnclaveKey (profiledWorld config w) = Ok k ->
     ~ makesKey (snd (NewEnclave fuel config w)) /\
     forall enc, fst (fst (NewEnclave fuel config w)) = Booted enc ->
       enclaveKey (impl enc) = k)
  /\
  (forall err,
     GetEnclaveKey (profiledWorld config w) = Err err ->
     errors_Is err ErrNotFound = false ->
     ~ makesKey (snd (NewEnclave fuel config w)) /\
     exists msg, fst (fst (NewEnclave fuel config w)) = Crit msg)
  /\
  (forall enc,
     fst (fst (NewEnclave fuel config w)) = Booted enc ->
     In StepGenerateEnclaveKey (snd (NewEnclave fuel config w)) ->
     In (StepStoreEnclaveKey (enclaveKey (impl enc))) (snd (NewEnclave fuel config w))).
Proof.
  unfold profiledWorld, makesKey. split; [ | split].
  - intros k. boot.
    destruct (negb (cfg_WillAttest config) && cfg_ProfilerEnabled config);
      cbn -[restoreStateDBCache];
      [destruct (profiler_Start w) as [[perr | ] w1]; cbn -[restoreStateDBCache] | ];
      intros Hkey; (split; [ | intros enc ]);
      repeat (rewrite ?Hkey; cbn -[restoreStateDBCache]; branch; cbn -[restoreStateDBCache]);
      rewrite ?Hkey; cbn -[restoreStateDBCache];
      first [ exfalso; congruence
            | intros [Hin | [k' Hin]]; revert Hin; not_in_steps
            | intros Hb; try discriminate Hb; injection Hb as <-; reflexivity ].
  - intros err. boot.
    destruct (negb (cfg_WillAttest config) && cfg_ProfilerEnabled config);
      cbn -[restoreStateDBCache];
      [destruct (profiler_Start w) as [[perr | ] w1]; cbn -[restoreStateDBCache] | ];
      intros Hkey Hnf; split;
      repeat (rewrite ?Hkey, ?Hnf; cbn -[restoreStateDBCache]; branch;
              cbn -[restoreStateDBCache]);
      rewrite ?Hkey, ?Hnf; cbn -[restoreStateDBCache];
      first [ exfalso; congruence
            | intros [Hin | [k' Hin]]; revert Hin; not_in_steps
            | eexists; reflexivity ].
  - intros enc. boot. repeat (branch; cbn -[restoreStateDBCache]);
      intros Hb; try discriminate Hb; injection Hb as <-; cbn;
      intros Hin;
      repeat (destruct Hin as [Hin | Hin]; try discriminate Hin); try contradiction;
      repeat (first [left; reflexivity | right]).
Qed.

(** X19. An enclave only comes up after the recovery of the stateDB cache
    has returned without an error, and starts in the world the recovery
    left, not stopping, in the role of its configuration; an enclave
    configured to validate L1 blocks does not come up without a genesis
    JSON. *)
Theorem NewEnclave_boots_after_recovery (fuel : nat) (config : EnclaveConfig) (w : W)
    (enc : Enclave W) :
  fst (fst (NewEnclave fuel config w)) = Booted enc ->
  stopping (initial enc) = false /\
  world (initial enc) = snd (fst (NewEnclave fuel config w)) /\
  service (impl enc) = cfg_NodeType config /\
  l1Blockchain enc = cfg_ValidateL1Blocks config /\
  (cfg_ValidateL1Blocks config = true -> cfg_GenesisJSON config <> None) /\
  exists w0,
    outcomeOf (restoreStateDBCache fuel {| world := w0; stopping := false |}) = Ret None /\
    world (stateOf (restoreStateDBCache fuel {| world := w0; stopping := false |}))
    = world (initial enc) /\
    In (StepRestoreStateDBCache
          (traceOf (restoreStateDBCache fuel {| world := w0; stopping := false |})))
       (snd (NewEnclave fuel config w)).
Proof.
  boot.
  repeat (branch; cbn -[restoreStateDBCache]);
    intros Hb; try discriminate Hb; injection Hb as <-; subst; cbn -[restoreStateDBCache];
    (do 5 (split; [solve [reflexivity | congruence | destruct (cfg_NodeType config); reflexivity] | ]));
    match goal with
    | Heq : restoreStateDBCache fuel {| world := ?w0; stopping := false |} = _ |- _ =>
        exists w0; unfold outcomeOf, stateOf, traceOf; rewrite Heq; cbn;
        split; [reflexivity | split; [reflexivity | ]];
        repeat (first [left; reflexivity | right])
    end.
Qed.

End StartupFacts.

(** ** Streaming *)

Section StreamingFacts.

Context {W : Type} `{Collaborators W} `{StreamCollaborators W}.

(** X20. For every executed batch the callback of [StreamL2Updates] sends
    the batch first, in its external form, and then at most one message with
    the logs: exactly when the receipts are not nil and the subscription
    manager returns logs that are not nil.  An error of the subscription
    manager is logged and drops the logs, not the batch.  Only a batch that
    does not convert to its external form ends the process. *)
Theorem onExecutedBatch_sends_batch_first (batch : Batch) (receipts : option Receipts)
    (w : W) :
  match onExecutedBatch batch receipts w with
  | SendCrit _ => exists err, ToExtBatch batch = Err err
  | SentOn msgs logs =>
      exists extBatch,
        ToExtBatch batch = Ok extBatch /\
        match receipts with
        | Some rs =>
            match GetSubscribedLogsForBatch batch rs w with
            | Ok (Some subscribed) => msgs = [BatchUpdate extBatch; LogsUpdate subscribed]
            | Ok None => msgs = [BatchUpdate extBatch]
            | Err _ =>
                msgs = [BatchUpdate extBatch] /\
                In (EvLog LvlError "Error while getting subscription logs") logs
            end
        | None => msgs = [BatchUpdate extBatch]
        end
  end.
Proof.
  unfold onExecutedBatch, sendBatch, streamEventsForNewHeadBatch.
  destruct (ToExtBatch batch) as [extBatch | err]; [ | eauto].
  destruct receipts as [rs | ]; [ | eauto].
  destruct (GetSubscribedLogsForBatch batch rs w) as [[subscribed | ] | err]; cbn;
    eexists; (split; [reflexivity | ]); auto.
Qed.

End StreamingFacts.

(** ** Further runs on the in-memory collaborators *)

Section MoreSimRuns.

Import Sim.

Lemma sim_toExt_toBatch (extBatch : ExtBatch) (batch : Batch) :
  ToBatch extBatch = Ok batch ->
  ToExtBatch batch = Ok extBatch /\ Header batch = ext_Header extBatch.
Proof.
  cbn. unfold toBatch. destruct extBatch as [hdr [ | x blob]]; cbn; [discriminate | ].
  intros Heq. injection Heq as <-. cbn. rewrite app_nil_r. split; reflexivity.
Qed.

Lemma find_snoc {A} (f : A -> bool) (l : list A) (a : A) :
  find f l = None -> f a = true -> find f (l ++ [a]) = Some a.
Proof.
  induction l as [ | x l IH]; cbn; intros Hnone Ha.
  - rewrite Ha. reflexivity.
  - destruct (f x); [discriminate | auto].
Qed.

Lemma sim_fetch_stored_batch (batch : Batch) (h : Hash) (w w' : World) :
  isOk (FetchBatchBySeqNo (Uint64 (SequencerOrderNo (Header batch))) w) = false ->
  StoreBatch batch h w = (None, w') ->
  FetchBatchBySeqNo (Uint64 (SequencerOrderNo (Header batch))) w' = Ok batch.
Proof.
  cbn. intros Hfree Hstore. injection Hstore as <-. cbn.
  rewrite find_snoc; [reflexivity | | apply Z.eqb_refl].
  destruct (find _ (batches w)); [discriminate Hfree | reflexivity].
Qed.

Lemma sim_execute_keeps_batches (w : World) r (w' : World) (n : Z) :
  ExecuteStoredBatches w = (r, w') -> FetchBatchBySeqNo n w' = FetchBatchBySeqNo n w.
Proof.
  cbn. unfold executeStored. intros Heq. injection Heq as _ <-. reflexivity.
Qed.

Lemma sim_execute_commits (b : Batch) (w w' : World) :
  ExecuteBatch b w = (None, w') -> snapshotCached w' b = true.
Proof.
  unfold snapshotCached. cbn. unfold executeBatch.
  destruct (hasStateDB (ParentHash (Header b)) w); [ | discriminate].
  intros Heq. injection Heq as <-. unfold hasStateDB. cbn. rewrite Z.eqb_refl. reflexivity.
Qed.

Lemma sim_replay_keeps_chain (b : Batch) (w : World) r (w' : World) :
  replayStep b w = (r, w') ->
  HeadBatchSeq w' = HeadBatchSeq w /\
  forall n, FetchBatchBySeqNo n w' = FetchBatchBySeqNo n w.
Proof.
  unfold replayStep. cbn. unfold commitGenesis, executeBatch.
  destruct (NumberU64 b =? 0).
  - destruct (find _ (batches w)); intros Heq; injection Heq as _ <-; split; reflexivity.
  - destruct (hasStateDB _ w); intros Heq; injection Heq as _ <-; split; reflexivity.
Qed.

Lemma faulty_fetch_stored (f : SimFaults.Faults) (secret : Secret) (w w' : World) :
  @StoreSecret _ (SimFaults.collaborators f) secret w = (None, w') ->
  @FetchSecret _ (SimFaults.collaborators f) w' = Ok secret.
Proof.
  cbn. intros Heq. injection Heq as <-. reflexivity.
Qed.

Lemma faulty_encrypt_keeps_secret (f : SimFaults.Faults) (pub : bytes) (secret : Secret)
    (w : World) r (w' : World) :
  @EncryptSecret _ (SimFaults.collaborators f) pub secret w = (r, w') ->
  @FetchSecret _ (SimFaults.collaborators f) w' = @FetchSecret _ (SimFaults.collaborators f) w.
Proof.
  cbn. unfold encryptSecret. destruct (SimFaults.failEncrypt f);
    intros Heq; injection Heq as _ <-; reflexivity.
Qed.

(** X1 on a running enclave. *)
Lemma HealthCheck_never_fails_witness :
  stateOf (HealthCheck (start runningWorld)) = start runningWorld /\
  exists healthy,
    outcomeOf (HealthCheck (start runningWorld)) = Ret (Ok healthy) /\
    (healthy = true <->
     storage_HealthCheck runningWorld = Ok true /\
     l1_HealthCheck runningWorld = Ok true /\
     registry_HealthCheck runningWorld = Ok true).
Proof.
  exact (HealthCheck_never_fails (H := simCollaborators) (start runningWorld) eq_refl).
Defined.

(** X2 on [GenerateSecret]. *)
Lemma only_ingestion_entry_points_lock_witness :
  locks (traceOf (serve sequencer ReqGenerateSecret (start emptyWorld))) = false.
Proof.
  exact (only_ingestion_entry_points_lock (H := simCollaborators) sequencer
           (start emptyWorld) ReqGenerateSecret eq_refl).
Defined.

(** X3 on a batch whose parent is missing. *)
Lemma facade_errors_are_internal_witness :
  codeOf (InternalError (errorString "could not find previous batch with seq: 2"))
  = Some CodeInternal \/
  CreateEthHeaderForBatch (ext_Header (mkExtBatch 3)) emptyWorld
  = Err (InternalError (errorString "could not find previous batch with seq: 2")).
Proof.
  exact (facade_errors_are_internal (H := simCollaborators) validator (start emptyWorld)
           (ReqSubmitBatch (mkExtBatch 3))
           (ofError (Some (InternalError
              (errorString "could not find previous batch with seq: 2"))))
           (InternalError (errorString "could not find previous batch with seq: 2"))
           eq_refl eq_refl).
Defined.

(** X4 on a trace request. *)
Lemma debugger_unreachable_when_disabled_witness :
  ~ callsDebugger (traceOf (serve validator (ReqDebugTraceTransaction 5) (start runningWorld))).
Proof.
  exact (debugger_unreachable_when_disabled (H := simCollaborators) validator
           (start runningWorld) (ReqDebugTraceTransaction 5) eq_refl).
Defined.

(** X5 with a profiler that fails to stop, and without a profiler. *)
Lemma Stop_closes_in_order_witness :
  @Stop _ (SimFaults.collaborators SimFaults.profilerFails) SimFaults.profiled
        (start runningWorld)
  = (Ret (Some SimFaults.fault), {| world := runningWorld; stopping := true |},
     [EvStop; EvCall Profiler_Stop; EvLog LvlError "Could not stop profiler"]) /\
  outcomeOf (@Stop _ (SimFaults.collaborators SimFaults.profilerFails) sequencer
                   (start runningWorld)) = Ret None.
Proof.
  split.
  - exact (proj1 (Stop_closes_in_order (H := SimFaults.collaborators SimFaults.profilerFails)
                    SimFaults.profiled (start runningWorld))
             SimFaults.fault runningWorld eq_refl eq_refl).
  - exact (proj1 (proj2 (Stop_closes_in_order
                           (H := SimFaults.collaborators SimFaults.profilerFails)
                           sequencer (start runningWorld))
                    runningWorld (Some SimFaults.fault) runningWorld None
                    (setClosed runningWorld) eq_refl eq_refl eq_refl)).
Defined.

Lemma sim_second_batch : seqNoOf (mkExtBatch 2) <= L2GenesisSeqNo + 1.
Proof.
  vm_compute. discriminate.
Defined.

(** X6 on the batch after genesis. *)
Lemma SubmitBatch_first_batches_skip_parent_lookup_witness :
  seqNoOf (mkExtBatch 2) <= L2GenesisSeqNo + 1 /\
  ~ In (EvCall (Storage_FetchBatchBySeqNo 1))
       (traceOf (SubmitBatch validator (mkExtBatch 2) (start emptyWorld))) /\
  outcomeOf (SubmitBatch validator (mkExtBatch 2) (start emptyWorld)) = Ret None.
Proof.
  split; [exact sim_second_batch | split; [ | reflexivity]].
  exact (SubmitBatch_first_batches_skip_parent_lookup (H := simCollaborators) validator
           (start emptyWorld) (mkExtBatch 2) sim_second_batch 1).
Defined.

Lemma sim_checks_pass (f : SimFaults.Faults) :
  @checksPass _ (SimFaults.collaborators f) validator warmWorld (mkExtBatch 4)
    {| Header := Header (mkBatch 4); Transactions := [[Byte.x74]] |}
    {| eth_ParentHash := 1003; eth_Number := 3; eth_Root := 44 |}.
Proof.
  split; [reflexivity | split; [ | repeat split]].
  intros [_ Hmiss]. vm_compute in Hmiss. discriminate Hmiss.
Defined.

Lemma sim_checks_pass_plain :
  checksPass validator (world (start warmWorld)) (mkExtBatch 4)
    {| Header := Header (mkBatch 4); Transactions := [[Byte.x74]] |}
    {| eth_ParentHash := 1003; eth_Number := 3; eth_Root := 44 |}.
Proof.
  split; [reflexivity | split; [ | repeat split]].
  intros [_ Hmiss]. vm_compute in Hmiss. discriminate Hmiss.
Defined.

(** C3 on a batch that passes the checks, on [CreateBatch] and on an
    encrypted call. *)
Lemma ingestion_mutex_discipline_witness :
  traceOf (SubmitBatch validator (mkExtBatch 4) (start warmWorld))
  = [EvLog LvlInfo "Received new p2p batch"; EvCall (Storage_FetchBatchBySeqNo 3);
     EvCall Validator_VerifySequencerSignature; EvCall Encoding_CreateEthHeaderForBatch;
     EvLock;
     EvCall (Storage_StoreBatch {| Header := Header (mkBatch 4);
                                   Transactions := [[Byte.x74]] |} 2003);
     EvCall Validator_ExecuteStoredBatches;
     EvUnlock] /\
  heldThroughout (traceOf (CreateBatch sequencer true (start warmWorld))) = true /\
  guarded false (traceOf (serve validator (ReqSubmitBatch (mkExtBatch 4)) (start warmWorld)))
  = Some false /\
  locks (traceOf (serve validator (ReqObsCall []) (start warmWorld))) = false.
Proof.
  split; [ | split; [ | split]].
  - exact (proj1 (proj1 (proj2 (proj2 (proj2 (proj1 (proj2
             (ingestion_mutex_discipline (H := simCollaborators) validator
                (start warmWorld))) eq_refl))))
             (mkExtBatch 4) _ _ sim_checks_pass_plain)).
  - exact (proj1 (proj2 (proj1 (proj2
             (ingestion_mutex_discipline (H := simCollaborators) sequencer
                (start warmWorld))) eq_refl)) true).
  - exact (proj1 (proj1 (ingestion_mutex_discipline (H := simCollaborators) validator
                           (start warmWorld))
                    (ReqSubmitBatch (mkExtBatch 4)) eq_refl)).
  - exact (proj2 (proj2 (ingestion_mutex_discipline (H := simCollaborators) validator
                           (start warmWorld)))
             (ReqObsCall []) eq_refl).
Defined.

(** C3 as stated fails there: on a validator that is not stopping,
    [SubmitBatch] ends without ever taking the mutex when the parent of the
    batch is missing, and on a batch that passes its checks it takes the
    mutex only after it has read storage, verified the signature and computed
    the converted header. *)
Lemma SubmitBatch_takes_mutex_late :
  stopping (start emptyWorld) = false /\
  outcomeOf (SubmitBatch validator (mkExtBatch 3) (start emptyWorld))
  = Ret (Some (InternalError (errorString "could not find previous batch with seq: 2"))) /\
  locks (traceOf (SubmitBatch validator (mkExtBatch 3) (start emptyWorld))) = false /\
  stopping (start warmWorld) = false /\
  hd_error (traceOf (SubmitBatch validator (mkExtBatch 4) (start warmWorld)))
  = Some (EvLog LvlInfo "Received new p2p batch") /\
  nth_error (traceOf (SubmitBatch validator (mkExtBatch 4) (start warmWorld))) 1
  = Some (EvCall (Storage_FetchBatchBySeqNo 3)) /\
  nth_error (traceOf (SubmitBatch validator (mkExtBatch 4) (start warmWorld))) 4
  = Some EvLock /\
  heldThroughout (traceOf (SubmitBatch validator (mkExtBatch 4) (start warmWorld))) = false.
Proof.
  repeat split.
Qed.

(** X7 with an execution that fails: the batch stays stored. *)
Lemma SubmitBatch_no_rollback_witness :
  outcomeOf (@SubmitBatch _ (SimFaults.collaborators SimFaults.executeFails) validator
                          (mkExtBatch 4) (start warmWorld))
  = Ret (Some (InternalError
                 (wrapError "could not execute batches. Cause: %w" SimFaults.fault))) /\
  batches (world (stateOf (@SubmitBatch _ (SimFaults.collaborators SimFaults.executeFails)
                                        validator (mkExtBatch 4) (start warmWorld))))
  = [mkBatch 1; mkBatch 2; mkBatch 3; mkBatch 4].
Proof.
  destruct (proj1 (proj2 (proj2 (SubmitBatch_no_rollback
                                   (H := SimFaults.collaborators SimFaults.executeFails)
                                   validator (start warmWorld) (mkExtBatch 4) _ _
                                   eq_refl (sim_checks_pass SimFaults.executeFails))))
              _ SimFaults.fault _ eq_refl eq_refl) as (Hout & Hw & _).
  split; [exact Hout | rewrite Hw; reflexivity].
Defined.

(** X8 on a new batch. *)
Lemma GetBatchBySeqNo_after_SubmitBatch_witness :
  outcomeOf (GetBatchBySeqNo (seqNoOf (mkExtBatch 4))
               (stateOf (SubmitBatch validator (mkExtBatch 4) (start warmWorld))))
  = Ret (Ok (mkExtBatch 4)).
Proof.
  exact (GetBatchBySeqNo_after_SubmitBatch (H := simCollaborators) sim_toExt_toBatch
           sim_fetch_stored_batch sim_execute_keeps_batches validator (start warmWorld)
           (mkExtBatch 4) eq_refl eq_refl).
Defined.

(** X9 with a rollup that does not decompress. *)
Lemma SubmitL1Block_tolerates_rollup_errors_witness :
  outcomeOf (@SubmitL1Block _ (SimFaults.collaborators SimFaults.rollupFails)
                            SimFaults.blockB [] (start runningWorld))
  = Ret (Ok {| ProducedSecretResponses := [] |}).
Proof.
  refine (proj1 (SubmitL1Block_tolerates_rollup_errors
                   (H := SimFaults.collaborators SimFaults.rollupFails)
                   SimFaults.blockB [] (start runningWorld)
                   {| br_Block := SimFaults.blockB; br_Receipts := [] |}
                   {| IsFork := false;
                      ing_ChainFork := {| CommonAncestor := 500; NonCanonicalPath := [];
                                          CanonicalPath := [501] |} |}
                   (setL1Blocks [SimFaults.blockB; blockA] runningWorld)
                   (Some (errorString "could not decompress rollup"))
                   (setL1Blocks [SimFaults.blockB; blockA] runningWorld)
                   (setL1Blocks [SimFaults.blockB; blockA] runningWorld)
                   []
                   (setL1Blocks [SimFaults.blockB; blockA] runningWorld)
                   eq_refl eq_refl eq_refl eq_refl eq_refl eq_refl eq_refl)).
Defined.

(** X10 on a block that is already processed. *)
Lemma SubmitL1Block_process_failure_witness :
  outcomeOf (SubmitL1Block blockA [] (start runningWorld))
  = Ret (Err (rejection runningWorld ErrBlockAlreadyProcessed)) /\
  writes (traceOf (SubmitL1Block blockA [] (start runningWorld))) = [L1_Process].
Proof.
  destruct (SubmitL1Block_process_failure (H := simCollaborators) blockA []
              (start runningWorld) {| br_Block := blockA; br_Receipts := [] |}
              ErrBlockAlreadyProcessed runningWorld eq_refl eq_refl eq_refl)
    as (Hout & _ & Hw & _).
  split; assumption.
Defined.

(** X11 on the cold chain. *)
Lemma restoreStateDBCache_never_panics_witness :
  outcomeOf (restoreStateDBCache 10 (start coldWorld))
  <> Panic "runtime error: index out of range [-1]".
Proof.
  exact (restoreStateDBCache_never_panics (H := simCollaborators) 10 (start coldWorld)
           "runtime error: index out of range [-1]").
Defined.

(** X12 on a chain whose head, the genesis batch, is cached. *)
Lemma replayBatchesToValidState_needs_uncached_head_witness :
  outcomeOf (replayBatchesToValidState 10 (start (setHeadSeq (Some 1) warmWorld)))
  = Panic "runtime error: index out of range [-1]".
Proof.
  refine (proj1 (proj2 (replayBatchesToValidState_needs_uncached_head
                          (H := simCollaborators) 10
                          (start (setHeadSeq (Some 1) warmWorld)))
                   1 (mkBatch 1) eq_refl eq_refl eq_refl _)).
  discriminate.
Defined.

Lemma sim_broken : Broken SimFaults.brokenWorld (mkBatch 3) 1 ErrNotFound.
Proof.
  apply Broken_here; [reflexivity | vm_compute; discriminate | reflexivity].
Defined.

(** X13 on a chain whose only stored batch is the head. *)
Lemma restoreStateDBCache_fails_before_replay_witness :
  outcomeOf (restoreStateDBCache 10 (start SimFaults.brokenWorld))
  = Ret (Some (wrapError "unable to replay batches to restore valid state - %w"
                 (wrapError
                    "unable to fetch previous batch while rolling back to stable state - %w"
                    ErrNotFound))) /\
  stateOf (restoreStateDBCache 10 (start SimFaults.brokenWorld)) = start SimFaults.brokenWorld.
Proof.
  destruct (proj2 (restoreStateDBCache_fails_before_replay (H := simCollaborators) 10
                     (start SimFaults.brokenWorld) 3 eq_refl)
              (mkBatch 3) 1%nat ErrNotFound eq_refl sim_broken) as (Hout & Hst & _).
  - cbn. lia.
  - split; assumption.
Defined.

Lemma sim_head_above_genesis : NumberU64 (mkBatch 3) <> 0.
Proof.
  vm_compute. discriminate.
Defined.

(** X14 on the cold chain. *)
Lemma restoreStateDBCache_twice_witness :
  outcomeOf (restoreStateDBCache 10 (stateOf (restoreStateDBCache 10 (start coldWorld))))
  = Ret None /\
  writes (traceOf (restoreStateDBCache 10
                     (stateOf (restoreStateDBCache 10 (start coldWorld))))) = [].
Proof.
  destruct (restoreStateDBCache_twice (H := simCollaborators) sim_execute_commits
              sim_replay_keeps_chain 10 10 (start coldWorld) 3 (mkBatch 3)
              eq_refl eq_refl sim_head_above_genesis eq_refl) as (Hout & _ & Hw).
  split; assumption.
Defined.

(** X15 after [GenerateSecret] on a fresh enclave. *)
Lemma Status_follows_secret_witness :
  exists st,
    outcomeOf (Status (stateOf (GenerateSecret sequencer (start emptyWorld)))) = Ret (st, None) /\
    StatusCode_ st = Running.
Proof.
  exact (proj1 (Status_follows_secret (H := simCollaborators) sim_fetch_stored
                  sim_encrypt_keeps_secret sequencer (start emptyWorld))
           [Byte.x6b; Byte.x31; Byte.x61; Byte.x62; Byte.x63] eq_refl).
Defined.

(** X16 with an encryption that fails. *)
Lemma GenerateSecret_stores_before_encrypting_witness :
  outcomeOf (@GenerateSecret _ (SimFaults.collaborators SimFaults.encryptFails) sequencer
                             (start emptyWorld))
  = Ret (Err (InternalError (wrapError "failed to encrypt secret. Cause: %w"
                               SimFaults.fault))) /\
  secret (world (stateOf (@GenerateSecret _ (SimFaults.collaborators SimFaults.encryptFails)
                                          sequencer (start emptyWorld))))
  = Some [Byte.x61; Byte.x62; Byte.x63].
Proof.
  destruct (GenerateSecret_stores_before_encrypting
              (H := SimFaults.collaborators SimFaults.encryptFails)
              (faulty_fetch_stored SimFaults.encryptFails)
              (faulty_encrypt_keeps_secret SimFaults.encryptFails)
              sequencer (start emptyWorld) _ _ _ SimFaults.fault _
              eq_refl eq_refl eq_refl eq_refl) as (Hout & _ & _).
  split; [exact Hout | reflexivity].
Defined.


(** X18 on a storage that holds the enclave key. *)
Lemma NewEnclave_makes_key_once_witness :
  ~ makesKey (snd (@NewEnclave _ simCollaborators (SimBoot.startup (Some key) SimBoot.freshKey)
                               10 SimBoot.devConfig coldWorld)).
Proof.
  exact (proj1 (proj1 (NewEnclave_makes_key_once (H := simCollaborators)
                         (H0 := SimBoot.startup (Some key) SimBoot.freshKey) 10
                         SimBoot.devConfig coldWorld) key eq_refl)).
Defined.

(** X19 on a first start over the cold chain. *)
Lemma NewEnclave_boots_after_recovery_witness :
  exists enc,
    fst (fst (@NewEnclave _ simCollaborators (SimBoot.startup None SimBoot.freshKey) 10
                          SimBoot.devConfig coldWorld)) = Booted enc /\
    stopping (initial enc) = false /\
    service (impl enc) = SequencerNode /\
    stateDBs (world (initial enc)) = [1003; 1002; 1001].
Proof.
  eexists. split; [reflexivity | ].
  match goal with
  | |- stopping (initial ?enc) = false /\ _ =>
      destruct (NewEnclave_boots_after_recovery (H := simCollaborators)
                  (H0 := SimBoot.startup None SimBoot.freshKey) 10 SimBoot.devConfig
                  coldWorld enc eq_refl) as (Hstop & _ & Hsvc & _)
  end.
  split; [exact Hstop | split; [exact Hsvc | reflexivity]].
Defined.

End MoreSimRuns.
